(** * AION SDK: request execution and real-time subscriptions

    A shallow embedding of the core of the Python SDK
    ([aion_sdk/client.py], [aion_sdk/exceptions.py], [aion_sdk/websocket.py],
    [aion_sdk/progress.py], with the model classes of [aion_sdk/models.py]
    they use), and the properties of the request executor, the error
    classifier and the event subscription engine.

    Conventions.  A coroutine is a function from the outcomes of the
    awaited library calls to its result; [raise] is the [Raise] constructor
    of [result]; what [httpx], [websockets], [pydantic] and the Python
    built-ins do is either part of the input (the outcome of a transport
    call, the closed flag of a socket) or a field of [PyRuntime]. *)

From Stdlib Require Import ZArith String Ascii List Bool Lia DecimalString.
From stdpp Require Import base option list strings gmap sets.

Import ListNotations.
Local Open Scope string_scope.
Local Open Scope list_scope.
Local Open Scope Z_scope.

(** ** Python values *)

(** What [json.loads] / [response.json()] return, and what the SDK hands
    back to its callers.  JSON numbers are restricted to integers: floating
    point is outside the model. *)
#[warnings="-register-all"]
Inductive value : Type :=
| VNone
| VBool (b : bool)
| VInt (n : Z)
| VStr (s : string)
| VList (items : list value)
| VDict (items : gmap string value).

Abbreviation dict := (gmap string value).

(** Python truthiness, as used by [x or default]. *)
Definition truthy (v : value) : bool :=
  match v with
  | VNone => false
  | VBool b => b
  | VInt n => negb (n =? 0)
  | VStr s => negb (String.eqb s EmptyString)
  | VList items => match items with [] => false | _ => true end
  | VDict items => negb (Nat.eqb (size items) 0)
  end.

(** [s or fallback] on strings. *)
Definition str_or (s fallback : string) : string :=
  if String.eqb s EmptyString then fallback else s.

(** [f"{n}"] for an [int]. *)
Definition str_of_int (n : Z) : string := NilZero.string_of_int (Z.to_int n).

(** ** aion_sdk/models.py: the two envelopes *)

Module ApiResponse.
(** [class ApiResponse(BaseModel)]: [data: Any], [success: bool = True],
    [message: Optional[str] = None]. *)
Record t := make { data : value; success : bool; message : option string }.
End ApiResponse.

Module ApiError.
(** [class ApiError(BaseModel)]: [error: str], [message: str],
    [code: Optional[str] = None], [details: Optional[Dict[str, Any]] = None]. *)
Record t := make {
  error : string;
  message : string;
  code : option string;
  details : option dict
}.
End ApiError.

(** ** What the code takes from pydantic and the built-ins *)

Class PyRuntime := {
  (** [ApiResponse.model_validate(d)]; [None] when it raises
      [pydantic.ValidationError]. *)
  ApiResponse_model_validate : dict -> option ApiResponse.t;
  (** [ApiError.model_validate(d)]; [None] when it raises. *)
  ApiError_model_validate : dict -> option ApiError.t;
  (** the built-in [str] on a decoded JSON value *)
  py_str : value -> string;
  (** the built-in [int] on a [str]; [None] when it raises [ValueError] *)
  py_int : string -> option Z
}.

(** ** aion_sdk/exceptions.py *)

Inductive exn_class : Type :=
(* aion_sdk.exceptions *)
| AionError
| AionAPIError
| AionAuthenticationError
| AionAuthorizationError
| AionNotFoundError
| AionValidationError
| AionRateLimitError
| AionConnectionError
| AionTimeoutError
| AionWebSocketError
| AionConfigurationError
(* built-in *)
| TypeError
| UnboundLocalError
| JSONDecodeError
(* pydantic *)
| ValidationError
(* httpx *)
| TimeoutException
| ConnectError
| HTTPStatusError
(* websockets.exceptions *)
| ConnectionClosed
(* any other subclass of Exception *)
| OtherException.

#[global] Instance exn_class_eq_dec : EqDecision exn_class.
Proof. solve_decision. Defined.

(** The direct base class; [None] stands for a base outside the model
    (ultimately [Exception]). *)
Definition base_class (c : exn_class) : option exn_class :=
  match c with
  | AionAPIError | AionConnectionError | AionTimeoutError
  | AionWebSocketError | AionConfigurationError => Some AionError
  | AionAuthenticationError | AionAuthorizationError | AionNotFoundError
  | AionValidationError | AionRateLimitError => Some AionAPIError
  | _ => None
  end.

(** [issubclass c d]; the hierarchy is two levels deep. *)
Definition issubclass (c d : exn_class) : bool :=
  bool_decide (c = d)
  || match base_class c with
     | Some b =>
         bool_decide (b = d)
         || match base_class b with
            | Some b' => bool_decide (b' = d)
            | None => false
            end
     | None => false
     end.

(** An exception object: its class, [str(e)], the attributes the SDK
    classes set, and the [__cause__] of [raise ... from e]. *)
#[warnings="-register-all"]
Inductive exn : Type := Exn {
  cls : exn_class;
  message : string;
  details : dict;
  status_code : option Z;
  response_data : option value;
  retry_after : option Z;
  cause : option exn
}.

Definition isinstance (e : exn) (c : exn_class) : bool := issubclass (cls e) c.

(** [raise new from e] *)
Definition from (new e : exn) : exn :=
  Exn (cls new) (message new) (details new) (status_code new)
      (response_data new) (retry_after new) (Some e).

(** An exception of a library class: only its class and text matter. *)
Definition foreign (c : exn_class) (msg : string) : exn :=
  Exn c msg ∅ None None None None.

(** [AionError.__init__(self, message, details=None)] *)
Definition AionError_init (c : exn_class) (message : string)
    (details : option dict) : exn :=
  Exn c message (default ∅ details) None None None None.

(** [AionAPIError.__init__(self, message, status_code, response_data=None,
    details=None)]; [response_data or {}]. *)
Definition AionAPIError_init (c : exn_class) (message : string)
    (status_code : Z) (response_data : option value)
    (details : option dict) : exn :=
  let rd := match response_data with
            | Some v => if truthy v then v else VDict ∅
            | None => VDict ∅
            end in
  Exn c message (default ∅ details) (Some status_code) (Some rd) None None.

(** [AionAuthenticationError(message, details)]: status 401 *)
Definition AionAuthenticationError_init (message : string)
    (details : option dict) : exn :=
  AionAPIError_init AionAuthenticationError message 401 None details.

(** [AionAuthorizationError(message, details)]: status 403 *)
Definition AionAuthorizationError_init (message : string)
    (details : option dict) : exn :=
  AionAPIError_init AionAuthorizationError message 403 None details.

(** [AionNotFoundError(resource, details)]: status 404, the message is
    built from the resource. *)
Definition AionNotFoundError_init (resource : string)
    (details : option dict) : exn :=
  AionAPIError_init AionNotFoundError ("Resource not found: " +:+ resource)
    404 None details.

(** [AionValidationError(message, field_errors=None)]: status 400 *)
Definition AionValidationError_init (message : string) : exn :=
  AionAPIError_init AionValidationError message 400 None None.

(** [AionRateLimitError(message, retry_after, details)]: status 429 *)
Definition AionRateLimitError_init (msg : string)
    (hint : option Z) (dets : option dict) : exn :=
  let e := AionAPIError_init AionRateLimitError msg 429 None dets in
  Exn (cls e) (message e) (details e) (status_code e) (response_data e)
      hint None.

(** The parameters that [__init__] of each class accepts by keyword
    (after [self]), as declared in exceptions.py. *)
Definition AionAPIError_params : list string :=
  ["message"; "status_code"; "response_data"; "details"].
Definition AionAuthenticationError_params : list string :=
  ["message"; "details"].
Definition AionAuthorizationError_params : list string :=
  ["message"; "details"].
Definition AionNotFoundError_params : list string := ["resource"; "details"].
Definition AionValidationError_params : list string :=
  ["message"; "field_errors"].
Definition AionRateLimitError_params : list string :=
  ["message"; "retry_after"; "details"].

(** A call [C(..., k=v, ...)] with the keywords [kwargs] of a class whose
    [__init__] has the parameters [params]: a keyword that names no
    parameter makes Python raise [TypeError] instead of building the
    object [e]. *)
Definition construct (qualname : string) (params kwargs : list string)
    (e : exn) : exn :=
  match List.find (fun k => negb (bool_decide (k ∈ params))) kwargs with
  | Some k =>
      foreign TypeError
        (qualname +:+ ".__init__() got an unexpected keyword argument '"
           +:+ k +:+ "'")
  | None => e
  end.

(** [AionAPIError.is_client_error] *)
Definition is_client_error (e : exn) : bool :=
  match status_code e with
  | Some s => (400 <=? s) && (s <? 500)
  | None => false
  end.

(** [AionAPIError.is_server_error] *)
Definition is_server_error (e : exn) : bool :=
  match status_code e with
  | Some s => (500 <=? s) && (s <? 600)
  | None => false
  end.

(** The [is_retryable] property; [None] for a class that has none.
    [AionRateLimitError], [AionConnectionError] and [AionTimeoutError]
    override it with [True]; the other API errors inherit
    [is_server_error or status_code == 429]. *)
Definition is_retryable (e : exn) : option bool :=
  if isinstance e AionRateLimitError then Some true
  else if isinstance e AionAPIError then
    Some (is_server_error e || bool_decide (status_code e = Some 429))
  else if isinstance e AionConnectionError then Some true
  else if isinstance e AionTimeoutError then Some true
  else None.

(** ** Results of coroutines *)

Inductive result (A : Type) : Type :=
| Return (a : A)
| Raise (e : exn).
Arguments Return {A} a.
Arguments Raise {A} e.

(** Sequencing: an exception of the first step skips the rest. The
    notation [x ← m; k] is stdpp's. *)
#[global] Instance result_ret : MRet result := @Return.
#[global] Instance result_bind : MBind result :=
  fun A B k m =>
    match m with
    | Return a => k a
    | Raise e => Raise e
    end.

(** [try: body / except Exception as e: handler(e)]: every class of the
    model derives from [Exception]. *)
Definition try_except {A : Type} (body : result A) (handler : exn -> result A)
    : result A :=
  match body with
  | Return a => Return a
  | Raise e => handler e
  end.

(** ** The part of httpx.Response the client reads *)

Module httpx.
(** [json] is what [response.json()] gives: [None] when it raises. The
    header names are lower-case. *)
Record Response := make {
  status_code : Z;
  text : string;
  json : option value;
  headers : gmap string string
}.

(** [Response.is_success]: a 2xx status. *)
Definition is_success (r : Response) : bool :=
  (200 <=? status_code r) && (status_code r <=? 299).
End httpx.

(** [response.json()] as a call that may raise. *)
Definition response_json (response : httpx.Response) : result value :=
  match httpx.json response with
  | Some v => Return v
  | None => Raise (foreign JSONDecodeError "Expecting value")
  end.

(** ** aion_sdk/client.py *)

(** [timeout] is kept as the text [f"{self.timeout}"] prints. *)
Record AionClient := {
  base_url : string;
  api_key : string;
  timeout : string;
  max_retries : Z
}.

(** [range(n)] *)
Definition py_range (n : Z) : list Z := map Z.of_nat (seq 0 (Z.to_nat n)).

(** [AionTimeoutError(message)] *)
Definition AionTimeoutError_init (msg : string) : exn :=
  AionError_init AionTimeoutError msg None.

(** [AionConnectionError(message)] *)
Definition AionConnectionError_init (msg : string) : exn :=
  AionError_init AionConnectionError msg None.

Section Client.
Context {rt : PyRuntime}.

Definition validate_ApiResponse (d : dict) : result ApiResponse.t :=
  match ApiResponse_model_validate d with
  | Some a => Return a
  | None => Raise (foreign ValidationError "ApiResponse")
  end.

(** The [try] block of the error branch of [_handle_response]: the local
    variables [error_data], [message] and [details] after it.  [error_data]
    is [None] when [response.json()] raised, so that the name was never
    bound; it stays bound when only the validation raised. *)
Definition error_fields (response : httpx.Response)
    : option value * string * option dict :=
  let fallback :=
    str_or (httpx.text response)
      ("HTTP " +:+ str_of_int (httpx.status_code response)) in
  match httpx.json response with
  | Some (VDict d) =>
      match ApiError_model_validate d with
      | Some api_error =>
          (Some (VDict d), ApiError.message api_error,
           ApiError.details api_error)
      | None => (Some (VDict d), fallback, None)
      end
  | Some error_data => (Some error_data, py_str error_data, None)
  | None => (None, fallback, None)
  end.

(** [AionClient._handle_response] *)
Definition _handle_response (response : httpx.Response) : result value :=
  if httpx.is_success response then
    try_except
      (data ← response_json response;
       match data with
       | VDict d =>
           if bool_decide (is_Some (d !! "data")) then
             (* Handle wrapped API responses *)
             api_response ← validate_ApiResponse d;
             if ApiResponse.success api_response then
               Return (ApiResponse.data api_response)
             else
               Raise (AionAPIError_init AionAPIError
                        (str_or (default EmptyString
                                   (ApiResponse.message api_response))
                                "Unknown API error")
                        (httpx.status_code response) (Some data) None)
           else Return data
       | _ => Return data
       end)
      (fun e =>
         if isinstance e AionError then Raise e
         else (* Return raw response if JSON parsing fails *)
           Return (VStr (httpx.text response)))
  else
    let '(error_data, msg, dets) := error_fields response in
    let status := httpx.status_code response in
    (* Map status codes to specific exceptions *)
    if status =? 401 then
      Raise (construct "AionAuthenticationError"
               AionAuthenticationError_params ["details"]
               (AionAuthenticationError_init msg dets))
    else if status =? 403 then
      Raise (construct "AionAuthorizationError"
               AionAuthorizationError_params ["details"]
               (AionAuthorizationError_init msg dets))
    else if status =? 404 then
      Raise (construct "AionNotFoundError"
               AionNotFoundError_params ["details"]
               (AionNotFoundError_init msg dets))
    else if status =? 400 then
      Raise (construct "AionValidationError"
               AionValidationError_params ["details"]
               (AionValidationError_init msg))
    else if status =? 429 then
      let hint :=
        match httpx.headers response !! "retry-after" with
        | Some h => py_int h
        | None => None
        end in
      Raise (construct "AionRateLimitError"
               AionRateLimitError_params ["retry_after"; "details"]
               (AionRateLimitError_init msg hint dets))
    else
      match error_data with
      | Some ed =>
          Raise (construct "AionAPIError"
                   AionAPIError_params ["response_data"; "details"]
                   (AionAPIError_init AionAPIError msg status (Some ed) dets))
      | None =>
          Raise (foreign UnboundLocalError
                   "cannot access local variable 'error_data' where it is not associated with a value")
      end.

Section Request.
Variable self : AionClient.
(** [transport attempt]: what [self._client.request(...)] does when it is
    awaited in iteration [attempt] of the loop: a response, or an exception
    of httpx ([TimeoutException], [ConnectError]) or any other. *)
Variable transport : Z -> result httpx.Response.

(** The [for attempt in range(...)] loop of [request], over the attempts
    that remain; [slept] collects the arguments of [asyncio.sleep] so far.
    A loop that runs out makes the coroutine return [None]. *)
Fixpoint request_for (attempts : list Z) (slept : list Z)
    : result value * list Z :=
  match attempts with
  | [] => (Return VNone, slept)
  | attempt :: rest =>
      match (response ← transport attempt; _handle_response response) with
      | Return v => (Return v, slept)
      | Raise e =>
          if isinstance e TimeoutException then
            if attempt =? max_retries self then
              (Raise (from (AionTimeoutError_init
                              ("Request timeout after " +:+ timeout self
                                 +:+ "s")) e), slept)
            else request_for rest (slept ++ [2 ^ attempt])
          else if isinstance e ConnectError then
            if attempt =? max_retries self then
              (Raise (from (AionConnectionError_init
                              ("Connection failed: " +:+ message e)) e),
               slept)
            else request_for rest (slept ++ [2 ^ attempt])
          else (* except Exception *)
            if attempt =? max_retries self then
              (Raise (from (AionError_init AionError
                              ("Unexpected error: " +:+ message e) None) e),
               slept)
            else request_for rest (slept ++ [2 ^ attempt])
      end
  end.

(** [AionClient.request] from its loop on, for a URL that [urljoin] has
    built ([request_path] below starts at the first statement): the result
    and the delays slept, in order. *)
Definition request : result value * list Z :=
  request_for (py_range (max_retries self + 1)) [].

End Request.
End Client.

(** ** A reference runtime

    pydantic and the built-ins on the inputs whose outcome does not depend
    on coercion rules: a field holding a value of exactly its declared type
    is accepted as it is, a missing optional field takes its default, and a
    missing required field is rejected.  A field of another JSON type is
    rejected here (pydantic's lax mode coerces some of them); the general
    statements below hold for every runtime and use this one only at
    concrete, exactly typed inputs. *)

Definition field_str (d : dict) (k : string) : option string :=
  match d !! k with
  | Some (VStr s) => Some s
  | _ => None
  end.

Definition field_opt_str (d : dict) (k : string) : option (option string) :=
  match d !! k with
  | None | Some VNone => Some None
  | Some (VStr s) => Some (Some s)
  | Some _ => None
  end.

Definition field_bool (d : dict) (k : string) (dflt : bool) : option bool :=
  match d !! k with
  | None => Some dflt
  | Some (VBool b) => Some b
  | Some _ => None
  end.

Definition field_opt_dict (d : dict) (k : string) : option (option dict) :=
  match d !! k with
  | None | Some VNone => Some None
  | Some (VDict m) => Some (Some m)
  | Some _ => None
  end.

Definition typed_ApiResponse (d : dict) : option ApiResponse.t :=
  v ← d !! "data";
  b ← field_bool d "success" true;
  m ← field_opt_str d "message";
  Some (ApiResponse.make v b m).

Definition typed_ApiError (d : dict) : option ApiError.t :=
  e ← field_str d "error";
  m ← field_str d "message";
  c ← field_opt_str d "code";
  ds ← field_opt_dict d "details";
  Some (ApiError.make e m c ds).

(** [str] on the scalars; the text of a container is not reproduced. *)
Definition scalar_str (v : value) : string :=
  match v with
  | VNone => "None"
  | VBool true => "True"
  | VBool false => "False"
  | VInt n => str_of_int n
  | VStr s => s
  | VList _ => "[...]"
  | VDict _ => "{...}"
  end.

(** [int] on a plain decimal numeral: one digit or more, nothing else. *)
Definition decimal_int (s : string) : option Z :=
  match NilZero.uint_of_string s with
  | Some Decimal.Nil => None
  | Some u => Some (Z.of_uint u)
  | None => None
  end.

Definition typed_runtime : PyRuntime := {|
  ApiResponse_model_validate := typed_ApiResponse;
  ApiError_model_validate := typed_ApiError;
  py_str := scalar_str;
  py_int := decimal_int
|}.

(** A runtime agrees with pydantic on exactly typed envelopes. *)
Definition validates_typed (rt : PyRuntime) : Prop :=
  forall (d : dict) v b m,
    d !! "data" = Some v ->
    field_bool d "success" true = Some b ->
    field_opt_str d "message" = Some m ->
    ApiResponse_model_validate d = Some (ApiResponse.make v b m).

(** A runtime hands the [data] field over as it is ([data: Any]). *)
Definition passes_data (rt : PyRuntime) : Prop :=
  forall (d : dict) (a : ApiResponse.t),
    ApiResponse_model_validate d = Some a ->
    d !! "data" = Some (ApiResponse.data a).

(** ** aion_sdk/models.py: progress events *)

Inductive ProgressEventType : Type :=
| SESSION_STARTED
| TASK_STARTED
| TASK_PROGRESS
| TASK_COMPLETED
| TASK_FAILED
| SESSION_COMPLETED
| SESSION_FAILED
| METRICS_UPDATE
| LOG_MESSAGE.

#[global] Instance ProgressEventType_eq_dec : EqDecision ProgressEventType.
Proof. solve_decision. Defined.

(** A [uuid.UUID], as its 128-bit integer. *)
Abbreviation UUID := N.

Module ProgressEvent.
(** [class ProgressEvent(BaseModel)]; the [datetime] is kept as an instant
    on an integer clock. *)
Record t := make {
  session_id : UUID;
  event_type : ProgressEventType;
  timestamp : Z;
  data : dict
}.
End ProgressEvent.

(** [completion_types] of both [wait_for_completion] methods. *)
Definition completion_types : list ProgressEventType :=
  [SESSION_COMPLETED; SESSION_FAILED].

(** [event.event_type in completion_types] *)
Definition is_completion (event : ProgressEvent.t) : bool :=
  bool_decide (ProgressEvent.event_type event ∈ completion_types).

(** One round of the loop that drives an asynchronous generator: an item,
    a round that produced none (the loop goes on), or the end. *)
Inductive step (A : Type) : Type :=
| Yield (a : A)
| Skip
| Stop.
Arguments Yield {A} a.
Arguments Skip {A}.
Arguments Stop {A}.

(** ** aion_sdk/websocket.py *)

(** A frame the client sends: [json.dumps] of
    [{"action": action, "session_id": str(session_id)}], or of a
    [send_event] message. *)
Inductive frame : Type :=
| Control (action : string) (session_id : UUID)
| SendEvent (event : ProgressEvent.t).

Module websockets.
(** The socket object: its [closed] property and the frames written to
    it, oldest first. *)
Record WebSocketClientProtocol := make {
  closed : bool;
  sent : list frame
}.

(** [await ws.send(f)]: a closed socket raises [ConnectionClosed]. *)
Definition send (ws : WebSocketClientProtocol) (f : frame)
    : result WebSocketClientProtocol :=
  if closed ws then Raise (foreign ConnectionClosed "connection is closed")
  else Return (make (closed ws) (sent ws ++ [f])).

(** [await ws.close()] *)
Definition close (ws : WebSocketClientProtocol) : WebSocketClientProtocol :=
  make true (sent ws).
End websockets.

(** The client object.  [base_url] is kept as [urlparse] treats it:
    [urlparse_error] is the [ValueError] it raises for a text it rejects
    (an unbalanced bracket in the host, for one); otherwise [scheme] and
    [netloc] are the parts it splits off. *)
Record WebSocketClient := {
  urlparse_error : option exn;
  scheme : string;
  netloc : string;
  ws_api_key : string;
  _websocket : option websockets.WebSocketClientProtocol;
  _subscriptions : gset UUID;
  _event_queue : list ProgressEvent.t;
  _running : bool
}.

(** Assignments to one attribute. *)
Definition set_websocket (ws : option websockets.WebSocketClientProtocol)
    (self : WebSocketClient) : WebSocketClient :=
  Build_WebSocketClient (urlparse_error self) (scheme self) (netloc self)
    (ws_api_key self) ws
    (_subscriptions self) (_event_queue self) (_running self).

Definition set_subscriptions (subs : gset UUID) (self : WebSocketClient)
    : WebSocketClient :=
  Build_WebSocketClient (urlparse_error self) (scheme self) (netloc self)
    (ws_api_key self)
    (_websocket self) subs (_event_queue self) (_running self).

Definition set_event_queue (q : list ProgressEvent.t) (self : WebSocketClient)
    : WebSocketClient :=
  Build_WebSocketClient (urlparse_error self) (scheme self) (netloc self)
    (ws_api_key self)
    (_websocket self) (_subscriptions self) q (_running self).

Definition set_running (b : bool) (self : WebSocketClient) : WebSocketClient :=
  Build_WebSocketClient (urlparse_error self) (scheme self) (netloc self)
    (ws_api_key self)
    (_websocket self) (_subscriptions self) (_event_queue self) b.

(** [AionWebSocketError(message)] *)
Definition AionWebSocketError_init (msg : string) : exn :=
  AionError_init AionWebSocketError msg None.

(** [WebSocketClient._build_ws_url] *)
Definition _build_ws_url (self : WebSocketClient) : result string :=
  match urlparse_error self with
  | Some e => Raise e     (* parsed = urlparse(self.base_url) *)
  | None =>
      if String.eqb (scheme self) "http" then
        Return ("ws://" +:+ netloc self +:+ "/ws/progress?api_key="
                  +:+ ws_api_key self)
      else if String.eqb (scheme self) "https" then
        Return ("wss://" +:+ netloc self +:+ "/ws/progress?api_key="
                  +:+ ws_api_key self)
      else Raise (AionWebSocketError_init
                    ("Unsupported scheme: " +:+ scheme self))
  end.

(** [self._websocket and not self._websocket.closed] *)
Definition is_open (self : WebSocketClient) : bool :=
  match _websocket self with
  | Some ws => negb (websockets.closed ws)
  | None => false
  end.

Section WebSocket.
(** What [await websockets.connect(ws_url)] does: a socket, or an
    exception. *)
Variable handshake : string -> result websockets.WebSocketClientProtocol.

(** [WebSocketClient.connect].  The task it creates for
    [_message_handler] runs through the [Env] ticks of a schedule. *)
Definition connect (self : WebSocketClient) : result unit * WebSocketClient :=
  if is_open self then (Return (), self)
  else
    match _build_ws_url self with
    | Raise e => (Raise e, self)
    | Return ws_url =>
        match handshake ws_url with
        | Return ws => (Return (), set_running true (set_websocket (Some ws) self))
        | Raise e =>
            (Raise (from (AionWebSocketError_init
                            ("Failed to connect to WebSocket: " +:+ message e))
                         e), self)
        end
    end.

(** [WebSocketClient.subscribe] *)
Definition subscribe (session_id : UUID) (self : WebSocketClient)
    : result unit * WebSocketClient :=
  let '(connected, self) :=
    match _websocket self with
    | None => connect self
    | Some _ => (Return (), self)
    end in
  match connected with
  | Raise e => (Raise e, self)
  | Return _ =>
      if bool_decide (session_id ∉ _subscriptions self) then
        match _websocket self with
        | Some ws =>
            match websockets.send ws (Control "subscribe" session_id) with
            | Return ws' =>
                (Return (),
                 set_subscriptions ({[session_id]} ∪ _subscriptions self)
                   (set_websocket (Some ws') self))
            | Raise e => (Raise e, self)
            end
        | None =>
            (Raise (foreign OtherException
                      "'NoneType' object has no attribute 'send'"), self)
        end
      else (Return (), self)
  end.

End WebSocket.

(** [WebSocketClient.send_event] *)
Definition send_event (handshake : string -> result websockets.WebSocketClientProtocol)
    (event : ProgressEvent.t) (self : WebSocketClient)
    : result unit * WebSocketClient :=
  let '(connected, self) :=
    match _websocket self with
    | None => connect handshake self
    | Some _ => (Return (), self)
    end in
  match connected, _websocket self with
  | Raise e, _ => (Raise e, self)
  | Return _, Some ws =>
      match websockets.send ws (SendEvent event) with
      | Return ws' => (Return (), set_websocket (Some ws') self)
      | Raise e => (Raise e, self)
      end
  | Return _, None =>
      (Raise (foreign OtherException
                "'NoneType' object has no attribute 'send'"), self)
  end.

(** [WebSocketClient.disconnect] *)
Definition disconnect (self : WebSocketClient) : WebSocketClient :=
  let self := set_running false self in
  let self :=
    match _websocket self with
    | Some ws =>
        if negb (websockets.closed ws)
        then set_websocket (Some (websockets.close ws)) self
        else self
    | None => self
    end in
  set_subscriptions ∅ self.

(** [WebSocketClient.unsubscribe] *)
Definition unsubscribe (session_id : UUID) (self : WebSocketClient)
    : result unit * WebSocketClient :=
  match _websocket self with
  | None => (Return (), self)
  | Some ws =>
      if bool_decide (session_id ∈ _subscriptions self) then
        match websockets.send ws (Control "unsubscribe" session_id) with
        | Return ws' =>
            (Return (),
             set_subscriptions (_subscriptions self ∖ {[session_id]})
               (set_websocket (Some ws') self))
        | Raise e => (Raise e, self)
        end
      else (Return (), self)
  end.

(** A frame the socket delivers: a binary frame, for which
    [isinstance(message, str)] is false, or a text frame, with what
    [json.loads] and then [ProgressEvent.model_validate] make of it:
    [None] when either raises ([JSONDecodeError], [ValueError]). *)
Inductive ws_message : Type :=
| Bytes
| Text (decoded : option ProgressEvent.t).

(** What the [async for message in self._websocket] of [_message_handler]
    meets next: a frame; [websockets.exceptions.ConnectionClosed]; another
    exception; or the end of the iteration without an exception. *)
Inductive inbound : Type :=
| Message (m : ws_message)
| Closed
| Failure (e : exn)
| Finished.

(** The library marks the socket closed when it reports the connection
    gone. *)
Definition mark_closed (self : WebSocketClient) : WebSocketClient :=
  match _websocket self with
  | Some ws => set_websocket (Some (websockets.close ws)) self
  | None => self
  end.

(** One step of the task that runs [WebSocketClient._message_handler]:
    the client after it, and the exception the task ends with, if any. *)
Definition _message_handler (i : inbound) (self : WebSocketClient)
    : option exn * WebSocketClient :=
  match i with
  | Message (Text (Some event)) =>
      (None, set_event_queue (_event_queue self ++ [event]) self)
  | Message (Text None) => (None, self)   (* Skip invalid messages *)
  | Message Bytes => (None, self)
  | Closed => (None, set_running false (mark_closed self))
  | Failure e =>
      (Some (from (AionWebSocketError_init
                     ("Message handler error: " +:+ message e)) e),
       set_running false self)
  | Finished => (None, mark_closed self)
  end.

(** [asyncio.Queue.empty] *)
Definition empty (q : list ProgressEvent.t) : bool :=
  match q with
  | [] => true
  | _ => false
  end.

(** One round of the [while] loop of [WebSocketClient.events]: the head of
    the queue, a [wait_for] that timed out, or the end of the loop. *)
Definition events (self : WebSocketClient)
    : step ProgressEvent.t * WebSocketClient :=
  if _running self || negb (empty (_event_queue self)) then
    match _event_queue self with
    | event :: q => (Yield event, set_event_queue q self)
    | [] => (Skip, self)
    end
  else (Stop, self).

(** One round of [WebSocketClient.session_events], after its
    [subscribe]: an event of another session is dropped and the loop goes
    on. *)
Definition session_events (session_id : UUID) (self : WebSocketClient)
    : step ProgressEvent.t * WebSocketClient :=
  match events self with
  | (Yield event, self') =>
      if bool_decide (ProgressEvent.session_id event = session_id)
      then (Yield event, self')
      else (Skip, self')
  | (Skip, self') => (Skip, self')
  | (Stop, self') => (Stop, self')
  end.

(** One round of [WebSocketClient.typed_events]. *)
Definition typed_events (event_types : list ProgressEventType)
    (self : WebSocketClient) : step ProgressEvent.t * WebSocketClient :=
  match events self with
  | (Yield event, self') =>
      if bool_decide (ProgressEvent.event_type event ∈ event_types)
      then (Yield event, self')
      else (Skip, self')
  | (Skip, self') => (Skip, self')
  | (Stop, self') => (Stop, self')
  end.

(** The interleaving of the handler task with one consumer: [Env i] is a
    step of [_message_handler], [Poll] a round of the consumer's loop.
    The event loop is single-threaded, so the two never overlap. *)
Inductive tick : Type :=
| Env (i : inbound)
| Poll.

(** The events the handler puts on the queue during a schedule. *)
Fixpoint inflow (sched : list tick) : list ProgressEvent.t :=
  match sched with
  | [] => []
  | Env (Message (Text (Some event))) :: rest => event :: inflow rest
  | _ :: rest => inflow rest
  end.

(** The number of consumer rounds of a schedule. *)
Fixpoint polls (sched : list tick) : nat :=
  match sched with
  | [] => O
  | Poll :: rest => S (polls rest)
  | Env _ :: rest => polls rest
  end.

(** The [async for event in self.session_events(session_id)] loop of
    [WebSocketClient.wait_for_completion] along a schedule.  [None]: the
    coroutine is still suspended when the schedule ends. *)
Fixpoint wait_loop (session_id : UUID) (sched : list tick)
    (self : WebSocketClient)
    : option (result ProgressEvent.t) * WebSocketClient :=
  match sched with
  | [] => (None, self)
  | Env i :: rest => wait_loop session_id rest (snd (_message_handler i self))
  | Poll :: rest =>
      match session_events session_id self with
      | (Yield event, self') =>
          if is_completion event then (Some (Return event), self')
          else wait_loop session_id rest self'
      | (Skip, self') => wait_loop session_id rest self'
      | (Stop, self') =>
          (Some (Raise (AionWebSocketError_init
                          "Session completion event not received")), self')
      end
  end.

(** [WebSocketClient.wait_for_completion]: the generator first awaits
    [subscribe], whose exception ends the wait. *)
Definition wait_for_completion
    (handshake : string -> result websockets.WebSocketClientProtocol)
    (session_id : UUID) (sched : list tick) (self : WebSocketClient)
    : option (result ProgressEvent.t) * WebSocketClient :=
  match subscribe handshake session_id self with
  | (Raise e, self') => (Some (Raise e), self')
  | (Return _, self') => wait_loop session_id sched self'
  end.

(** ** aion_sdk/progress.py: the Server-Sent-Events listener *)

Module sse.
(** The streamed response: what [response.raise_for_status()] raises, if
    anything, the lines [response.aiter_lines()] gives before it ends, and
    the exception that ends the iteration when it does not end normally. *)
Record stream := make {
  status_error : option exn;
  lines : list string;
  failure : option exn
}.
End sse.

Section ServerSentEvents.
(** [ProgressEvent.model_validate(json.loads(payload))]; [None] when
    either call raises ([JSONDecodeError], [ValueError]). *)
Variable loads_event : string -> option ProgressEvent.t.

(** [line[6:]] *)
Definition payload (line : string) : string :=
  String.substring 6 (String.length line - 6) line.

(** The events [ProgressAPI.subscribe_sse] yields from the lines, in
    order: lines without the [data: ] prefix and lines that do not decode
    are passed over. *)
Fixpoint subscribe_sse (lines : list string) : list ProgressEvent.t :=
  match lines with
  | [] => []
  | line :: rest =>
      if String.prefix "data: " line then
        match loads_event (payload line) with
        | Some event => event :: subscribe_sse rest
        | None => subscribe_sse rest
        end
      else subscribe_sse rest
  end.

(** The loop of [ProgressListener.wait_for_completion] over the events of
    [ProgressListener.events]; [ending] is how the generator finishes once
    they are used up. A loop that ends falls off the function: [None]. *)
Fixpoint listener_loop (evs : list ProgressEvent.t)
    (ending : option exn) : result (option ProgressEvent.t) :=
  match evs with
  | [] =>
      match ending with
      | Some e => Raise e
      | None => Return None
      end
  | event :: rest =>
      if is_completion event then Return (Some event)
      else listener_loop rest ending
  end.

(** [ProgressListener.wait_for_completion] on a streamed response. *)
Definition listener_wait_for_completion (response : sse.stream)
    : result (option ProgressEvent.t) :=
  match sse.status_error response with
  | Some e => Raise e
  | None =>
      listener_loop (subscribe_sse (sse.lines response))
        (sse.failure response)
  end.

End ServerSentEvents.

(** ** Sample data *)

(** The text of a JSON document, written with apostrophes for its double
    quotes. *)
Fixpoint json_text (s : string) : string :=
  match s with
  | EmptyString => EmptyString
  | String c rest =>
      String (if Ascii.eqb c "'"%char then Ascii.ascii_of_nat 34 else c)
        (json_text rest)
  end.

Definition client3 : AionClient :=
  {| base_url := "https://api.aion.dev"; api_key := "key";
     timeout := "30.0"; max_retries := 3 |}.

(** The JSON object [{"x": 1}]. *)
Definition x1 : value := VDict {[ "x" := VInt 1 ]}.

(** A 404 response with the error envelope
    [{"error": "not_found", "message": "project 7"}]. *)
Definition r404 : httpx.Response :=
  httpx.make 404 (json_text "{'error': 'not_found', 'message': 'project 7'}")
    (Some (VDict {[ "error" := VStr "not_found";
                    "message" := VStr "project 7" ]}))
    ∅.

(** A 400 response with the error envelope
    [{"error": "invalid", "message": "name is required"}]. *)
Definition r400 : httpx.Response :=
  httpx.make 400
    (json_text "{'error': 'invalid', 'message': 'name is required'}")
    (Some (VDict {[ "error" := VStr "invalid";
                    "message" := VStr "name is required" ]}))
    ∅.

(** A 503 response whose body is no JSON. *)
Definition r503_plain : httpx.Response :=
  httpx.make 503 "Service Unavailable" None ∅.

(** A transport that times out on the attempts before [n] and then gives
    the response [r]. *)
Definition timeouts_then (n : Z) (r : httpx.Response)
    : Z -> result httpx.Response :=
  fun attempt =>
    if attempt <? n then Raise (foreign TimeoutException "timed out")
    else Return r.

(** A transport that always times out. *)
Definition always_timeout : Z -> result httpx.Response :=
  fun _ => Raise (foreign TimeoutException "timed out").

(** A 200 response with the envelope [{"data": {"x": 1}, "success": true}]. *)
Definition r200_wrapped : httpx.Response :=
  httpx.make 200 (json_text "{'data': {'x': 1}, 'success': true}")
    (Some (VDict {[ "data" := x1; "success" := VBool true ]})) ∅.

(** A 200 response with the envelope
    [{"data": {"x": 1}, "success": false, "message": "quota exceeded"}]. *)
Definition r200_failed : httpx.Response :=
  httpx.make 200
    (json_text "{'data': {'x': 1}, 'success': false, 'message': 'quota exceeded'}")
    (Some (VDict {[ "data" := x1; "success" := VBool false;
                    "message" := VStr "quota exceeded" ]})) ∅.

(** A 200 response with the raw body [{"x": 1}]. *)
Definition r200_raw : httpx.Response :=
  httpx.make 200 (json_text "{'x': 1}") (Some x1) ∅.

(** ** Schedules and awaited events *)

(** The event [wait_for_completion session_id] waits for: an event of the
    session whose type is a completion type. *)
Definition awaited (session_id : UUID) (event : ProgressEvent.t) : bool :=
  bool_decide (ProgressEvent.session_id event = session_id)
  && is_completion event.

(** The handler steps that clear [_running]. *)
Definition clears_running (i : inbound) : bool :=
  match i with
  | Closed | Failure _ => true
  | _ => false
  end.

(** No handler step of the schedule clears [_running]. *)
Fixpoint stays_up (sched : list tick) : bool :=
  match sched with
  | [] => true
  | Env i :: rest => negb (clears_running i) && stays_up rest
  | Poll :: rest => stays_up rest
  end.

(** The text of the error [wait_for_completion] raises when the events
    end. *)
Definition not_received : exn :=
  AionWebSocketError_init "Session completion event not received".

(** ** Sample sessions *)

(** A handshake that succeeds with a fresh open socket. *)
Definition accepting : string -> result websockets.WebSocketClientProtocol :=
  fun _ => Return (websockets.make false []).

(** A connected client without subscriptions. *)
Definition ws_open : WebSocketClient :=
  {| urlparse_error := None;
     scheme := "https"; netloc := "api.aion.dev"; ws_api_key := "key";
     _websocket := Some (websockets.make false []);
     _subscriptions := ∅; _event_queue := []; _running := true |}.

(** The same client after [subscribe 1]. *)
Definition ws_subscribed : WebSocketClient :=
  {| urlparse_error := None;
     scheme := "https"; netloc := "api.aion.dev"; ws_api_key := "key";
     _websocket := Some (websockets.make false [Control "subscribe" 1%N]);
     _subscriptions := {[ 1%N ]}; _event_queue := []; _running := true |}.

(** A client that is not connected, with the base URL
    [ftp://api.aion.dev]. *)
Definition ws_ftp : WebSocketClient :=
  {| urlparse_error := None;
     scheme := "ftp"; netloc := "api.aion.dev"; ws_api_key := "key";
     _websocket := None;
     _subscriptions := ∅; _event_queue := []; _running := false |}.

(** A client that is not connected, with the base URL [http://[::1]: the
    bracket of the host is not closed, and [urlparse] raises
    [ValueError("Invalid IPv6 URL")]. *)
Definition ws_malformed : WebSocketClient :=
  {| urlparse_error := Some (foreign OtherException "Invalid IPv6 URL");
     scheme := EmptyString; netloc := EmptyString; ws_api_key := "key";
     _websocket := None;
     _subscriptions := ∅; _event_queue := []; _running := false |}.

(** The client subscribed to the sessions 1 and 2. *)
Definition ws_two : WebSocketClient :=
  {| urlparse_error := None;
     scheme := "https"; netloc := "api.aion.dev"; ws_api_key := "key";
     _websocket :=
       Some (websockets.make false
               [Control "subscribe" 1%N; Control "subscribe" 2%N]);
     _subscriptions := {[ 1%N; 2%N ]}; _event_queue := []; _running := true |}.

Definition progress1 : ProgressEvent.t :=
  ProgressEvent.make 1%N TASK_PROGRESS 100 ∅.

Definition completed1 : ProgressEvent.t :=
  ProgressEvent.make 1%N SESSION_COMPLETED 101 ∅.

Definition progress2 : ProgressEvent.t :=
  ProgressEvent.make 2%N TASK_PROGRESS 102 ∅.

(** A stand-in for the decoding of a [data: ] payload: one payload
    decodes, as a progress event of session 1. *)
Definition sample_loads (s : string) : option ProgressEvent.t :=
  if String.eqb s "progress" then Some progress1 else None.

(** A stream that opens, carries a progress event, a comment line and a
    payload that does not decode, and ends. *)
Definition sample_stream : sse.stream :=
  sse.make None ["data: progress"; ": keep-alive"; "data: {broken"] None.

(** ** aion_sdk/client.py: the health check *)

Section HealthCheck.
Context {rt : PyRuntime}.

(** [AionClient.health_check]: [await self.get("/health")] is a [request];
    the result comes with the delays the request slept. *)
Definition health_check (self : AionClient)
    (transport : Z -> result httpx.Response) : bool * list Z :=
  match request self transport with
  | (Return _, slept) => (true, slept)
  | (Raise e, slept) =>
      if isinstance e AionNotFoundError then
        (* Health endpoint might not exist, but we can connect *)
        (true, slept)
      else (* except Exception *) (false, slept)
  end.

End HealthCheck.

(** The sum of the delays slept. *)
Definition total_delay (slept : list Z) : Z := fold_right Z.add 0 slept.

(** A client whose [max_retries] is negative. *)
Definition client_negative : AionClient :=
  {| base_url := "https://api.aion.dev"; api_key := "key";
     timeout := "30.0"; max_retries := -1 |}.

(** A transport that gives [bad] on the attempts before [n] and [good]
    from then on. *)
Definition responses_then (n : Z) (bad good : httpx.Response)
    : Z -> result httpx.Response :=
  fun attempt => if attempt <? n then Return bad else Return good.

(** A transport that times out on the attempts before [n] and cannot
    connect from then on. *)
Definition timeouts_then_refused (n : Z) : Z -> result httpx.Response :=
  fun attempt =>
    if attempt <? n then Raise (foreign TimeoutException "timed out")
    else Raise (foreign ConnectError "refused").

(** A 429 response that names a delay, and one whose header is no
    number. *)
Definition r429_hint : httpx.Response :=
  httpx.make 429 (json_text "{'error': 'rate_limited', 'message': 'slow down'}")
    (Some (VDict {[ "error" := VStr "rate_limited";
                    "message" := VStr "slow down" ]}))
    {[ "retry-after" := "120" ]}.

Definition r429_date : httpx.Response :=
  httpx.make 429 "slow down" None
    {[ "retry-after" := "Wed, 21 Oct 2026 07:28:00 GMT" ]}.

(** A 401 response without a body. *)
Definition r401_empty : httpx.Response :=
  httpx.make 401 EmptyString None ∅.

(** ** The handler task and the consumers along a schedule *)

(** The task that runs [WebSocketClient._message_handler], over what its
    [async for] meets: the loop goes on after every frame and is over
    after anything else.  [None]: no exception (the task has returned or
    is waiting for the next frame). *)
Fixpoint handler_task (inputs : list inbound) (self : WebSocketClient)
    : option exn * WebSocketClient :=
  match inputs with
  | [] => (None, self)
  | Message m :: rest =>
      handler_task rest (snd (_message_handler (Message m) self))
  | i :: _ => _message_handler i self
  end.

(** The events of the frames that the loop reads: those before the first
    close, failure or end of the iteration. *)
Fixpoint read_events (inputs : list inbound) : list ProgressEvent.t :=
  match inputs with
  | Message (Text (Some event)) :: rest => event :: read_events rest
  | Message _ :: rest => read_events rest
  | _ => []
  end.

(** The handler steps of a schedule, without its consumer rounds. *)
Fixpoint settle (sched : list tick) (self : WebSocketClient)
    : WebSocketClient :=
  match sched with
  | [] => self
  | Env i :: rest => settle rest (snd (_message_handler i self))
  | Poll :: rest => settle rest self
  end.

(** A consumer [async for event in gen(): out.append(event)] along a
    schedule, for a generator given by its round function: the events it
    is handed, in order, whether the generator has ended, and the client
    at the end of the schedule. *)
Fixpoint consume
    (gen : WebSocketClient -> step ProgressEvent.t * WebSocketClient)
    (sched : list tick) (self : WebSocketClient)
    : list ProgressEvent.t * bool * WebSocketClient :=
  match sched with
  | [] => ([], false, self)
  | Env i :: rest => consume gen rest (snd (_message_handler i self))
  | Poll :: rest =>
      match gen self with
      | (Yield event, self') =>
          let '(out, ended, final) := consume gen rest self' in
          (event :: out, ended, final)
      | (Skip, self') => consume gen rest self'
      | (Stop, self') => ([], true, settle rest self')
      end
  end.

(** ** aion_sdk/websocket.py: SessionListener *)

(** [async with SessionListener(client, session_id): body]:
    [__aenter__] subscribes, [__aexit__] unsubscribes, also when the body
    raised; an exception of [__aenter__] skips the body, an exception of
    [__aexit__] replaces the outcome of the body. *)
Definition session_listener {A : Type}
    (handshake : string -> result websockets.WebSocketClientProtocol)
    (session_id : UUID)
    (body : WebSocketClient -> result A * WebSocketClient)
    (client : WebSocketClient) : result A * WebSocketClient :=
  match subscribe handshake session_id client with
  | (Raise e, client) => (Raise e, client)
  | (Return _, client) =>
      let '(outcome, client) := body client in
      match unsubscribe session_id client with
      | (Raise e, client) => (Raise e, client)
      | (Return _, client) => (outcome, client)
      end
  end.

(** The common shape of [session_events] and [typed_events]: a round of
    [events] whose event is handed on when it passes the test [keep] and is
    dropped otherwise. *)
Definition filtered_events (keep : ProgressEvent.t -> bool)
    (self : WebSocketClient) : step ProgressEvent.t * WebSocketClient :=
  match events self with
  | (Yield event, self') =>
      if keep event then (Yield event, self') else (Skip, self')
  | (Skip, self') => (Skip, self')
  | (Stop, self') => (Stop, self')
  end.

(** The events, the end flag and the final client of [consume]. *)
Definition handed {A B C : Type} (c : A * B * C) : A := fst (fst c).
Definition ended {A B C : Type} (c : A * B * C) : B := snd (fst c).
Definition final {A B C : Type} (c : A * B * C) : C := snd c.

(** A body of a listener scope during which the connection is lost. *)
Definition body_connection_lost (client : WebSocketClient)
    : result unit * WebSocketClient :=
  (Return (), snd (_message_handler Closed client)).

(** A body that does nothing. *)
Definition body_idle (client : WebSocketClient)
    : result unit * WebSocketClient :=
  (Return (), client).

(** A stream whose only completion event is followed by a progress event
    and then breaks. *)
Definition completed_loads (s : string) : option ProgressEvent.t :=
  if String.eqb s "progress" then Some progress1
  else if String.eqb s "completed" then Some completed1
  else None.

Definition broken_stream : sse.stream :=
  sse.make None
    ["data: progress"; "data:completed"; "data: completed"; "data: progress"]
    (Some (foreign OtherException "peer closed connection")).

(** ** clean_all_emojis.py *)

(** A [str], as the list of its code points. *)
Abbreviation text := (list N).

(** The character class of [emoji_pattern]: ranges of code points, ends
    included. *)
Definition emoji_ranges : list (N * N) :=
  [ (0x1F600, 0x1F64F);   (* emoticons *)
    (0x1F300, 0x1F5FF);   (* symbols & pictographs *)
    (0x1F680, 0x1F6FF);   (* transport & map symbols *)
    (0x1F1E0, 0x1F1FF);   (* flags (iOS) *)
    (0x2700, 0x27BF);     (* Dingbats *)
    (0x1F900, 0x1F9FF);   (* Supplemental Symbols and Pictographs *)
    (0x1FA70, 0x1FAFF);   (* Symbols and Pictographs Extended-A *)
    (0x2600, 0x26FF);     (* Miscellaneous Symbols *)
    (0x1F004, 0x1F004)    (* Mahjong Tile Red Dragon *)
  ]%N.

Definition is_emoji (c : N) : bool :=
  existsb (fun range => (fst range <=? c)%N && (c <=? snd range)%N)
    emoji_ranges.

(** [remove_emojis]: [emoji_pattern.sub('', text)] deletes every run of
    characters of the class, which leaves the characters outside it, in
    order. *)
Definition remove_emojis (t : text) : text :=
  List.filter (fun c => negb (is_emoji c)) t.

(** The files of the working directory that can be read as UTF-8, with
    their text, and the names that cannot be opened for writing. *)
Record filesystem := {
  files : gmap string text;
  read_only : gset string
}.

(** [clean_file]: any exception (the file cannot be read, or cannot be
    opened for writing) is printed and gives [False]. *)
Definition clean_file (fs : filesystem) (filepath : string)
    : bool * filesystem :=
  match files fs !! filepath with
  | Some original =>
      let cleaned := remove_emojis original in
      if bool_decide (original <> cleaned) then
        if bool_decide (filepath ∈ read_only fs) then (false, fs)
        else (true, {| files := <[filepath := cleaned]> (files fs);
                       read_only := read_only fs |})
      else (false, fs)
  | None => (false, fs)
  end.

(** [s.endswith(suffix)] *)
Definition endswith (suffix s : string) : bool :=
  (String.length suffix <=? String.length s)%nat
  && String.eqb
       (String.substring (String.length s - String.length suffix)
          (String.length suffix) s)
       suffix.

(** The loop of [main] over the names to clean: the names of the files
    that were rewritten, in the order of the loop, and the files after
    it. *)
Fixpoint clean_files (names : list string) (fs : filesystem)
    : list string * filesystem :=
  match names with
  | [] => ([], fs)
  | filename :: rest =>
      let '(changed, fs) := clean_file fs filename in
      let '(cleaned, fs) := clean_files rest fs in
      (if changed then filename :: cleaned else cleaned, fs)
  end.

(** [main], for the listing [os.listdir('.')] gives: the [.md] files of
    the directory are cleaned. *)
Definition main (listing : list string) (fs : filesystem)
    : list string * filesystem :=
  clean_files (List.filter (endswith ".md") listing) fs.

(** A directory with a report that holds a rocket and a check mark, a
    clean file, and a text file that is no markdown. *)
Definition sample_files : filesystem :=
  {| files := {[ "REPORT.md" := [0x48; 0x1F680; 0x69; 0x2705]%N;
                 "README.md" := [0x48; 0x69]%N;
                 "notes.txt" := [0x1F680]%N ]};
     read_only := ∅ |}.

(** ** aion_sdk/client.py: [request] from its first statement *)

(** [path.lstrip("/")] *)
Fixpoint lstrip_slash (path : string) : string :=
  match path with
  | String c rest => if Ascii.eqb c "/"%char then lstrip_slash rest else path
  | EmptyString => path
  end.

Section RequestPath.
Context {rt : PyRuntime}.

(** [urllib.parse.urljoin]: the joined URL, or the [ValueError] it raises
    for a text it cannot split. *)
Variable urljoin : string -> string -> result string.

(** What [self._client.request(url=url, ...)] does on each attempt for a
    URL. *)
Variable transport : string -> Z -> result httpx.Response.

(** [AionClient.request(method, path, ...)]: the URL is built before the
    loop and outside its [try], so what [urljoin] raises leaves the method
    as it is; [request] is the loop, for the URL that was built. *)
Definition request_path (self : AionClient) (path : string)
    : result value * list Z :=
  match urljoin (base_url self) (lstrip_slash path) with
  | Raise e => (Raise e, [])
  | Return url => request self (transport url)
  end.

End RequestPath.

(** [urljoin] on a base URL without a path and the texts used below: a
    relative path is put behind the base, and an absolute URL whose host
    opens a bracket that is not closed is rejected with
    [ValueError("Invalid IPv6 URL")]. *)
Definition sample_urljoin (base url : string) : result string :=
  if String.eqb url "http://["
  then Raise (foreign OtherException "Invalid IPv6 URL")
  else Return (base +:+ "/" +:+ url).

(** * Properties *)

(** ** The request executor *)

Section ClientFacts.
Context {rt : PyRuntime}.

(** An exception that is neither a timeout nor a connection failure of
    the transport takes the generic [except Exception] clause: unless the
    attempt is the last one, [request] sleeps and tries again; on the last
    one it raises a plain [AionError] whose cause is the exception. *)
Lemma request_for_generic_clause (self : AionClient)
    (transport : Z -> result httpx.Response)
    (attempt : Z) (rest slept : list Z) (e : exn) :
  (response ← transport attempt; _handle_response response) = Raise e ->
  isinstance e TimeoutException = false ->
  isinstance e ConnectError = false ->
  request_for self transport (attempt :: rest) slept =
    if attempt =? max_retries self then
      (Raise (from (AionError_init AionError
                      ("Unexpected error: " +:+ message e) None) e), slept)
    else request_for self transport rest (slept ++ [2 ^ attempt]).
Proof.
  intros Hbody Ht Hc. cbn [request_for]. rewrite Hbody, Ht, Hc. reflexivity.
Qed.

(** A transport timeout is retried, and raised as [AionTimeoutError] on
    the last attempt. *)
Lemma request_for_timeout_clause (self : AionClient)
    (transport : Z -> result httpx.Response)
    (attempt : Z) (rest slept : list Z) (e : exn) :
  transport attempt = Raise e ->
  isinstance e TimeoutException = true ->
  request_for self transport (attempt :: rest) slept =
    if attempt =? max_retries self then
      (Raise (from (AionTimeoutError_init
                      ("Request timeout after " +:+ timeout self +:+ "s")) e),
       slept)
    else request_for self transport rest (slept ++ [2 ^ attempt]).
Proof.
  intros Htr Ht. cbn [request_for]. rewrite Htr. cbn. rewrite Ht. reflexivity.
Qed.

(** An attempt whose response is handled without an exception ends the
    loop with that value. *)
Lemma request_for_return (self : AionClient)
    (transport : Z -> result httpx.Response)
    (attempt : Z) (rest slept : list Z) (r : httpx.Response) (v : value) :
  transport attempt = Return r ->
  _handle_response r = Return v ->
  request_for self transport (attempt :: rest) slept = (Return v, slept).
Proof.
  intros Htr Hv. cbn [request_for]. rewrite Htr. cbn. rewrite Hv. reflexivity.
Qed.

Lemma py_range_succ (n : Z) :
  0 <= n -> py_range (n + 1) = py_range n ++ [n].
Proof.
  intros Hn. unfold py_range.
  rewrite Z2Nat.inj_add by lia. change (Z.to_nat 1) with 1%nat.
  rewrite seq_app, map_app. cbn. rewrite Z2Nat.id by lia. reflexivity.
Qed.

Lemma py_range_cons (n : Z) :
  0 < n -> exists rest, py_range n = 0 :: rest.
Proof.
  intros Hn. unfold py_range.
  destruct (Z.to_nat n) as [|k] eqn:Hk; [lia|].
  cbn. eauto.
Qed.

(** [construct] either builds the object or a [TypeError]. *)
Lemma construct_cls (q : string) (ps ks : list string) (e : exn) :
  cls (construct q ps ks e) = cls e \/ cls (construct q ps ks e) = TypeError.
Proof.
  unfold construct. destruct (List.find _ ks); [right | left]; reflexivity.
Qed.

End ClientFacts.

Section ClassifiedErrors.
Context {rt : PyRuntime}.

Lemma AionError_not_transport (e : exn) :
  isinstance e AionError = true ->
  isinstance e TimeoutException = false /\ isinstance e ConnectError = false.
Proof.
  unfold isinstance. destruct (cls e); cbn; intros H; try discriminate H;
    split; reflexivity.
Qed.

Lemma constructed_not_transport (q : string) (ps ks : list string) (e : exn) :
  isinstance e AionError = true ->
  isinstance (construct q ps ks e) TimeoutException = false
  /\ isinstance (construct q ps ks e) ConnectError = false.
Proof.
  intros He. unfold construct. destruct (List.find _ ks).
  - split; reflexivity.
  - apply AionError_not_transport, He.
Qed.

(** Whatever [_handle_response] raises is no transport exception. *)
Lemma handled_error_not_transport (r : httpx.Response) (e : exn) :
  _handle_response r = Raise e ->
  isinstance e TimeoutException = false /\ isinstance e ConnectError = false.
Proof.
  unfold _handle_response.
  destruct (httpx.is_success r).
  - unfold try_except.
    match goal with |- context [mbind ?k ?m] => destruct (mbind k m) as [v|e0] end;
      [discriminate|].
    destruct (isinstance e0 AionError) eqn:Ha; [|discriminate].
    intros [= <-]. apply AionError_not_transport, Ha.
  - destruct (error_fields r) as [[ed msg] dets].
    repeat match goal with
           | |- context [if ?b then _ else _] => destruct b
           end;
      try (intros [= <-]; apply constructed_not_transport; reflexivity).
    destruct ed; intros [= <-].
    + apply constructed_not_transport; reflexivity.
    + split; reflexivity.
Qed.

(** Before the last attempt, an error that [_handle_response] raised for a
    response is followed by a backoff delay and one more attempt. *)
Lemma handled_error_is_retried (self : AionClient)
    (transport : Z -> result httpx.Response)
    (attempt : Z) (rest slept : list Z) (r : httpx.Response) (e : exn) :
  transport attempt = Return r ->
  _handle_response r = Raise e ->
  attempt <> max_retries self ->
  request_for self transport (attempt :: rest) slept =
    request_for self transport rest (slept ++ [2 ^ attempt]).
Proof.
  intros Htr He Hne.
  destruct (handled_error_not_transport r e He) as [Ht Hc].
  rewrite (request_for_generic_clause self transport attempt rest slept e);
    [| rewrite Htr; exact He | exact Ht | exact Hc].
  destruct (Z.eqb_spec attempt (max_retries self)); [contradiction | reflexivity].
Qed.

(** On the last attempt it is replaced by a plain [AionError]. *)
Lemma handled_error_is_wrapped (self : AionClient)
    (transport : Z -> result httpx.Response)
    (rest slept : list Z) (r : httpx.Response) (e : exn) :
  transport (max_retries self) = Return r ->
  _handle_response r = Raise e ->
  request_for self transport (max_retries self :: rest) slept =
    (Raise (from (AionError_init AionError
                    ("Unexpected error: " +:+ message e) None) e), slept).
Proof.
  intros Htr He.
  destruct (handled_error_not_transport r e He) as [Ht Hc].
  rewrite (request_for_generic_clause self transport _ rest slept e);
    [| rewrite Htr; exact He | exact Ht | exact Hc].
  rewrite Z.eqb_refl. reflexivity.
Qed.

End ClassifiedErrors.

Section AlwaysRejected.
Context {rt : PyRuntime}.
Variable self : AionClient.
Variable transport : Z -> result httpx.Response.
Variables (r : httpx.Response) (e : exn).
Hypothesis every_attempt : forall attempt, transport attempt = Return r.
Hypothesis rejected : _handle_response r = Raise e.

(** The attempts from [k] up to [max_retries], the last one included:
    every one before the last is followed by a delay of [2 ^ attempt], and
    the last one raises the plain [AionError]. *)
Lemma request_for_always_rejected (len : nat) :
  forall (k : Z) (slept : list Z),
    0 <= k ->
    k + Z.of_nat len = max_retries self ->
    request_for self transport (map Z.of_nat (seq (Z.to_nat k) (S len))) slept
      = (Raise (from (AionError_init AionError
                        ("Unexpected error: " +:+ message e) None) e),
         slept ++ map (fun a => 2 ^ a) (map Z.of_nat (seq (Z.to_nat k) len))).
Proof.
  induction len as [|len IH]; intros k slept Hk Hmax.
  - cbn [seq map]. rewrite Z2Nat.id by lia.
    replace k with (max_retries self) by lia.
    rewrite (handled_error_is_wrapped self transport [] slept r e
               (every_attempt _) rejected).
    rewrite app_nil_r. reflexivity.
  - change (seq (Z.to_nat k) (S (S len)))
      with (Z.to_nat k :: seq (S (Z.to_nat k)) (S len)).
    change (seq (Z.to_nat k) (S len))
      with (Z.to_nat k :: seq (S (Z.to_nat k)) len).
    rewrite !map_cons, Z2Nat.id by lia.
    rewrite (handled_error_is_retried self transport k _ slept r e
               (every_attempt _) rejected) by lia.
    replace (S (Z.to_nat k)) with (Z.to_nat (k + 1)) by lia.
    rewrite (IH (k + 1) (slept ++ [2 ^ k])) by lia.
    rewrite <- app_assoc. reflexivity.
Qed.

End AlwaysRejected.

(** C1 (the code departs from the claim).  A response that
    [_handle_response] turns into a classified error (401, 403, 404, 429,
    another 4xx or 5xx) is not raised to the caller on the attempt that
    produced it.  The error is caught by the generic clause of [request]:
    when the server keeps answering so, the call makes [max_retries + 1]
    attempts, sleeps [2 ^ attempt] seconds after each but the last, and
    ends with a plain [AionError] "Unexpected error: ..." that has the
    classified error only as its cause. *)
Theorem C1_classified_error_is_retried_and_wrapped `{rt : PyRuntime}
    (self : AionClient) (transport : Z -> result httpx.Response)
    (r : httpx.Response) (e : exn) :
  0 <= max_retries self ->
  (forall attempt, transport attempt = Return r) ->
  _handle_response r = Raise e ->
  request self transport
    = (Raise (from (AionError_init AionError
                      ("Unexpected error: " +:+ message e) None) e),
       map (fun attempt => 2 ^ attempt) (py_range (max_retries self))).
Proof.
  intros Hmax Hall He. unfold request, py_range.
  replace (Z.to_nat (max_retries self + 1))
    with (S (Z.to_nat (max_retries self))) by lia.
  apply (request_for_always_rejected self transport r e Hall He
           (Z.to_nat (max_retries self)) 0 []); lia.
Qed.

Lemma C1_witness :
  _handle_response (rt := typed_runtime) r404
    = Raise (AionNotFoundError_init "project 7" None)
  /\ request (rt := typed_runtime) client3 (fun _ => Return r404)
     = (Raise (from (AionError_init AionError
                       "Unexpected error: Resource not found: project 7" None)
                    (AionNotFoundError_init "project 7" None)),
        [1; 2; 4]).
Proof.
  split; [reflexivity|].
  apply (C1_classified_error_is_retried_and_wrapped (rt := typed_runtime)
           client3 (fun _ => Return r404) r404
           (AionNotFoundError_init "project 7" None)).
  - cbn. lia.
  - reflexivity.
  - reflexivity.
Defined.

(** C2.  With [max_retries = 3], when the transport times out on the first
    three attempts: a fourth attempt that succeeds makes [request] return
    its payload; a fourth timeout makes it raise [AionTimeoutError]; in both
    cases the delay before retry [k] is [1 * 2^(k-1)] seconds, for
    [k = 1, 2, 3], and there is no other delay. *)
Theorem C2_three_timeouts_then_outcome `{rt : PyRuntime} (self : AionClient)
    (transport : Z -> result httpx.Response) :
  max_retries self = 3 ->
  (forall attempt, 0 <= attempt < 3 ->
     exists e, transport attempt = Raise e
               /\ isinstance e TimeoutException = true) ->
  (forall r v, transport 3 = Return r -> _handle_response r = Return v ->
     request self transport
       = (Return v, map (fun k => 1 * 2 ^ (k - 1)) [1; 2; 3]))
  /\ (forall e, transport 3 = Raise e ->
        isinstance e TimeoutException = true ->
        exists err,
          request self transport
            = (Raise err, map (fun k => 1 * 2 ^ (k - 1)) [1; 2; 3])
          /\ cls err = AionTimeoutError
          /\ is_retryable err = Some true
          /\ cause err = Some e).
Proof.
  intros Hmax Hto.
  destruct (Hto 0 ltac:(lia)) as (e0 & H0 & T0).
  destruct (Hto 1 ltac:(lia)) as (e1 & H1 & T1).
  destruct (Hto 2 ltac:(lia)) as (e2 & H2 & T2).
  assert (Hprefix : forall out,
            request_for self transport [3] [1; 2; 4] = out ->
            request self transport = out).
  { intros out <-. unfold request. rewrite Hmax.
    change (py_range (3 + 1)) with [0; 1; 2; 3].
    rewrite (request_for_timeout_clause self transport 0 _ _ e0 H0 T0).
    rewrite (request_for_timeout_clause self transport 1 _ _ e1 H1 T1).
    rewrite (request_for_timeout_clause self transport 2 _ _ e2 H2 T2).
    rewrite Hmax. reflexivity. }
  split.
  - intros r v Hr Hv. apply Hprefix.
    apply (request_for_return self transport 3 [] _ r v Hr Hv).
  - intros e He Te. eexists. split; [|split; [|split]].
    + apply Hprefix.
      rewrite (request_for_timeout_clause self transport 3 _ _ e He Te).
      rewrite Hmax. reflexivity.
    + reflexivity.
    + reflexivity.
    + reflexivity.
Qed.

Lemma C2_witness :
  request (rt := typed_runtime) client3 (timeouts_then 3 r200_wrapped)
    = (Return x1, [1; 2; 4])
  /\ exists err,
       request (rt := typed_runtime) client3 always_timeout
         = (Raise err, [1; 2; 4])
       /\ cls err = AionTimeoutError.
Proof.
  split.
  - refine (proj1 (C2_three_timeouts_then_outcome (rt := typed_runtime)
                     client3 (timeouts_then 3 r200_wrapped) eq_refl _)
              r200_wrapped x1 eq_refl eq_refl).
    intros attempt Ha. exists (foreign TimeoutException "timed out").
    split; [|reflexivity].
    unfold timeouts_then. destruct (Z.ltb_spec attempt 3); [reflexivity|lia].
  - destruct (proj2 (C2_three_timeouts_then_outcome (rt := typed_runtime)
                       client3 always_timeout eq_refl
                       (fun attempt _ =>
                          ex_intro _ (foreign TimeoutException "timed out")
                            (conj eq_refl eq_refl)))
                _ eq_refl eq_refl) as (err & Hreq & Hcls & _).
    exists err. split; [exact Hreq | exact Hcls].
Defined.

(** ** The error classifier *)

Section Classifier.
Context {rt : PyRuntime}.

Lemma error_fields_bound (r : httpx.Response) (v : value) :
  httpx.json r = Some v ->
  exists msg dets, error_fields r = (Some v, msg, dets).
Proof.
  intros Hj. unfold error_fields. rewrite Hj.
  destruct v; eauto.
  destruct (ApiError_model_validate items); eauto.
Qed.

Lemma error_fields_unbound (r : httpx.Response) :
  httpx.json r = None ->
  exists msg, error_fields r = (None, msg, None).
Proof. intros Hj. unfold error_fields. rewrite Hj. eauto. Qed.

Ltac classify_status r :=
  unfold _handle_response, httpx.is_success;
  destruct (error_fields r) as [[ed msg] dets];
  repeat match goal with
         | H : httpx.status_code r = _ |- _ => rewrite H
         end;
  cbn.

(** 401: [AionAuthenticationError], not retryable. *)
Lemma classify_401 (r : httpx.Response) :
  httpx.status_code r = 401 ->
  exists e, _handle_response r = Raise e
            /\ cls e = AionAuthenticationError
            /\ status_code e = Some 401
            /\ is_retryable e = Some false.
Proof. intros Hs. classify_status r. eexists. repeat split. Qed.

(** 403: [AionAuthorizationError], not retryable. *)
Lemma classify_403 (r : httpx.Response) :
  httpx.status_code r = 403 ->
  exists e, _handle_response r = Raise e
            /\ cls e = AionAuthorizationError
            /\ status_code e = Some 403
            /\ is_retryable e = Some false.
Proof. intros Hs. classify_status r. eexists. repeat split. Qed.

(** 404: [AionNotFoundError], not retryable. *)
Lemma classify_404 (r : httpx.Response) :
  httpx.status_code r = 404 ->
  exists e, _handle_response r = Raise e
            /\ cls e = AionNotFoundError
            /\ status_code e = Some 404
            /\ is_retryable e = Some false.
Proof. intros Hs. classify_status r. eexists. repeat split. Qed.

(** 429: [AionRateLimitError], always retryable. *)
Lemma classify_429 (r : httpx.Response) :
  httpx.status_code r = 429 ->
  exists e, _handle_response r = Raise e
            /\ cls e = AionRateLimitError
            /\ status_code e = Some 429
            /\ is_retryable e = Some true.
Proof. intros Hs. classify_status r. eexists. repeat split. Qed.

(** The statuses without a class of their own, when the body decodes as
    JSON: [AionAPIError] with the status, retryable exactly for 5xx. *)
Lemma classify_other (r : httpx.Response) (v : value) :
  httpx.is_success r = false ->
  httpx.status_code r <> 401 -> httpx.status_code r <> 403 ->
  httpx.status_code r <> 404 -> httpx.status_code r <> 400 ->
  httpx.status_code r <> 429 ->
  httpx.json r = Some v ->
  exists e, _handle_response r = Raise e
            /\ cls e = AionAPIError
            /\ status_code e = Some (httpx.status_code r)
            /\ is_retryable e
               = Some ((500 <=? httpx.status_code r)
                       && (httpx.status_code r <? 600)).
Proof.
  intros Hok H401 H403 H404 H400 H429 Hj.
  destruct (error_fields_bound r v Hj) as (msg & dets & Hf).
  unfold _handle_response. rewrite Hok, Hf.
  repeat match goal with
         | |- context [?a =? ?b] =>
             destruct (Z.eqb_spec a b); [contradiction|]
         end.
  assert (Hc : forall e,
             construct "AionAPIError" AionAPIError_params
               ["response_data"; "details"] e = e) by reflexivity.
  rewrite Hc.
  eexists. split; [reflexivity|].
  unfold is_retryable, isinstance, is_server_error. cbn.
  repeat split.
  rewrite bool_decide_eq_false_2; [rewrite orb_false_r; reflexivity | congruence].
Qed.

(** The same statuses when the body does not decode: [error_data] was
    never bound and the last branch raises [UnboundLocalError]. *)
Lemma classify_other_undecoded (r : httpx.Response) :
  httpx.is_success r = false ->
  httpx.status_code r <> 401 -> httpx.status_code r <> 403 ->
  httpx.status_code r <> 404 -> httpx.status_code r <> 400 ->
  httpx.status_code r <> 429 ->
  httpx.json r = None ->
  exists e, _handle_response r = Raise e /\ cls e = UnboundLocalError.
Proof.
  intros Hok H401 H403 H404 H400 H429 Hj.
  destruct (error_fields_unbound r Hj) as (msg & Hf).
  unfold _handle_response. rewrite Hok, Hf.
  repeat match goal with
         | |- context [?a =? ?b] =>
             destruct (Z.eqb_spec a b); [contradiction|]
         end.
  eexists. split; reflexivity.
Qed.

End Classifier.

Example handle_r400 :
  _handle_response (rt := typed_runtime) r400
    = Raise (foreign TypeError
               "AionValidationError.__init__() got an unexpected keyword argument 'details'").
Proof. reflexivity. Qed.

Example handle_r503_plain :
  _handle_response (rt := typed_runtime) r503_plain
    = Raise (foreign UnboundLocalError
               "cannot access local variable 'error_data' where it is not associated with a value").
Proof. reflexivity. Qed.

(** C3 (the code departs from the claim).  For status 400 the classifier
    does not produce a validation error: [_handle_response] calls
    [AionValidationError(message, details=details)], the constructor has no
    [details] parameter, and the call raises [TypeError], whatever the body,
    the headers and the runtime. *)
Theorem C3_status_400_raises_TypeError `{rt : PyRuntime}
    (text : string) (json : option value) (headers : gmap string string) :
  _handle_response (httpx.make 400 text json headers)
    = Raise (foreign TypeError
               "AionValidationError.__init__() got an unexpected keyword argument 'details'").
Proof.
  unfold _handle_response.
  destruct (error_fields _) as [[ed msg] dets]. reflexivity.
Qed.

(** ** Response unwrapping *)

Section Unwrapping.
Context {rt : PyRuntime}.

Lemma request_first_attempt (self : AionClient)
    (transport : Z -> result httpx.Response) (r : httpx.Response) (v : value) :
  0 <= max_retries self ->
  transport 0 = Return r ->
  _handle_response r = Return v ->
  request self transport = (Return v, []).
Proof.
  intros Hmax Htr Hv. unfold request.
  destruct (py_range_cons (max_retries self + 1)) as [rest ->]; [lia|].
  apply (request_for_return self transport 0 rest [] r v Htr Hv).
Qed.

Lemma handle_wrapped (r : httpx.Response) (d : dict) (a : ApiResponse.t) :
  httpx.is_success r = true ->
  httpx.json r = Some (VDict d) ->
  is_Some (d !! "data") ->
  ApiResponse_model_validate d = Some a ->
  _handle_response r =
    if ApiResponse.success a then Return (ApiResponse.data a)
    else Raise (AionAPIError_init AionAPIError
                  (str_or (default EmptyString (ApiResponse.message a))
                          "Unknown API error")
                  (httpx.status_code r) (Some (VDict d)) None).
Proof.
  intros Hok Hj Hd Ha. unfold _handle_response, response_json.
  rewrite Hok, Hj. cbn. rewrite bool_decide_eq_true_2 by exact Hd.
  unfold validate_ApiResponse. rewrite Ha. cbn.
  destruct (ApiResponse.success a); reflexivity.
Qed.

Lemma handle_wrapped_invalid (r : httpx.Response) (d : dict) :
  httpx.is_success r = true ->
  httpx.json r = Some (VDict d) ->
  is_Some (d !! "data") ->
  ApiResponse_model_validate d = None ->
  _handle_response r = Return (VStr (httpx.text r)).
Proof.
  intros Hok Hj Hd Ha. unfold _handle_response, response_json.
  rewrite Hok, Hj. cbn. rewrite bool_decide_eq_true_2 by exact Hd.
  unfold validate_ApiResponse. rewrite Ha. reflexivity.
Qed.

Lemma handle_unwrapped_dict (r : httpx.Response) (d : dict) :
  httpx.is_success r = true ->
  httpx.json r = Some (VDict d) ->
  d !! "data" = None ->
  _handle_response r = Return (VDict d).
Proof.
  intros Hok Hj Hd. unfold _handle_response, response_json.
  rewrite Hok, Hj. cbn. rewrite bool_decide_eq_false_2; [reflexivity|].
  rewrite Hd. intros [? [=]].
Qed.

Lemma handle_not_dict (r : httpx.Response) (v : value) :
  httpx.is_success r = true ->
  httpx.json r = Some v ->
  (forall d, v <> VDict d) ->
  _handle_response r = Return v.
Proof.
  intros Hok Hj Hv. unfold _handle_response, response_json.
  rewrite Hok, Hj. destruct v; try reflexivity.
  exfalso. eapply Hv. reflexivity.
Qed.

Lemma handle_undecoded (r : httpx.Response) :
  httpx.is_success r = true ->
  httpx.json r = None ->
  _handle_response r = Return (VStr (httpx.text r)).
Proof.
  intros Hok Hj. unfold _handle_response, response_json.
  rewrite Hok, Hj. reflexivity.
Qed.

End Unwrapping.

(** C4, refuted as stated.  The body of [r200_failed] is a JSON object with
    a "data" key whose value is [{"x": 1}], yet [request] does not return
    that value: the envelope says [success: false] and the attempt raises
    [AionAPIError]. *)
Lemma C4_counterexample :
  httpx.is_success r200_failed = true
  /\ (exists d, httpx.json r200_failed = Some (VDict d)
                /\ d !! "data" = Some x1)
  /\ fst (request (rt := typed_runtime) client3 (fun _ => Return r200_failed))
     <> Return x1
  /\ exists e, _handle_response (rt := typed_runtime) r200_failed = Raise e
               /\ cls e = AionAPIError
               /\ message e = "quota exceeded".
Proof.
  split; [reflexivity|]. split; [eexists; split; reflexivity|].
  split.
  - intros H. vm_compute in H. discriminate H.
  - eexists. split; [vm_compute; reflexivity|]. split; reflexivity.
Qed.

(** C4, amended.  An attempt of [request] that receives a 2xx response
    ends the call, with no further delay, and returns
    - the [data] field of the validated envelope, when the decoded body is
      an object with a "data" key that validates with [success] true; this
      is the value of the "data" key, pydantic handing an [Any] field over
      as it is;
    - the raw text, when such an object does not validate;
    - the decoded body unchanged, when it is an object without a "data" key
      or is not an object;
    - the raw text, when the body does not decode.
    An envelope that validates with [success] false makes the attempt raise
    [AionAPIError].  In particular [{"data": {"x": 1}, "success": true}] and
    the raw [{"x": 1}] both give [{"x": 1}]. *)
Theorem C4_unwrapping `{rt : PyRuntime} (self : AionClient)
    (transport : Z -> result httpx.Response)
    (attempt : Z) (rest slept : list Z) (r : httpx.Response) :
  transport attempt = Return r ->
  httpx.is_success r = true ->
  (forall d a, httpx.json r = Some (VDict d) -> is_Some (d !! "data") ->
     ApiResponse_model_validate d = Some a ->
     ApiResponse.success a = true ->
     request_for self transport (attempt :: rest) slept
       = (Return (ApiResponse.data a), slept))
  /\ (passes_data rt ->
      forall d v a, httpx.json r = Some (VDict d) -> d !! "data" = Some v ->
        ApiResponse_model_validate d = Some a ->
        ApiResponse.success a = true ->
        request_for self transport (attempt :: rest) slept = (Return v, slept))
  /\ (forall d a, httpx.json r = Some (VDict d) -> is_Some (d !! "data") ->
        ApiResponse_model_validate d = Some a ->
        ApiResponse.success a = false ->
        exists e, _handle_response r = Raise e /\ cls e = AionAPIError)
  /\ (forall d, httpx.json r = Some (VDict d) -> is_Some (d !! "data") ->
        ApiResponse_model_validate d = None ->
        request_for self transport (attempt :: rest) slept
          = (Return (VStr (httpx.text r)), slept))
  /\ (forall d, httpx.json r = Some (VDict d) -> d !! "data" = None ->
        request_for self transport (attempt :: rest) slept
          = (Return (VDict d), slept))
  /\ (forall v, httpx.json r = Some v -> (forall d, v <> VDict d) ->
        request_for self transport (attempt :: rest) slept = (Return v, slept))
  /\ (httpx.json r = None ->
        request_for self transport (attempt :: rest) slept
          = (Return (VStr (httpx.text r)), slept))
  /\ (validates_typed rt ->
      httpx.json r = Some (VDict {[ "data" := x1; "success" := VBool true ]}) ->
      request_for self transport (attempt :: rest) slept = (Return x1, slept))
  /\ (httpx.json r = Some x1 ->
      request_for self transport (attempt :: rest) slept = (Return x1, slept)).
Proof.
  intros Htr Hok.
  assert (Hret : forall v, _handle_response r = Return v ->
                   request_for self transport (attempt :: rest) slept
                     = (Return v, slept)).
  { intros v. apply request_for_return, Htr. }
  repeat apply conj.
  - intros d a Hj Hd Ha Hs. apply Hret.
    rewrite (handle_wrapped r d a Hok Hj Hd Ha), Hs. reflexivity.
  - intros Hpass d v a Hj Hd Ha Hs. apply Hret.
    rewrite (handle_wrapped r d a Hok Hj (mk_is_Some _ _ Hd) Ha), Hs.
    pose proof (Hpass d a Ha) as Hv. rewrite Hd in Hv.
    injection Hv as ->. reflexivity.
  - intros d a Hj Hd Ha Hs.
    rewrite (handle_wrapped r d a Hok Hj Hd Ha), Hs.
    eexists. split; reflexivity.
  - intros d Hj Hd Ha. apply Hret.
    apply (handle_wrapped_invalid r d Hok Hj Hd Ha).
  - intros d Hj Hd. apply Hret. apply (handle_unwrapped_dict r d Hok Hj Hd).
  - intros v Hj Hv. apply Hret. apply (handle_not_dict r v Hok Hj Hv).
  - intros Hj. apply Hret. apply (handle_undecoded r Hok Hj).
  - intros Hrt Hj. apply Hret.
    rewrite (handle_wrapped r _ (ApiResponse.make x1 true None) Hok Hj).
    + reflexivity.
    + eexists. reflexivity.
    + apply Hrt; reflexivity.
  - intros Hj. apply Hret.
    apply (handle_unwrapped_dict r _ Hok Hj). reflexivity.
Qed.

Lemma typed_runtime_validates : validates_typed typed_runtime.
Proof.
  intros d v b m Hd Hb Hm. cbn. unfold typed_ApiResponse.
  rewrite Hd. cbn. rewrite Hb. cbn. rewrite Hm. reflexivity.
Qed.

Lemma typed_runtime_passes_data : passes_data typed_runtime.
Proof.
  intros d a. cbn. unfold typed_ApiResponse.
  destruct (d !! "data") as [v|]; [|discriminate]. cbn.
  destruct (field_bool d "success" true); [|discriminate]. cbn.
  destruct (field_opt_str d "message"); [|discriminate]. cbn.
  intros [= <-]. reflexivity.
Qed.

Lemma C4_witness :
  request (rt := typed_runtime) client3 (fun _ => Return r200_wrapped)
    = (Return x1, [])
  /\ request (rt := typed_runtime) client3 (fun _ => Return r200_raw)
     = (Return x1, [])
  /\ request (rt := typed_runtime) client3 (timeouts_then 2 r200_wrapped)
     = (Return x1, [1; 2]).
Proof.
  split; [|split].
  - destruct (C4_unwrapping (rt := typed_runtime) client3
                (fun _ => Return r200_wrapped) 0 [1; 2; 3] [] r200_wrapped
                eq_refl eq_refl)
      as (_ & _ & _ & _ & _ & _ & _ & H & _).
    apply H; [apply typed_runtime_validates | reflexivity].
  - destruct (C4_unwrapping (rt := typed_runtime) client3
                (fun _ => Return r200_raw) 0 [1; 2; 3] [] r200_raw
                eq_refl eq_refl)
      as (_ & _ & _ & _ & _ & _ & _ & _ & H).
    apply H. reflexivity.
  - destruct (C4_unwrapping (rt := typed_runtime) client3
                (timeouts_then 2 r200_wrapped) 2 [3] [1; 2] r200_wrapped
                eq_refl eq_refl)
      as (_ & _ & _ & _ & _ & _ & _ & H & _).
    change (request (rt := typed_runtime) client3 (timeouts_then 2 r200_wrapped))
      with (request_for (rt := typed_runtime) client3
              (timeouts_then 2 r200_wrapped) [2; 3] [1; 2]).
    apply H; [apply typed_runtime_validates | reflexivity].
Defined.

(** ** Waiting for completion over the WebSocket *)

Lemma inflow_app (s1 s2 : list tick) : inflow (s1 ++ s2) = inflow s1 ++ inflow s2.
Proof.
  induction s1 as [|t s1 IH]; [reflexivity|].
  destruct t as [[[|[ev|]]| | |]|]; cbn; rewrite ?IH; reflexivity.
Qed.

Lemma polls_app (s1 s2 : list tick) : polls (s1 ++ s2) = (polls s1 + polls s2)%nat.
Proof.
  induction s1 as [|[i|] s1 IH]; cbn; rewrite ?IH; reflexivity.
Qed.

(** The handler only appends to the queue. *)
Lemma handler_queue (i : inbound) (self : WebSocketClient) :
  _event_queue (snd (_message_handler i self))
    = _event_queue self ++ inflow [Env i].
Proof.
  destruct i as [[|[ev|]]| | |]; cbn; rewrite ?app_nil_r; try reflexivity;
    unfold mark_closed; destruct (_websocket self); reflexivity.
Qed.

(** It clears [_running] on a closed connection or a failure, and never
    sets it. *)
Lemma handler_running (i : inbound) (self : WebSocketClient) :
  _running (snd (_message_handler i self))
    = _running self && negb (clears_running i).
Proof.
  destruct i as [[|[ev|]]| | |]; cbn; rewrite ?andb_true_r, ?andb_false_r;
    try reflexivity; unfold mark_closed; destruct (_websocket self); reflexivity.
Qed.

(** It never touches the subscription set. *)
Lemma handler_subscriptions (i : inbound) (self : WebSocketClient) :
  _subscriptions (snd (_message_handler i self)) = _subscriptions self.
Proof.
  destruct i as [[|[ev|]]| | |]; cbn; try reflexivity;
    unfold mark_closed; destruct (_websocket self); reflexivity.
Qed.

Lemma events_cons (self : WebSocketClient) (ev : ProgressEvent.t)
    (q : list ProgressEvent.t) :
  _event_queue self = ev :: q ->
  events self = (Yield ev, set_event_queue q self).
Proof.
  intros Hq. unfold events. rewrite Hq. cbn. rewrite orb_true_r. reflexivity.
Qed.

Lemma events_idle (self : WebSocketClient) :
  _event_queue self = [] -> _running self = true -> events self = (Skip, self).
Proof. intros Hq Hr. unfold events. rewrite Hq, Hr. reflexivity. Qed.

Lemma events_end (self : WebSocketClient) :
  _event_queue self = [] -> _running self = false -> events self = (Stop, self).
Proof. intros Hq Hr. unfold events. rewrite Hq, Hr. reflexivity. Qed.

(** When the inbound iteration ends without raising, the flag stays as
    it was. *)
Lemma handler_finished_keeps_running (self : WebSocketClient) :
  _running (snd (_message_handler Finished self)) = _running self.
Proof. rewrite handler_running. cbn. apply andb_true_r. Qed.

(** The rounds of the three event generators only take events off the
    queue. *)
Lemma events_socket (self : WebSocketClient) :
  _websocket (snd (events self)) = _websocket self.
Proof.
  unfold events.
  destruct (_running self || negb (empty (_event_queue self)));
    [|reflexivity].
  destruct (_event_queue self); reflexivity.
Qed.

Lemma session_events_socket (session_id : UUID) (self : WebSocketClient) :
  _websocket (snd (session_events session_id self)) = _websocket self.
Proof.
  unfold session_events. pose proof (events_socket self) as H.
  destruct (events self) as [[ev| |] self']; cbn [snd] in *; try exact H.
  destruct (bool_decide (ProgressEvent.session_id ev = session_id)); exact H.
Qed.

Lemma typed_events_socket (event_types : list ProgressEventType)
    (self : WebSocketClient) :
  _websocket (snd (typed_events event_types self)) = _websocket self.
Proof.
  unfold typed_events. pose proof (events_socket self) as H.
  destruct (events self) as [[ev| |] self']; cbn [snd] in *; try exact H.
  destruct (bool_decide (ProgressEvent.event_type ev ∈ event_types)); exact H.
Qed.

(** The handler task never opens a socket, and the end of the inbound
    iteration leaves it closed. *)
Lemma handler_keeps_closed (i : inbound) (self : WebSocketClient) :
  is_open self = false -> is_open (snd (_message_handler i self)) = false.
Proof.
  unfold is_open.
  destruct i as [[|[ev|]]| | |]; cbn; try (intros H; exact H);
    unfold mark_closed; destruct (_websocket self) as [ws|] eqn:Hws; cbn;
    rewrite ?Hws; intros H; first [reflexivity | exact H].
Qed.

Lemma handler_finished_closes (self : WebSocketClient) :
  is_open (snd (_message_handler Finished self)) = false.
Proof.
  unfold is_open. cbn. unfold mark_closed.
  destruct (_websocket self) as [ws|] eqn:Hws; cbn; [reflexivity|].
  rewrite Hws. reflexivity.
Qed.

Lemma stays_up_app (s1 s2 : list tick) :
  stays_up (s1 ++ s2) = stays_up s1 && stays_up s2.
Proof.
  induction s1 as [|[i|] s1 IH]; cbn; rewrite ?IH, ?andb_assoc; reflexivity.
Qed.

Lemma stays_up_polls (n : nat) : stays_up (repeat Poll n) = true.
Proof. induction n as [|n IH]; [reflexivity | exact IH]. Qed.

Lemma inflow_polls (n : nat) : inflow (repeat Poll n) = [].
Proof. induction n as [|n IH]; [reflexivity | exact IH]. Qed.

Section WaitLoop.
Variable session_id : UUID.

(** A round of the loop on a queue that is not empty: the head is taken
    off; it ends the wait exactly when it is the awaited event. *)
Lemma wait_loop_poll_cons (rest : list tick) (self : WebSocketClient)
    (ev : ProgressEvent.t) (q : list ProgressEvent.t) :
  _event_queue self = ev :: q ->
  wait_loop session_id (Poll :: rest) self =
    if awaited session_id ev
    then (Some (Return ev), set_event_queue q self)
    else wait_loop session_id rest (set_event_queue q self).
Proof.
  intros Hq. cbn [wait_loop]. unfold session_events, awaited.
  rewrite (events_cons self ev q Hq).
  destruct (bool_decide (ProgressEvent.session_id ev = session_id));
    [|reflexivity].
  cbn. destruct (is_completion ev); reflexivity.
Qed.

Lemma wait_loop_poll_idle (rest : list tick) (self : WebSocketClient) :
  _event_queue self = [] -> _running self = true ->
  wait_loop session_id (Poll :: rest) self = wait_loop session_id rest self.
Proof.
  intros Hq Hr. cbn [wait_loop]. unfold session_events.
  rewrite (events_idle self Hq Hr). reflexivity.
Qed.

Lemma wait_loop_poll_end (rest : list tick) (self : WebSocketClient) :
  _event_queue self = [] -> _running self = false ->
  wait_loop session_id (Poll :: rest) self = (Some (Raise not_received), self).
Proof.
  intros Hq Hr. cbn [wait_loop]. unfold session_events.
  rewrite (events_end self Hq Hr). reflexivity.
Qed.

(** While the flag is set and the queue is empty, rounds of the loop
    change nothing and the wait goes on; so it does after an inbound
    iteration that ended without raising. *)
Lemma wait_loop_idle (n : nat) (self : WebSocketClient) :
  _event_queue self = [] -> _running self = true ->
  wait_loop session_id (repeat Poll n) self = (None, self).
Proof.
  intros Hq Hr. induction n as [|n IH]; [reflexivity|].
  cbn [repeat]. rewrite (wait_loop_poll_idle _ self Hq Hr). exact IH.
Qed.

(** More generally: while the flag is set and no awaited event arrives,
    the wait is still suspended at the end of the schedule, whatever is
    delivered meanwhile. *)
Lemma wait_loop_suspended (sched : list tick) :
  forall self : WebSocketClient,
    _running self = true ->
    stays_up sched = true ->
    Forall (fun ev => awaited session_id ev = false)
           (_event_queue self ++ inflow sched) ->
    exists self',
      wait_loop session_id sched self = (None, self')
      /\ _running self' = true.
Proof.
  induction sched as [|[i|] rest IH]; intros self Hr Hup Hq.
  - exists self. split; [reflexivity | exact Hr].
  - cbn [wait_loop]. cbn [stays_up] in Hup.
    apply andb_true_iff in Hup as [Hi Hup]. apply IH.
    + rewrite handler_running, Hr, Hi. reflexivity.
    + exact Hup.
    + rewrite handler_queue, <- app_assoc, <- inflow_app. exact Hq.
  - cbn [stays_up inflow] in Hup, Hq.
    destruct (_event_queue self) as [|ev q] eqn:Hqe.
    + rewrite (wait_loop_poll_idle rest self Hqe Hr).
      apply IH; [exact Hr | exact Hup |]. rewrite Hqe. exact Hq.
    + rewrite (wait_loop_poll_cons rest self ev q Hqe).
      cbn [app] in Hq. inversion Hq as [|? ? Hev Hq']; subst.
      rewrite Hev. apply IH; [exact Hr | exact Hup | exact Hq'].
Qed.

(** A wait that is still suspended after the inbound iteration has ended
    is waiting on a closed socket. *)
Lemma wait_loop_socket_closed (sched : list tick) :
  forall self : WebSocketClient,
    is_open self = false \/ List.In (Env Finished) sched ->
    fst (wait_loop session_id sched self) = None ->
    is_open (snd (wait_loop session_id sched self)) = false.
Proof.
  induction sched as [|[i|] rest IH]; intros self Hc Hn.
  - destruct Hc as [Hc|[]]. exact Hc.
  - cbn [wait_loop] in *. apply IH; [|exact Hn].
    destruct Hc as [Hc|[Hi|Hin]].
    + left. apply handler_keeps_closed, Hc.
    + injection Hi as ->. left. apply handler_finished_closes.
    + right. exact Hin.
  - assert (Hc' : forall self',
               _websocket self' = _websocket self ->
               is_open self' = false \/ List.In (Env Finished) rest).
    { intros self' Hs. destruct Hc as [Hc|[Hp|Hin]];
        [left | discriminate Hp | right; exact Hin].
      unfold is_open in *. rewrite Hs. exact Hc. }
    cbn [wait_loop] in *.
    pose proof (session_events_socket session_id self) as Hs.
    destruct (session_events session_id self) as [[ev| |] self'];
      cbn [snd] in Hs.
    + destruct (is_completion ev); [discriminate Hn|].
      apply IH; [apply Hc', Hs | exact Hn].
    + apply IH; [apply Hc', Hs | exact Hn].
    + discriminate Hn.
Qed.

(** The awaited event is in the queue, behind [pre]: more than
    [length pre] rounds return it, whatever the handler does meanwhile,
    and at that moment exactly [pre] and the event have been taken off the
    queue. *)
Lemma wait_loop_finds (sched : list tick) :
  forall (self : WebSocketClient) (pre : list ProgressEvent.t)
         (e : ProgressEvent.t) (post : list ProgressEvent.t),
    _event_queue self = pre ++ e :: post ->
    Forall (fun ev => awaited session_id ev = false) pre ->
    awaited session_id e = true ->
    (length pre < polls sched)%nat ->
    exists used unused self',
      sched = used ++ unused
      /\ wait_loop session_id sched self = (Some (Return e), self')
      /\ _event_queue self ++ inflow used = pre ++ e :: _event_queue self'.
Proof.
  induction sched as [|[i|] rest IH]; intros self pre e post Hq Hpre He Hn.
  - cbn in Hn. lia.
  - destruct (IH (snd (_message_handler i self)) pre e
                (post ++ inflow [Env i])) as (used & unused & self' & -> & Hw & Hc).
    + rewrite handler_queue, Hq, <- app_assoc. reflexivity.
    + exact Hpre.
    + exact He.
    + exact Hn.
    + exists (Env i :: used), unused, self'. split; [reflexivity|].
      split; [exact Hw|].
      rewrite <- Hc, handler_queue, <- app_assoc.
      change (Env i :: used) with ([Env i] ++ used).
      rewrite inflow_app. reflexivity.
  - destruct pre as [|p pre].
    + exists [Poll], rest, (set_event_queue post self).
      split; [reflexivity|]. split.
      * rewrite (wait_loop_poll_cons rest self e post Hq), He. reflexivity.
      * cbn. rewrite app_nil_r. exact Hq.
    + inversion Hpre as [|? ? Hp Hpre']; subst.
      destruct (IH (set_event_queue (pre ++ e :: post) self) pre e post)
        as (used & unused & self' & -> & Hw & Hc).
      * reflexivity.
      * exact Hpre'.
      * exact He.
      * cbn in Hn. lia.
      * exists (Poll :: used), unused, self'. split; [reflexivity|].
        split.
        -- rewrite (wait_loop_poll_cons _ self p (pre ++ e :: post) Hq), Hp.
           exact Hw.
        -- cbn in Hc. cbn. rewrite Hq. cbn. f_equal. exact Hc.
Qed.

End WaitLoop.

Section WaitLoopArrival.
Variable session_id : UUID.

(** The awaited event arrives while the connection is up: [s1] brings it,
    and more than [length pre] rounds after that return it. *)
Lemma wait_loop_arrival (s1 : list tick) :
  forall (self : WebSocketClient) (s2 : list tick)
         (pre : list ProgressEvent.t) (e : ProgressEvent.t)
         (post : list ProgressEvent.t),
    _running self = true ->
    stays_up s1 = true ->
    _event_queue self ++ inflow s1 = pre ++ e :: post ->
    Forall (fun ev => awaited session_id ev = false) pre ->
    awaited session_id e = true ->
    (length pre < polls s2)%nat ->
    exists used unused self',
      s1 ++ s2 = used ++ unused
      /\ wait_loop session_id (s1 ++ s2) self = (Some (Return e), self')
      /\ _event_queue self ++ inflow used = pre ++ e :: _event_queue self'.
Proof.
  induction s1 as [|[i|] s1 IH]; intros self s2 pre e post Hr Hup Hq Hpre He Hn.
  - cbn in Hq. rewrite app_nil_r in Hq.
    apply (wait_loop_finds session_id s2 self pre e post Hq Hpre He Hn).
  - cbn in Hup. apply andb_true_iff in Hup as [Hi Hup].
    destruct (IH (snd (_message_handler i self)) s2 pre e post)
      as (used & unused & self' & Hs & Hw & Hc).
    + rewrite handler_running, Hr, Hi. reflexivity.
    + exact Hup.
    + rewrite handler_queue, <- app_assoc, <- inflow_app. exact Hq.
    + exact Hpre.
    + exact He.
    + exact Hn.
    + exists (Env i :: used), unused, self'. split; [cbn; f_equal; exact Hs|].
      split; [exact Hw|].
      rewrite <- Hc, handler_queue, <- app_assoc.
      change (Env i :: used) with ([Env i] ++ used).
      rewrite inflow_app. reflexivity.
  - cbn in Hup. cbn [inflow] in Hq.
    destruct (_event_queue self) as [|p q] eqn:Hself.
    + destruct (IH self s2 pre e post) as (used & unused & self' & Hs & Hw & Hc);
        try assumption.
      { rewrite Hself. exact Hq. }
      exists (Poll :: used), unused, self'. split; [cbn; f_equal; exact Hs|].
      split.
      * cbn [app]. rewrite (wait_loop_poll_idle session_id _ self Hself Hr).
        exact Hw.
      * rewrite Hself in Hc. exact Hc.
    + destruct pre as [|p' pre].
      * cbn in Hq. injection Hq as -> Hq.
        exists [Poll], (s1 ++ s2), (set_event_queue q self).
        split; [reflexivity|]. split.
        -- cbn [app].
           rewrite (wait_loop_poll_cons session_id _ self e q Hself), He.
           reflexivity.
        -- cbn. rewrite app_nil_r. reflexivity.
      * cbn in Hq. injection Hq as -> Hq.
        inversion Hpre as [|? ? Hp Hpre']; subst.
        destruct (IH (set_event_queue q self) s2 pre e post)
          as (used & unused & self' & Hs & Hw & Hc); try assumption.
        { cbn in Hn. lia. }
        exists (Poll :: used), unused, self'.
        split; [cbn; f_equal; exact Hs|]. split.
        -- cbn [app].
           rewrite (wait_loop_poll_cons session_id _ self p' q Hself), Hp.
           exact Hw.
        -- cbn in Hc. cbn. f_equal. exact Hc.
Qed.

(** The flag is clear, nothing arrives any more and the queue holds no
    awaited event: once the queue is drained the wait raises. *)
Lemma wait_loop_stops (sched : list tick) :
  forall self : WebSocketClient,
    _running self = false ->
    inflow sched = [] ->
    Forall (fun ev => awaited session_id ev = false) (_event_queue self) ->
    (length (_event_queue self) < polls sched)%nat ->
    exists self',
      wait_loop session_id sched self = (Some (Raise not_received), self')
      /\ _event_queue self' = [].
Proof.
  induction sched as [|[i|] rest IH]; intros self Hr Hin Hq Hn.
  - cbn in Hn. lia.
  - change (Env i :: rest) with ([Env i] ++ rest) in Hin.
    rewrite inflow_app in Hin. apply app_eq_nil in Hin as [Hi Hin].
    cbn [wait_loop]. apply IH.
    + rewrite handler_running, Hr. reflexivity.
    + exact Hin.
    + rewrite handler_queue, Hi, app_nil_r. exact Hq.
    + rewrite handler_queue, Hi, app_nil_r. exact Hn.
  - destruct (_event_queue self) as [|p q] eqn:Hself.
    + exists self. split; [|exact Hself].
      apply (wait_loop_poll_end session_id rest self Hself Hr).
    + inversion Hq as [|? ? Hp Hq']; subst.
      rewrite (wait_loop_poll_cons session_id rest self p q Hself), Hp.
      apply IH; cbn; try assumption. cbn in Hn. lia.
Qed.

(** The connection is lost at some point of [s1] (or the flag was clear
    from the start), no awaited event was delivered, and nothing arrives
    afterwards: the wait raises instead of going on for ever. *)
Lemma wait_loop_connection_lost (s1 : list tick) :
  forall (self : WebSocketClient) (s2 : list tick),
    _running self && stays_up s1 = false ->
    inflow s2 = [] ->
    Forall (fun ev => awaited session_id ev = false)
           (_event_queue self ++ inflow s1) ->
    (length (_event_queue self ++ inflow s1) < polls s2)%nat ->
    exists self',
      wait_loop session_id (s1 ++ s2) self = (Some (Raise not_received), self')
      /\ _event_queue self' = [].
Proof.
  induction s1 as [|[i|] s1 IH]; intros self s2 Hr Hin Hq Hn.
  - cbn in Hr, Hq, Hn. rewrite andb_true_r in Hr. rewrite app_nil_r in Hq, Hn.
    apply wait_loop_stops; assumption.
  - cbn [app wait_loop]. apply IH.
    + rewrite handler_running. cbn in Hr. rewrite <- andb_assoc. exact Hr.
    + exact Hin.
    + rewrite handler_queue, <- app_assoc, <- inflow_app. exact Hq.
    + rewrite handler_queue, <- app_assoc, <- inflow_app. exact Hn.
  - cbn [stays_up inflow] in Hr, Hq, Hn.
    destruct (_event_queue self) as [|p q] eqn:Hself.
    + destruct (_running self) eqn:Hrun.
      * cbn [app]. rewrite (wait_loop_poll_idle session_id _ self Hself Hrun).
        apply IH; rewrite ?Hself, ?Hrun; assumption.
      * exists self. split; [|exact Hself].
        cbn [app]. apply (wait_loop_poll_end session_id _ self Hself Hrun).
    + cbn in Hq. inversion Hq as [|? ? Hp Hq']; subst.
      cbn [app]. rewrite (wait_loop_poll_cons session_id _ self p q Hself), Hp.
      apply IH; cbn; try assumption. cbn in Hn. lia.
Qed.

End WaitLoopArrival.

Lemma app_eq_app_cons_inv {A : Type} (pre : list A) :
  forall (q x post : list A) (e : A),
    (length pre < length q)%nat ->
    q ++ x = pre ++ e :: post ->
    exists post0, q = pre ++ e :: post0.
Proof.
  induction pre as [|p pre IH]; intros q x post e Hlen Heq.
  - destruct q as [|a q]; [cbn in Hlen; lia|].
    cbn in Heq. injection Heq as -> _. exists q. reflexivity.
  - destruct q as [|a q]; [cbn in Hlen; lia|].
    cbn in Heq. injection Heq as -> Heq.
    destruct (IH q x post e) as [post0 ->]; [cbn in Hlen; lia | exact Heq |].
    exists post0. reflexivity.
Qed.

(** C5 (the code departs from the claim).  Once [subscribe] has
    succeeded, [wait_for_completion session_id]
    - returns the first event of the session whose type is
      [SESSION_COMPLETED] or [SESSION_FAILED], as soon as it has had one
      round of its loop for that event and for each event delivered before
      it, provided the event is already queued or the connection stays up
      until it arrives; when it returns, the events taken off the queue are
      exactly those up to the returned one: what was delivered after it is
      still queued;
    - raises [AionWebSocketError] "Session completion event not received"
      once the running flag is clear, no further event arrives and the
      queue is drained without such an event;
    - but waits for ever when the connection is closed in the normal way
      before such an event: the inbound iteration of the handler then ends
      without an exception, no clause of [_message_handler] clears the
      running flag, and after any number of rounds on the closed socket
      the wait is still suspended, with the flag set. *)
Theorem C5_wait_for_completion
    (handshake : string -> result websockets.WebSocketClientProtocol)
    (session_id : UUID) (self0 self : WebSocketClient) :
  subscribe handshake session_id self0 = (Return (), self) ->
  (forall (s1 s2 : list tick) (pre : list ProgressEvent.t)
          (e : ProgressEvent.t) (post : list ProgressEvent.t),
      (length pre < length (_event_queue self))%nat
      \/ (_running self = true /\ stays_up s1 = true) ->
      _event_queue self ++ inflow s1 = pre ++ e :: post ->
      Forall (fun ev => awaited session_id ev = false) pre ->
      awaited session_id e = true ->
      (length pre < polls s2)%nat ->
      exists used unused self',
        s1 ++ s2 = used ++ unused
        /\ wait_for_completion handshake session_id (s1 ++ s2) self0
           = (Some (Return e), self')
        /\ _event_queue self ++ inflow used = pre ++ e :: _event_queue self')
  /\ (forall s1 s2 : list tick,
        _running self && stays_up s1 = false ->
        inflow s2 = [] ->
        Forall (fun ev => awaited session_id ev = false)
               (_event_queue self ++ inflow s1) ->
        (length (_event_queue self ++ inflow s1) < polls s2)%nat ->
        exists self',
          wait_for_completion handshake session_id (s1 ++ s2) self0
            = (Some (Raise (AionWebSocketError_init
                              "Session completion event not received")),
               self')
          /\ _event_queue self' = [])
  /\ (forall (s1 : list tick) (n : nat),
        _running self = true ->
        stays_up s1 = true ->
        Forall (fun ev => awaited session_id ev = false)
               (_event_queue self ++ inflow s1) ->
        exists self',
          wait_for_completion handshake session_id
            (s1 ++ Env Finished :: repeat Poll n) self0
            = (None, self')
          /\ _running self' = true
          /\ is_open self' = false).
Proof.
  intros Hsub. unfold wait_for_completion. rewrite Hsub.
  split; [|split]; cycle 2.
  { intros s1 n Hr Hup Hq.
    destruct (wait_loop_suspended session_id
                (s1 ++ Env Finished :: repeat Poll n) self Hr)
      as (self' & Hw & Hr').
    - rewrite stays_up_app, Hup. cbn. apply stays_up_polls.
    - rewrite inflow_app. cbn [inflow]. rewrite inflow_polls, app_nil_r.
      exact Hq.
    - exists self'. split; [exact Hw|]. split; [exact Hr'|].
      pose proof (wait_loop_socket_closed session_id
                    (s1 ++ Env Finished :: repeat Poll n) self) as Hc.
      rewrite Hw in Hc. apply Hc; [|reflexivity].
      right. apply in_elt. }
  - intros s1 s2 pre e post [Hlen | [Hr Hup]] Hq Hpre He Hn.
    + destruct (app_eq_app_cons_inv pre _ _ post e Hlen Hq) as [post0 Hq0].
      apply (wait_loop_finds session_id (s1 ++ s2) self pre e post0 Hq0 Hpre He).
      rewrite polls_app. lia.
    + apply (wait_loop_arrival session_id s1 self s2 pre e post); assumption.
  - intros s1 s2 Hr Hin Hq Hn.
    apply (wait_loop_connection_lost session_id s1 self s2); assumption.
Qed.

Lemma C5_witness :
  (exists used unused self',
      [Env (Message (Text (Some progress1)));
       Env (Message (Text (Some completed1)));
       Env (Message (Text (Some progress1)))] ++ [Poll; Poll]
        = used ++ unused
      /\ wait_for_completion accepting 1%N
           ([Env (Message (Text (Some progress1)));
             Env (Message (Text (Some completed1)));
             Env (Message (Text (Some progress1)))] ++ [Poll; Poll]) ws_open
         = (Some (Return completed1), self')
      /\ _event_queue ws_subscribed ++ inflow used
         = [progress1] ++ completed1 :: _event_queue self')
  /\ (exists self',
        wait_for_completion accepting 1%N
          ([Env (Message (Text (Some progress1))); Env Closed]
             ++ [Poll; Poll]) ws_open
          = (Some (Raise (AionWebSocketError_init
                            "Session completion event not received")), self')
        /\ _event_queue self' = [])
  /\ (exists self',
        wait_for_completion accepting 1%N
          ([Env (Message (Text (Some progress1)))]
             ++ Env Finished :: repeat Poll 5) ws_open
          = (None, self')
        /\ _running self' = true
        /\ is_open self' = false).
Proof.
  assert (Hsub : subscribe accepting 1%N ws_open = (Return (), ws_subscribed))
    by (vm_compute; reflexivity).
  destruct (C5_wait_for_completion accepting 1%N ws_open ws_subscribed Hsub)
    as (Hret & Hraise & Hhang).
  split; [|split].
  - apply (Hret _ _ [progress1] completed1 [progress1]).
    + right. split; reflexivity.
    + reflexivity.
    + repeat constructor.
    + reflexivity.
    + cbn. lia.
  - apply Hraise.
    + reflexivity.
    + reflexivity.
    + repeat constructor.
    + cbn. lia.
  - apply (Hhang [Env (Message (Text (Some progress1)))] 5%nat).
    + reflexivity.
    + reflexivity.
    + repeat constructor.
Defined.

(** ** Subscriptions *)

Section Subscribe.
Variable handshake : string -> result websockets.WebSocketClientProtocol.

(** After a [subscribe] that returned, there is a socket and the session
    is in the set. *)
Lemma subscribe_returned (session_id : UUID) (self self1 : WebSocketClient) :
  subscribe handshake session_id self = (Return (), self1) ->
  (exists ws, _websocket self1 = Some ws) /\ session_id ∈ _subscriptions self1.
Proof.
  unfold subscribe.
  destruct (match _websocket self with
            | Some _ => (Return (), self)
            | None => connect handshake self
            end) as [[[]|e] self'] eqn:Hc; [|discriminate].
  destruct (bool_decide (session_id ∉ _subscriptions self')) eqn:Hin.
  - destruct (_websocket self') as [ws|]; [|discriminate].
    destruct (websockets.send ws _) as [ws'|e]; [|discriminate].
    intros [= <-]. cbn. split; [eauto | set_solver].
  - intros [= <-]. apply bool_decide_eq_false in Hin.
    split.
    + destruct (_websocket self) as [ws|] eqn:Hws.
      * injection Hc as <-. eauto.
      * unfold connect in Hc.
        destruct (is_open self) eqn:Ho.
        { unfold is_open in Ho. rewrite Hws in Ho. discriminate. }
        destruct (_build_ws_url self); [|discriminate].
        destruct (handshake a) as [ws|e]; [|discriminate].
        injection Hc as <-. cbn. eauto.
    + destruct (decide (session_id ∈ _subscriptions self')); [assumption|].
      contradiction.
Qed.

(** With a socket and the session already in the set, [subscribe] does
    nothing at all. *)
Lemma subscribe_again (session_id : UUID) (self : WebSocketClient)
    (ws : websockets.WebSocketClientProtocol) :
  _websocket self = Some ws ->
  session_id ∈ _subscriptions self ->
  subscribe handshake session_id self = (Return (), self).
Proof.
  intros Hws Hin. unfold subscribe. rewrite Hws.
  rewrite bool_decide_eq_false_2; [reflexivity|].
  intros Hn. contradiction.
Qed.

(** The first [subscribe] on an open socket writes one frame. *)
Lemma subscribe_first (session_id : UUID) (self : WebSocketClient)
    (ws : websockets.WebSocketClientProtocol) :
  _websocket self = Some ws ->
  websockets.closed ws = false ->
  session_id ∉ _subscriptions self ->
  subscribe handshake session_id self =
    (Return (),
     set_subscriptions ({[session_id]} ∪ _subscriptions self)
       (set_websocket
          (Some (websockets.make false
                   (websockets.sent ws ++ [Control "subscribe" session_id])))
          self)).
Proof.
  intros Hws Hopen Hin. unfold subscribe. rewrite Hws.
  rewrite bool_decide_eq_true_2 by exact Hin.
  rewrite Hws. unfold websockets.send. rewrite Hopen. reflexivity.
Qed.

End Subscribe.

(** C6.  [subscribe] is idempotent per session id.  With a socket and the
    session id already in the subscription set, a call returns with the
    client unchanged: no frame is written and the set is the same.  Hence
    a second call after one that returned changes nothing; and two calls
    on an open socket for a session that was not subscribed write exactly
    one subscribe frame and add the one entry to the set. *)
Theorem C6_subscribe_idempotent
    (handshake : string -> result websockets.WebSocketClientProtocol)
    (session_id : UUID) (self : WebSocketClient) :
  (forall ws, _websocket self = Some ws ->
     session_id ∈ _subscriptions self ->
     subscribe handshake session_id self = (Return (), self))
  /\ (forall self1,
        subscribe handshake session_id self = (Return (), self1) ->
        subscribe handshake session_id self1 = (Return (), self1))
  /\ (forall ws, _websocket self = Some ws ->
        websockets.closed ws = false ->
        session_id ∉ _subscriptions self ->
        exists self1,
          subscribe handshake session_id self = (Return (), self1)
          /\ subscribe handshake session_id self1 = (Return (), self1)
          /\ _websocket self1
             = Some (websockets.make false
                       (websockets.sent ws ++ [Control "subscribe" session_id]))
          /\ _subscriptions self1 = {[session_id]} ∪ _subscriptions self
          /\ size (_subscriptions self1) = S (size (_subscriptions self))).
Proof.
  split; [|split].
  - intros ws Hws Hin. apply (subscribe_again handshake session_id self ws Hws Hin).
  - intros self1 Hsub.
    destruct (subscribe_returned handshake session_id self self1 Hsub)
      as [[ws Hws] Hin].
    apply (subscribe_again handshake session_id self1 ws Hws Hin).
  - intros ws Hws Hopen Hin. eexists. split; [|split; [|split; [|split]]].
    + apply (subscribe_first handshake session_id self ws Hws Hopen Hin).
    + eapply subscribe_again; [reflexivity|]. cbn. set_solver.
    + reflexivity.
    + reflexivity.
    + cbn. rewrite size_union by set_solver. rewrite size_singleton. reflexivity.
Qed.

Lemma C6_witness :
  subscribe accepting 1%N ws_open = (Return (), ws_subscribed)
  /\ subscribe accepting 1%N ws_subscribed = (Return (), ws_subscribed).
Proof.
  destruct (C6_subscribe_idempotent accepting 1%N ws_open) as (_ & Htwice & _).
  destruct (C6_subscribe_idempotent accepting 1%N ws_subscribed)
    as (Hagain & _ & _).
  assert (Hfirst : subscribe accepting 1%N ws_open = (Return (), ws_subscribed))
    by (vm_compute; reflexivity).
  split; [exact Hfirst|].
  apply (Hagain (websockets.make false [Control "subscribe" 1%N]) eq_refl).
  cbn. set_solver.
Defined.

(** ** Routing of inbound events *)

(** C7, refuted as stated.  A client subscribed to session 1 only
    receives a valid frame for session 2: the event is not discarded, the
    handler queues it and [events] hands it to its consumer.  And an event
    reaches one consumer only: with the sessions 1 and 2 subscribed, the
    consumer of [session_events 2] that takes an event of session 1 off the
    queue drops it, and the consumer of [session_events 1] finds the queue
    empty. *)
Lemma C7_counterexample :
  (ProgressEvent.session_id progress2 ∉ _subscriptions ws_subscribed)
  /\ fst (events (snd (_message_handler (Message (Text (Some progress2)))
                         ws_subscribed)))
     = Yield progress2
  /\ subscribe accepting 2%N ws_subscribed = (Return (), ws_two)
  /\ (ProgressEvent.session_id progress1 ∈ _subscriptions ws_two)
  /\ (let arrived :=
        snd (_message_handler (Message (Text (Some progress1))) ws_two) in
      let after_other := snd (session_events 2%N arrived) in
      _event_queue arrived = [progress1]
      /\ fst (session_events 2%N arrived) = Skip
      /\ _event_queue after_other = []
      /\ fst (session_events 1%N after_other) = Skip).
Proof.
  split; [|split; [|split; [|split; [|repeat split]]]].
  - cbn. set_solver.
  - reflexivity.
  - vm_compute. reflexivity.
  - cbn. set_solver.
Qed.

(** C7, amended.  Every valid inbound event frame is appended to the one
    queue of the client, whatever the subscription set, which the handler
    never reads or changes.  [events] hands over the head of the queue,
    whatever its session.  [session_events session_id] hands over the head
    when its session id is [session_id], and otherwise takes it off the
    queue and drops it; it never hands over an event of another session. *)
Theorem C7_single_queue (self : WebSocketClient) (event : ProgressEvent.t) :
  _message_handler (Message (Text (Some event))) self
    = (None, set_event_queue (_event_queue self ++ [event]) self)
  /\ _subscriptions (snd (_message_handler (Message (Text (Some event))) self))
     = _subscriptions self
  /\ (forall q, _event_queue self = event :: q ->
        events self = (Yield event, set_event_queue q self))
  /\ (forall session_id q, _event_queue self = event :: q ->
        session_events session_id self =
          if bool_decide (ProgressEvent.session_id event = session_id)
          then (Yield event, set_event_queue q self)
          else (Skip, set_event_queue q self))
  /\ (forall session_id ev self',
        session_events session_id self = (Yield ev, self') ->
        ProgressEvent.session_id ev = session_id).
Proof.
  split; [reflexivity|]. split; [reflexivity|]. split; [|split].
  - intros q Hq. apply (events_cons self event q Hq).
  - intros session_id q Hq. unfold session_events.
    rewrite (events_cons self event q Hq). reflexivity.
  - intros session_id ev self'. unfold session_events.
    destruct (events self) as [[ev'| |] self''].
    + destruct (bool_decide (ProgressEvent.session_id ev' = session_id)) eqn:Hs;
        [|discriminate].
      intros [= <- <-]. apply bool_decide_eq_true in Hs. exact Hs.
    + discriminate.
    + discriminate.
Qed.

(** ** Teardown of the connection *)

Lemma unsubscribe_socket_state (session_id : UUID) (self : WebSocketClient) :
  websockets.closed <$> _websocket (snd (unsubscribe session_id self))
    = websockets.closed <$> _websocket self.
Proof.
  unfold unsubscribe. destruct (_websocket self) as [ws|] eqn:Hws.
  - destruct (bool_decide (session_id ∈ _subscriptions self)).
    + unfold websockets.send. destruct (websockets.closed ws) eqn:Hc; cbn.
      * rewrite Hws. reflexivity.
      * rewrite Hc. reflexivity.
    + cbn. rewrite Hws. reflexivity.
  - cbn. rewrite Hws. reflexivity.
Qed.

Lemma is_open_closed_flag (self : WebSocketClient) :
  is_open self
    = match websockets.closed <$> _websocket self with
      | Some c => negb c
      | None => false
      end.
Proof. unfold is_open. destruct (_websocket self); reflexivity. Qed.

(** C8, refuted as stated.  The client has exactly one subscription and an
    open socket; [unsubscribe] removes the subscription, writes the
    unsubscribe frame, and leaves the socket open. *)
Lemma C8_counterexample :
  _subscriptions ws_subscribed = {[ 1%N ]}
  /\ is_open ws_subscribed = true
  /\ fst (unsubscribe 1%N ws_subscribed) = Return ()
  /\ _subscriptions (snd (unsubscribe 1%N ws_subscribed)) = ∅
  /\ is_open (snd (unsubscribe 1%N ws_subscribed)) = true
  /\ _websocket (snd (unsubscribe 1%N ws_subscribed))
     = Some (websockets.make false
               [Control "subscribe" 1%N; Control "unsubscribe" 1%N]).
Proof. repeat split; vm_compute; reflexivity. Qed.

(** [unsubscribe] for a registered session: the frame is written first,
    and the session is removed only when that succeeded. *)
Lemma unsubscribe_registered (session_id : UUID) (self : WebSocketClient)
    (ws : websockets.WebSocketClientProtocol) :
  _websocket self = Some ws ->
  session_id ∈ _subscriptions self ->
  unsubscribe session_id self
    = if websockets.closed ws
      then (Raise (foreign ConnectionClosed "connection is closed"), self)
      else (Return (),
            set_subscriptions (_subscriptions self ∖ {[session_id]})
              (set_websocket
                 (Some (websockets.make false
                          (websockets.sent ws
                             ++ [Control "unsubscribe" session_id])))
                 self)).
Proof.
  intros Hws Hin. unfold unsubscribe. rewrite Hws.
  rewrite (bool_decide_eq_true_2 _ Hin). unfold websockets.send.
  destruct (websockets.closed ws); reflexivity.
Qed.

(** On an open socket, [connect], [subscribe] and [send_event] leave the
    socket open. *)
Lemma connect_keeps_open
    (handshake : string -> result websockets.WebSocketClientProtocol)
    (self : WebSocketClient) :
  is_open self = true -> is_open (snd (connect handshake self)) = true.
Proof. intros Ho. unfold connect. rewrite Ho. exact Ho. Qed.

Lemma subscribe_keeps_open
    (handshake : string -> result websockets.WebSocketClientProtocol)
    (session_id : UUID) (self : WebSocketClient) :
  is_open self = true ->
  is_open (snd (subscribe handshake session_id self)) = true.
Proof.
  intros Ho. unfold subscribe. unfold is_open in Ho.
  destruct (_websocket self) as [ws|] eqn:Hws; [|discriminate].
  destruct (bool_decide (session_id ∉ _subscriptions self)).
  - rewrite Hws. unfold websockets.send.
    destruct (websockets.closed ws) eqn:Hc; [discriminate|].
    cbn. unfold is_open. cbn. rewrite ?Hc. reflexivity.
  - cbn. unfold is_open. rewrite Hws. exact Ho.
Qed.

Lemma send_event_keeps_open
    (handshake : string -> result websockets.WebSocketClientProtocol)
    (event : ProgressEvent.t) (self : WebSocketClient) :
  is_open self = true ->
  is_open (snd (send_event handshake event self)) = true.
Proof.
  intros Ho. unfold send_event. unfold is_open in Ho.
  destruct (_websocket self) as [ws|] eqn:Hws; [|discriminate].
  rewrite Hws. unfold websockets.send.
  destruct (websockets.closed ws) eqn:Hc; [discriminate|].
  cbn. unfold is_open. cbn. rewrite ?Hc. reflexivity.
Qed.

(** C8, amended.  The connection is not counted by its subscriptions.
    [unsubscribe] on an open socket writes the unsubscribe frame and then
    removes the session id, and the socket stays open, also when the
    session removed was the last one; when the frame cannot be written the
    session stays registered; in no case does [unsubscribe] change whether
    the socket is open.  No other method of the client closes an open
    socket either: [connect], [subscribe], [send_event] and the rounds of
    [events], [session_events] and [typed_events] leave it open.  The
    client closes the socket in [disconnect] only, which leaves it closed,
    clears the running flag and empties the subscription set. *)
Theorem C8_only_disconnect_closes
    (handshake : string -> result websockets.WebSocketClientProtocol)
    (session_id : UUID) (event : ProgressEvent.t)
    (event_types : list ProgressEventType) (self : WebSocketClient) :
  (forall ws,
      _websocket self = Some ws ->
      websockets.closed ws = false ->
      session_id ∈ _subscriptions self ->
      unsubscribe session_id self
        = (Return (),
           set_subscriptions (_subscriptions self ∖ {[session_id]})
             (set_websocket
                (Some (websockets.make false
                         (websockets.sent ws
                            ++ [Control "unsubscribe" session_id])))
                self))
      /\ is_open (snd (unsubscribe session_id self)) = true
      /\ (_subscriptions self = {[session_id]} ->
          _subscriptions (snd (unsubscribe session_id self)) = ∅))
  /\ (forall ws,
        _websocket self = Some ws ->
        websockets.closed ws = true ->
        session_id ∈ _subscriptions self ->
        unsubscribe session_id self
          = (Raise (foreign ConnectionClosed "connection is closed"), self))
  /\ websockets.closed <$> _websocket (snd (unsubscribe session_id self))
     = websockets.closed <$> _websocket self
  /\ is_open (snd (unsubscribe session_id self)) = is_open self
  /\ (is_open self = true ->
      is_open (snd (connect handshake self)) = true
      /\ is_open (snd (subscribe handshake session_id self)) = true
      /\ is_open (snd (send_event handshake event self)) = true
      /\ is_open (snd (events self)) = true
      /\ is_open (snd (session_events session_id self)) = true
      /\ is_open (snd (typed_events event_types self)) = true)
  /\ is_open (disconnect self) = false
  /\ _running (disconnect self) = false
  /\ _subscriptions (disconnect self) = ∅.
Proof.
  assert (Hflag : is_open (snd (unsubscribe session_id self)) = is_open self).
  { rewrite !is_open_closed_flag, unsubscribe_socket_state. reflexivity. }
  split; [|split; [|split; [|split; [|split]]]].
  - intros ws Hws Hc Hin. split; [|split].
    + rewrite (unsubscribe_registered session_id self ws Hws Hin), Hc.
      reflexivity.
    + rewrite Hflag. unfold is_open. rewrite Hws, Hc. reflexivity.
    + intros Hone.
      rewrite (unsubscribe_registered session_id self ws Hws Hin), Hc.
      cbn. rewrite Hone. apply set_eq. intros x.
      rewrite elem_of_difference, elem_of_empty. tauto.
  - intros ws Hws Hc Hin.
    rewrite (unsubscribe_registered session_id self ws Hws Hin), Hc.
    reflexivity.
  - apply unsubscribe_socket_state.
  - exact Hflag.
  - intros Ho.
    split; [exact (connect_keeps_open handshake self Ho)|].
    split; [exact (subscribe_keeps_open handshake session_id self Ho)|].
    split; [exact (send_event_keeps_open handshake event self Ho)|].
    unfold is_open in *.
    rewrite events_socket, session_events_socket, typed_events_socket.
    repeat split; exact Ho.
  - unfold disconnect, is_open. cbn.
    destruct (_websocket self) as [ws|] eqn:Hws; cbn.
    + destruct (websockets.closed ws) eqn:Hc; cbn; rewrite ?Hws, ?Hc;
        repeat split; reflexivity.
    + rewrite Hws. repeat split; reflexivity.
Qed.

(** On the client whose only subscription is session 1: the frame is
    written, the set is empty afterwards and the socket is open; a
    [subscribe] of another session leaves it open as well. *)
Lemma C8_witness :
  unsubscribe 1%N ws_subscribed
    = (Return (),
       set_subscriptions (_subscriptions ws_subscribed ∖ {[1%N]})
         (set_websocket
            (Some (websockets.make false
                     ([Control "subscribe" 1%N]
                        ++ [Control "unsubscribe" 1%N])))
            ws_subscribed))
  /\ is_open (snd (unsubscribe 1%N ws_subscribed)) = true
  /\ _subscriptions (snd (unsubscribe 1%N ws_subscribed)) = ∅
  /\ is_open (snd (subscribe accepting 2%N ws_subscribed)) = true.
Proof.
  pose proof (C8_only_disconnect_closes accepting 1%N progress1 []
                ws_subscribed) as (Hun & _ & _ & _ & Hopen & _).
  destruct (Hun (websockets.make false [Control "subscribe" 1%N])
              eq_refl eq_refl
              (proj2 (elem_of_singleton (C := gset UUID) 1%N 1%N) eq_refl))
    as (Heq & Ho & Hlast).
  split; [exact Heq|]. split; [exact Ho|]. split; [exact (Hlast eq_refl)|].
  pose proof (C8_only_disconnect_closes accepting 2%N progress1 []
                ws_subscribed) as (_ & _ & _ & _ & Hopen2 & _).
  exact (proj1 (proj2 (Hopen2 eq_refl))).
Defined.

(** C9 (the code departs from the claim).  [disconnect] empties the
    subscription set, but the teardown by the handler does not: when the
    inbound loop meets a closed connection, or fails, it clears the running
    flag and leaves the subscription set as it was. *)
Theorem C9_connection_loss_keeps_subscriptions (self : WebSocketClient)
    (i : inbound) :
  clears_running i = true ->
  _subscriptions (disconnect self) = ∅
  /\ _running (snd (_message_handler i self)) = false
  /\ _subscriptions (snd (_message_handler i self)) = _subscriptions self.
Proof.
  intros Hi. split; [reflexivity|]. split.
  - rewrite handler_running, Hi. apply andb_false_r.
  - apply handler_subscriptions.
Qed.

(** Session 1 stays registered on the dead connection, and a later
    [subscribe 1] neither reconnects nor writes a frame. *)
Lemma C9_witness :
  let lost := snd (_message_handler Closed ws_subscribed) in
  (_subscriptions (disconnect ws_subscribed) = ∅
   /\ _running lost = false
   /\ _subscriptions lost = _subscriptions ws_subscribed)
  /\ _subscriptions ws_subscribed = {[ 1%N ]}
  /\ is_open lost = false
  /\ subscribe accepting 1%N lost = (Return (), lost).
Proof.
  split.
  - apply (C9_connection_loss_keeps_subscriptions ws_subscribed Closed eq_refl).
  - repeat split.
Defined.

(** ** The Server-Sent-Events listener *)

Section Listener.
Variable loads_event : string -> option ProgressEvent.t.

Lemma listener_loop_no_completion (evs : list ProgressEvent.t) :
  Forall (fun ev => is_completion ev = false) evs ->
  listener_loop evs None = Return None.
Proof.
  induction 1 as [|ev evs Hev _ IH]; [reflexivity|].
  cbn. rewrite Hev. exact IH.
Qed.

(** A completion event among those of the stream is returned: the first
    one. *)
Lemma listener_loop_first (pre : list ProgressEvent.t) (e : ProgressEvent.t)
    (post : list ProgressEvent.t) (ending : option exn) :
  Forall (fun ev => is_completion ev = false) pre ->
  is_completion e = true ->
  listener_loop (pre ++ e :: post) ending = Return (Some e).
Proof.
  induction 1 as [|ev evs Hev _ IH]; intros He; cbn.
  - rewrite He. reflexivity.
  - rewrite Hev. apply IH, He.
Qed.

End Listener.

(** C10.  When the streamed response opens, its lines end, and none of the
    events decoded from them is [SESSION_COMPLETED] or [SESSION_FAILED],
    [ProgressListener.wait_for_completion] returns [None] and raises
    nothing; the WebSocket [wait_for_completion], whose events end the same
    way (flag clear, queue empty), raises [AionWebSocketError]. *)
Theorem C10_listener_returns_None
    (loads_event : string -> option ProgressEvent.t) (response : sse.stream) :
  sse.status_error response = None ->
  sse.failure response = None ->
  Forall (fun ev => is_completion ev = false)
         (subscribe_sse loads_event (sse.lines response)) ->
  listener_wait_for_completion loads_event response = Return None
  /\ forall (session_id : UUID) (self : WebSocketClient) (rest : list tick),
       _running self = false -> _event_queue self = [] ->
       wait_loop session_id (Poll :: rest) self
         = (Some (Raise (AionWebSocketError_init
                           "Session completion event not received")), self).
Proof.
  intros Hs Hf Hev. split.
  - unfold listener_wait_for_completion. rewrite Hs, Hf.
    apply listener_loop_no_completion, Hev.
  - intros session_id self rest Hr Hq.
    apply (wait_loop_poll_end session_id rest self Hq Hr).
Qed.

Lemma C10_witness :
  subscribe_sse sample_loads (sse.lines sample_stream) = [progress1]
  /\ listener_wait_for_completion sample_loads sample_stream = Return None.
Proof.
  split; [reflexivity|].
  apply (C10_listener_returns_None sample_loads sample_stream eq_refl eq_refl).
  repeat constructor.
Defined.

(** * Further properties *)

(** ** The retry loop *)

Section RetryLoop.
Context {rt : PyRuntime}.
Variable self : AionClient.
Variable transport : Z -> result httpx.Response.

(** One iteration of the loop does one of three things: it returns the
    value of the attempt; on the last attempt it raises one of the three
    errors of [request], built from the exception of the attempt; before
    the last attempt it sleeps [2 ^ attempt] and goes on. *)
Lemma request_for_step (attempt : Z) (rest slept : list Z) :
  (exists v, request_for self transport (attempt :: rest) slept
             = (Return v, slept))
  \/ (exists c err,
        (response ← transport attempt; _handle_response response) = Raise c
        /\ attempt = max_retries self
        /\ request_for self transport (attempt :: rest) slept = (Raise err, slept)
        /\ cause err = Some c
        /\ (cls err = AionTimeoutError /\ isinstance c TimeoutException = true
            \/ cls err = AionConnectionError
               /\ isinstance c ConnectError = true
               /\ message err = "Connection failed: " +:+ message c
            \/ cls err = AionError
               /\ message err = "Unexpected error: " +:+ message c))
  \/ (exists c,
        (response ← transport attempt; _handle_response response) = Raise c
        /\ attempt <> max_retries self
        /\ request_for self transport (attempt :: rest) slept
           = request_for self transport rest (slept ++ [2 ^ attempt])).
Proof.
  cbn [request_for].
  destruct (response ← transport attempt; _handle_response response)
    as [v|c] eqn:Hbody.
  - left. eauto.
  - right.
    destruct (Z.eqb_spec attempt (max_retries self)) as [Hlast|Hmore].
    + left. exists c.
      destruct (isinstance c TimeoutException) eqn:Ht;
        [|destruct (isinstance c ConnectError) eqn:Hc];
        eexists; (split; [reflexivity|]); (split; [exact Hlast|]);
        (split; [reflexivity|]); (split; [reflexivity|]).
      * left. split; reflexivity.
      * right. left. repeat split.
      * right. right. repeat split.
    + right. exists c. split; [reflexivity|]. split; [exact Hmore|].
      destruct (isinstance c TimeoutException);
        [|destruct (isinstance c ConnectError)]; reflexivity.
Qed.

(** Whatever the loop raises is one of the three errors, with the
    exception of the failed attempt as its cause. *)
Lemma request_for_raises (attempts : list Z) :
  forall (slept slept' : list Z) (err : exn),
    request_for self transport attempts slept = (Raise err, slept') ->
    exists c,
      cause err = Some c
      /\ (cls err = AionTimeoutError /\ isinstance c TimeoutException = true
          \/ cls err = AionConnectionError
             /\ isinstance c ConnectError = true
             /\ message err = "Connection failed: " +:+ message c
          \/ cls err = AionError
             /\ message err = "Unexpected error: " +:+ message c).
Proof.
  induction attempts as [|attempt rest IH]; intros slept slept' err Hreq.
  - discriminate Hreq.
  - destruct (request_for_step attempt rest slept)
      as [[v Hv] | [(c & err' & _ & _ & Hr & Hc & Hk) | (c & _ & _ & Hr)]].
    + rewrite Hv in Hreq. discriminate Hreq.
    + rewrite Hr in Hreq. injection Hreq as <- _. eauto.
    + rewrite Hr in Hreq. apply (IH _ _ _ Hreq).
Qed.

End RetryLoop.

(** X1.  The errors that leave [request].  The URL is joined before the
    loop and outside its [try]: an exception of [urljoin] (the [ValueError]
    for a path it cannot split) leaves [request] as it is, unwrapped,
    before any attempt is made.  Every other error comes from the last
    attempt and is one of: an [AionTimeoutError] whose cause is a transport
    timeout, an [AionConnectionError] whose cause is a connection failure
    of the transport, or a plain [AionError] "Unexpected error: ..." around
    any other exception; no [AionAPIError] of any kind is among them. *)
Theorem request_raises_only `{rt : PyRuntime}
    (urljoin : string -> string -> result string)
    (transport : string -> Z -> result httpx.Response)
    (self : AionClient) (path : string) (err : exn) (slept : list Z) :
  request_path urljoin transport self path = (Raise err, slept) ->
  (urljoin (base_url self) (lstrip_slash path) = Raise err /\ slept = [])
  \/ (exists url,
        urljoin (base_url self) (lstrip_slash path) = Return url
        /\ request self (transport url) = (Raise err, slept)
        /\ isinstance err AionAPIError = false
        /\ exists c,
             cause err = Some c
             /\ (cls err = AionTimeoutError
                 /\ isinstance c TimeoutException = true
                 \/ cls err = AionConnectionError
                    /\ isinstance c ConnectError = true
                    /\ message err = "Connection failed: " +:+ message c
                 \/ cls err = AionError
                    /\ message err = "Unexpected error: " +:+ message c)).
Proof.
  unfold request_path.
  destruct (urljoin (base_url self) (lstrip_slash path)) as [url|e] eqn:Hu.
  - intros Hreq. right. exists url. split; [reflexivity|].
    split; [exact Hreq|]. unfold request in Hreq.
    destruct (request_for_raises self (transport url) _ _ _ _ Hreq)
      as (c & Hc & Hk).
    split; [|eauto].
    unfold isinstance.
    destruct Hk as [[-> _] | [(-> & _) | (-> & _)]]; reflexivity.
  - intros [= <- <-]. left. split; reflexivity.
Qed.

Lemma request_raises_only_witness :
  request_path (rt := typed_runtime) sample_urljoin (fun _ _ => Return r404)
    client3 "/http://["
    = (Raise (foreign OtherException "Invalid IPv6 URL"), [])
  /\ isinstance
       (from (AionError_init AionError
                "Unexpected error: Resource not found: project 7" None)
             (AionNotFoundError_init "project 7" None))
       AionAPIError = false.
Proof.
  split; [vm_compute; reflexivity|].
  destruct (request_raises_only (rt := typed_runtime) sample_urljoin
              (fun _ _ => Return r404) client3 "/health"
              (from (AionError_init AionError
                       "Unexpected error: Resource not found: project 7" None)
                    (AionNotFoundError_init "project 7" None))
              [1; 2; 4] ltac:(vm_compute; reflexivity))
    as [[Hu _] | (url & _ & _ & Hi & _)].
  - vm_compute in Hu. discriminate Hu.
  - exact Hi.
Defined.

(** X2.  [health_check] never takes its [AionNotFoundError] branch: it
    answers [True] exactly when the request for [/health] returns a value,
    and [False] whenever the request raises, a 404 included. *)
Theorem health_check_true_iff_request_returns `{rt : PyRuntime}
    (self : AionClient) (transport : Z -> result httpx.Response) :
  health_check self transport
    = (match fst (request self transport) with
       | Return _ => true
       | Raise _ => false
       end, snd (request self transport)).
Proof.
  unfold health_check.
  destruct (request self transport) as [[v|err] slept] eqn:Hreq;
    [reflexivity|].
  unfold request in Hreq.
  destruct (request_for_raises self transport _ _ _ _ Hreq) as (c & _ & Hk).
  unfold isinstance.
  destruct Hk as [[-> _] | [(-> & _) | (-> & _)]]; reflexivity.
Qed.

Lemma total_delay_app (l1 l2 : list Z) :
  total_delay (l1 ++ l2) = total_delay l1 + total_delay l2.
Proof.
  unfold total_delay. induction l1 as [|x l1 IH]; cbn; [reflexivity|].
  rewrite IH. lia.
Qed.

(** The delays before the attempts [0 .. k-1] add up to [2 ^ k - 1]. *)
Lemma total_delay_backoff (k : Z) :
  0 <= k ->
  total_delay (map (fun attempt => 2 ^ attempt) (py_range k)) = 2 ^ k - 1.
Proof.
  intros Hk. pattern k. apply natlike_ind; [reflexivity| |exact Hk].
  intros x Hx IH. unfold Z.succ.
  rewrite py_range_succ, map_app, total_delay_app, IH by exact Hx.
  cbn. rewrite Z.pow_add_r by lia. lia.
Qed.

Lemma py_range_nonpositive (n : Z) : n <= 0 -> py_range n = [].
Proof.
  intros Hn. unfold py_range.
  replace (Z.to_nat n) with 0%nat by lia. reflexivity.
Qed.

(** [range(m + 1)] split at the attempt [k]. *)
Lemma py_range_split (k m : Z) :
  0 <= k <= m ->
  py_range (m + 1)
    = py_range k
        ++ k :: map Z.of_nat (seq (S (Z.to_nat k)) (Z.to_nat (m - k))).
Proof.
  intros Hk. unfold py_range.
  replace (Z.to_nat (m + 1))
    with (Z.to_nat k + S (Z.to_nat (m - k)))%nat by lia.
  rewrite seq_app, map_app, Nat.add_0_l. cbn [seq map].
  rewrite Z2Nat.id by lia. reflexivity.
Qed.

Section Backoff.
Context {rt : PyRuntime}.
Variable self : AionClient.
Variable transport : Z -> result httpx.Response.

(** From attempt [a] to the last one: the delays slept at the end are
    those before the attempts [0 .. k-1] for some [k] from [a] to
    [max_retries]. *)
Lemma request_for_slept (n : nat) :
  forall (a : Z) (res : result value) (slept' : list Z),
    0 <= a ->
    a + Z.of_nat n = max_retries self ->
    request_for self transport (map Z.of_nat (seq (Z.to_nat a) (S n)))
      (map (fun attempt => 2 ^ attempt) (py_range a)) = (res, slept') ->
    exists k, a <= k <= max_retries self
              /\ slept' = map (fun attempt => 2 ^ attempt) (py_range k).
Proof.
  induction n as [|n IH]; intros a res slept' Ha Hmax.
  - change (seq (Z.to_nat a) 1) with [Z.to_nat a].
    cbn [map]. rewrite Z2Nat.id by lia.
    destruct (request_for_step self transport a []
                (map (fun attempt => 2 ^ attempt) (py_range a)))
      as [[v Hv] | [(c & err & _ & _ & Hr & _) | (c & _ & Hne & Hr)]].
    + rewrite Hv. intros [= _ <-]. exists a. split; [lia | reflexivity].
    + rewrite Hr. intros [= _ <-]. exists a. split; [lia | reflexivity].
    + cbn in Hmax. lia.
  - change (seq (Z.to_nat a) (S (S n)))
      with (Z.to_nat a :: seq (S (Z.to_nat a)) (S n)).
    rewrite map_cons, Z2Nat.id by lia.
    destruct (request_for_step self transport a
                (map Z.of_nat (seq (S (Z.to_nat a)) (S n)))
                (map (fun attempt => 2 ^ attempt) (py_range a)))
      as [[v Hv] | [(c & err & _ & _ & Hr & _) | (c & _ & Hne & Hr)]].
    + rewrite Hv. intros [= _ <-]. exists a. split; [lia | reflexivity].
    + rewrite Hr. intros [= _ <-]. exists a. split; [lia | reflexivity].
    + rewrite Hr.
      replace (S (Z.to_nat a)) with (Z.to_nat (a + 1)) by lia.
      change [2 ^ a] with (map (fun attempt => 2 ^ attempt) [a]).
      rewrite <- map_app, <- py_range_succ by exact Ha.
      intros Hreq.
      destruct (IH (a + 1) res slept') as (k & Hk & Hs);
        [lia | lia | exact Hreq |].
      exists k. split; [lia | exact Hs].
Qed.

(** Attempts that raise before the last one are each followed by their
    delay. *)
Lemma request_for_skips (n : nat) :
  forall (a : Z) (rest slept : list Z),
    0 <= a ->
    a + Z.of_nat n <= max_retries self ->
    (forall i, a <= i < a + Z.of_nat n ->
       exists e, (response ← transport i; _handle_response response)
                 = Raise e) ->
    request_for self transport
      (map Z.of_nat (seq (Z.to_nat a) n) ++ rest) slept
      = request_for self transport rest
          (slept ++ map (fun attempt => 2 ^ attempt)
                        (map Z.of_nat (seq (Z.to_nat a) n))).
Proof.
  induction n as [|n IH]; intros a rest slept Ha Hmax Hraise.
  - cbn. rewrite app_nil_r. reflexivity.
  - change (seq (Z.to_nat a) (S n))
      with (Z.to_nat a :: seq (S (Z.to_nat a)) n).
    rewrite !map_cons, Z2Nat.id by lia. cbn [app].
    destruct (Hraise a ltac:(lia)) as [e He].
    assert (Hnext :
              request_for self transport
                (map Z.of_nat (seq (S (Z.to_nat a)) n) ++ rest)
                (slept ++ [2 ^ a])
              = request_for self transport rest
                  (slept ++ 2 ^ a
                     :: map (fun attempt => 2 ^ attempt)
                          (map Z.of_nat (seq (S (Z.to_nat a)) n)))).
    { replace (S (Z.to_nat a)) with (Z.to_nat (a + 1)) by lia.
      rewrite (IH (a + 1)) by (try lia; intros i Hi; apply Hraise; lia).
      rewrite <- app_assoc. reflexivity. }
    cbn [request_for]. rewrite He.
    destruct (Z.eqb_spec a (max_retries self)) as [Heq|_]; [lia|].
    destruct (isinstance e TimeoutException);
      [|destruct (isinstance e ConnectError)]; exact Hnext.
Qed.

End Backoff.

(** X3.  Whatever the transport does, [request] sleeps only the delays
    [2^0, 2^1, ..., 2^(k-1)] for some [k] that is at most [max_retries]
    (none at all when [max_retries] is negative): it never sleeps after its
    last attempt, and the time it spends sleeping is [2^k - 1] seconds, at
    most [2^max_retries - 1]. *)
Theorem request_backoff_bounded `{rt : PyRuntime} (self : AionClient)
    (transport : Z -> result httpx.Response) :
  exists k,
    0 <= k <= Z.max 0 (max_retries self)
    /\ snd (request self transport)
       = map (fun attempt => 2 ^ attempt) (py_range k)
    /\ total_delay (snd (request self transport)) = 2 ^ k - 1
    /\ total_delay (snd (request self transport))
       <= 2 ^ Z.max 0 (max_retries self) - 1.
Proof.
  assert (Hk : exists k, 0 <= k <= Z.max 0 (max_retries self)
                         /\ snd (request self transport)
                            = map (fun attempt => 2 ^ attempt) (py_range k)).
  { destruct (Z_lt_le_dec (max_retries self) 0) as [Hneg|Hpos].
    - exists 0. split; [lia|]. unfold request.
      rewrite py_range_nonpositive by lia. reflexivity.
    - destruct (request self transport) as [res slept] eqn:Hreq.
      unfold request, py_range in Hreq.
      replace (Z.to_nat (max_retries self + 1))
        with (S (Z.to_nat (max_retries self))) in Hreq by lia.
      destruct (request_for_slept self transport (Z.to_nat (max_retries self))
                  0 res slept) as (k & Hk & Hs); [lia | lia | exact Hreq |].
      exists k. split; [lia | exact Hs]. }
  destruct Hk as (k & Hk & Hs). exists k.
  split; [exact Hk|]. split; [exact Hs|].
  rewrite Hs, total_delay_backoff by lia.
  split; [reflexivity|].
  assert (2 ^ k <= 2 ^ Z.max 0 (max_retries self))
    by (apply Z.pow_le_mono_r; lia).
  lia.
Qed.

(** X4.  With a negative [max_retries] the loop has no iteration:
    [request] makes no attempt, sleeps nothing and returns [None]. *)
Theorem request_negative_retries_returns_None `{rt : PyRuntime}
    (self : AionClient) (transport : Z -> result httpx.Response) :
  max_retries self < 0 ->
  request self transport = (Return VNone, []).
Proof.
  intros Hneg. unfold request. rewrite py_range_nonpositive by lia.
  reflexivity.
Qed.

Lemma request_negative_retries_witness :
  request (rt := typed_runtime) client_negative (fun _ => Return r200_raw)
  = (Return VNone, []).
Proof.
  apply (request_negative_retries_returns_None (rt := typed_runtime)).
  cbn. lia.
Defined.

(** X5.  The first attempt that is handled without an exception decides
    the result: when the attempts before attempt [k] all raise (a transport
    failure or an error response, alike) and attempt [k] gives a response
    whose handling returns [v], [request] returns [v] after the delays
    [2^0, ..., 2^(k-1)], and attempts after [k] are never made. *)
Theorem request_first_success_wins `{rt : PyRuntime} (self : AionClient)
    (transport : Z -> result httpx.Response)
    (k : Z) (r : httpx.Response) (v : value) :
  0 <= k <= max_retries self ->
  (forall i, 0 <= i < k ->
     exists e, (response ← transport i; _handle_response response) = Raise e) ->
  transport k = Return r ->
  _handle_response r = Return v ->
  request self transport
    = (Return v, map (fun attempt => 2 ^ attempt) (py_range k)).
Proof.
  intros Hk Hraise Hr Hv. unfold request.
  rewrite (py_range_split k (max_retries self)) by exact Hk.
  unfold py_range at 1. change (seq 0) with (seq (Z.to_nat 0)).
  rewrite (request_for_skips self transport (Z.to_nat k) 0) by
    (try lia; intros i Hi; apply Hraise; lia).
  apply (request_for_return self transport k _ _ r v Hr Hv).
Qed.

Lemma request_first_success_witness :
  request (rt := typed_runtime) client3 (responses_then 2 r404 r200_raw)
  = (Return x1, [1; 2]).
Proof.
  apply (request_first_success_wins (rt := typed_runtime) client3 _ 2
           r200_raw x1).
  - cbn. lia.
  - intros i Hi. exists (AionNotFoundError_init "project 7" None).
    unfold responses_then. destruct (Z.ltb_spec i 2); [reflexivity | lia].
  - reflexivity.
  - reflexivity.
Defined.

(** X6.  When every attempt fails in the transport, by a timeout or a
    connection failure in any mix, [request] makes all [max_retries + 1]
    attempts, sleeps [2^0, ..., 2^(max_retries-1)], and the error it raises
    is decided by the last attempt alone: [AionTimeoutError] for a timeout,
    [AionConnectionError] for a connection failure, with that exception as
    its cause. *)
Theorem request_transport_failures_exhaust `{rt : PyRuntime}
    (self : AionClient) (transport : Z -> result httpx.Response) :
  0 <= max_retries self ->
  (forall i, 0 <= i <= max_retries self ->
     exists e, transport i = Raise e
               /\ (isinstance e TimeoutException = true
                   \/ isinstance e ConnectError = true)) ->
  exists e err,
    transport (max_retries self) = Raise e
    /\ request self transport
       = (Raise err,
          map (fun attempt => 2 ^ attempt) (py_range (max_retries self)))
    /\ cause err = Some e
    /\ cls err = (if isinstance e TimeoutException
                  then AionTimeoutError else AionConnectionError)
    /\ is_retryable err = Some true.
Proof.
  intros Hmax Hfail.
  destruct (Hfail (max_retries self) ltac:(lia)) as (e & He & Hkind).
  assert (Hreq : request self transport
                 = request_for self transport [max_retries self]
                     (map (fun attempt => 2 ^ attempt)
                          (py_range (max_retries self)))).
  { unfold request. rewrite py_range_succ by exact Hmax.
    unfold py_range at 1. change (seq 0) with (seq (Z.to_nat 0)).
    rewrite (request_for_skips self transport
               (Z.to_nat (max_retries self)) 0); [reflexivity | lia | lia |].
    intros i Hi. destruct (Hfail i ltac:(lia)) as (ei & Hei & _).
    exists ei. rewrite Hei. reflexivity. }
  exists e. rewrite Hreq. cbn [request_for]. rewrite He. cbn.
  rewrite Z.eqb_refl.
  destruct (isinstance e TimeoutException) eqn:Ht.
  - eexists. repeat split.
  - destruct Hkind as [Hk|Hk]; [discriminate Hk|]. rewrite Hk.
    eexists. repeat split.
Qed.

Lemma request_transport_failures_witness :
  exists e err,
    timeouts_then_refused 3 3 = Raise e
    /\ request (rt := typed_runtime) client3 (timeouts_then_refused 3)
       = (Raise err, map (fun attempt => 2 ^ attempt) (py_range 3))
    /\ cause err = Some e
    /\ cls err = (if isinstance e TimeoutException
                  then AionTimeoutError else AionConnectionError)
    /\ is_retryable err = Some true.
Proof.
  apply (request_transport_failures_exhaust (rt := typed_runtime) client3).
  - cbn. lia.
  - intros i Hi. unfold timeouts_then_refused. destruct (Z.ltb_spec i 3).
    + eexists. split; [reflexivity|]. left. reflexivity.
    + eexists. split; [reflexivity|]. right. reflexivity.
Defined.

(** ** Handling of one response *)

(** X7.  A response outside 2xx never yields a value: [_handle_response]
    raises for every one of them.  A 2xx response makes it raise in one
    case only, an envelope with a "data" key that validates with [success]
    false; the error is then an [AionAPIError] that carries the status of
    the response and the decoded body. *)
Theorem handle_response_outcomes `{rt : PyRuntime} (r : httpx.Response) :
  (httpx.is_success r = false -> exists e, _handle_response r = Raise e)
  /\ (httpx.is_success r = true ->
      forall e, _handle_response r = Raise e ->
        cls e = AionAPIError
        /\ status_code e = Some (httpx.status_code r)
        /\ exists d a,
             httpx.json r = Some (VDict d)
             /\ is_Some (d !! "data")
             /\ ApiResponse_model_validate d = Some a
             /\ ApiResponse.success a = false
             /\ response_data e = Some (VDict d)).
Proof.
  split.
  - intros Hok. unfold _handle_response. rewrite Hok.
    destruct (error_fields r) as [[ed msg] dets].
    repeat match goal with
           | |- context [if ?b then _ else _] => destruct b
           end; eauto.
    destruct ed; eauto.
  - intros Hok e. unfold _handle_response, response_json. rewrite Hok.
    destruct (httpx.json r) as [[| | | | |d]|] eqn:Hj; cbn; try discriminate.
    destruct (bool_decide (is_Some (d !! "data"))) eqn:Hd; [|discriminate].
    apply bool_decide_eq_true in Hd.
    unfold validate_ApiResponse.
    destruct (ApiResponse_model_validate d) as [a|] eqn:Ha; cbn;
      [|discriminate].
    destruct (ApiResponse.success a) eqn:Hs; cbn; [discriminate|].
    intros [= <-]. cbn. split; [reflexivity|]. split; [reflexivity|].
    exists d, a. repeat split; try assumption.
    destruct (decide (size d = 0)%nat) as [Hz|Hnz].
    + apply map_size_empty_inv in Hz. subst d.
      destruct Hd as [x Hx]. rewrite lookup_empty in Hx. discriminate Hx.
    + apply Nat.eqb_neq in Hnz. rewrite Hnz. reflexivity.
Qed.

Lemma handle_response_outcomes_witness :
  (exists e, _handle_response (rt := typed_runtime) r503_plain = Raise e)
  /\ exists e, _handle_response (rt := typed_runtime) r200_failed = Raise e
               /\ cls e = AionAPIError /\ status_code e = Some 200.
Proof.
  destruct (handle_response_outcomes (rt := typed_runtime) r503_plain)
    as [Herr _].
  destruct (handle_response_outcomes (rt := typed_runtime) r200_failed)
    as [_ Hok].
  split; [apply Herr; reflexivity|].
  eexists. split; [reflexivity|].
  destruct (Hok eq_refl _ eq_refl) as (Hc & Hs & _).
  split; [exact Hc | exact Hs].
Defined.

(** X8.  A 429 response is always raised as [AionRateLimitError], and the
    [retry-after] header only decides its hint: the integer the header
    parses to, and no hint when the header is missing or does not parse.
    A header that is no number is never an error of its own. *)
Theorem rate_limit_hint `{rt : PyRuntime} (r : httpx.Response) :
  httpx.status_code r = 429 ->
  exists e,
    _handle_response r = Raise e
    /\ cls e = AionRateLimitError
    /\ retry_after e = (httpx.headers r !! "retry-after" ≫= py_int)
    /\ is_retryable e = Some true.
Proof.
  intros Hs. unfold _handle_response, httpx.is_success. rewrite Hs. cbn.
  destruct (error_fields r) as [[ed msg] dets].
  eexists. split; [reflexivity|]. split; [reflexivity|].
  split; [|reflexivity].
  cbn. destruct (httpx.headers r !! "retry-after"); reflexivity.
Qed.

Lemma rate_limit_hint_witness :
  (exists e, _handle_response (rt := typed_runtime) r429_hint = Raise e
             /\ cls e = AionRateLimitError
             /\ retry_after e = Some 120)
  /\ (exists e, _handle_response (rt := typed_runtime) r429_date = Raise e
                /\ cls e = AionRateLimitError
                /\ retry_after e = None).
Proof.
  split.
  - destruct (rate_limit_hint (rt := typed_runtime) r429_hint eq_refl)
      as (e & He & Hc & Hr & _).
    exists e. split; [exact He|]. split; [exact Hc|].
    rewrite Hr. reflexivity.
  - destruct (rate_limit_hint (rt := typed_runtime) r429_date eq_refl)
      as (e & He & Hc & Hr & _).
    exists e. split; [exact He|]. split; [exact Hc|].
    rewrite Hr. reflexivity.
Defined.

(** X9.  The text of a classified error comes from the body of the
    response.  For the statuses 401, 403 and 429 the message is: the
    [message] field when the body is a JSON object that validates as an
    error envelope; [str] of the body when it is JSON but no object; and
    otherwise the raw text, or "HTTP <status>" when the text is empty.
    A 404 has the same text behind "Resource not found: ".  The [details]
    of the envelope are carried over. *)
Theorem error_message_source `{rt : PyRuntime} (r : httpx.Response) :
  httpx.status_code r = 401 \/ httpx.status_code r = 403
  \/ httpx.status_code r = 404 \/ httpx.status_code r = 429 ->
  exists e msg,
    _handle_response r = Raise e
    /\ message e
       = (if httpx.status_code r =? 404
          then "Resource not found: " +:+ msg else msg)
    /\ (forall d a, httpx.json r = Some (VDict d) ->
          ApiError_model_validate d = Some a ->
          msg = ApiError.message a
          /\ details e = default ∅ (ApiError.details a))
    /\ (forall v, httpx.json r = Some v -> (forall d, v <> VDict d) ->
          msg = py_str v)
    /\ (httpx.json r = None
        \/ (exists d, httpx.json r = Some (VDict d)
                      /\ ApiError_model_validate d = None) ->
        msg = str_or (httpx.text r)
                ("HTTP " +:+ str_of_int (httpx.status_code r))).
Proof.
  intros Hs.
  assert (Hfields :
            exists ed msg dets,
              error_fields r = (ed, msg, dets)
              /\ (forall d a, httpx.json r = Some (VDict d) ->
                    ApiError_model_validate d = Some a ->
                    msg = ApiError.message a /\ dets = ApiError.details a)
              /\ (forall v, httpx.json r = Some v ->
                    (forall d, v <> VDict d) -> msg = py_str v)
              /\ (httpx.json r = None
                  \/ (exists d, httpx.json r = Some (VDict d)
                                /\ ApiError_model_validate d = None) ->
                  msg = str_or (httpx.text r)
                          ("HTTP " +:+ str_of_int (httpx.status_code r)))).
  { unfold error_fields.
    destruct (httpx.json r) as [v|] eqn:Hj.
    - destruct v as [| b | n | s | l | d];
        try (do 3 eexists; split; [reflexivity|];
             split; [intros ? ? [=] | split; [intros ? [= <-] _; reflexivity|]];
             intros [[=] | (d' & [=] & _)]).
      destruct (ApiError_model_validate d) as [a|] eqn:Ha.
      + do 3 eexists. split; [reflexivity|]. split; [|split].
        * intros d' a' [= <-] Ha'. rewrite Ha in Ha'.
          injection Ha' as <-. split; reflexivity.
        * intros v [= <-] Hv. exfalso. eapply Hv. reflexivity.
        * intros [[=] | (d' & [= <-] & Hn)]. rewrite Ha in Hn. discriminate Hn.
      + do 3 eexists. split; [reflexivity|]. split; [|split].
        * intros d' a' [= <-] Ha'. rewrite Ha in Ha'. discriminate Ha'.
        * intros v [= <-] Hv. exfalso. eapply Hv. reflexivity.
        * intros _. reflexivity.
    - do 3 eexists. split; [reflexivity|]. split; [|split].
      + intros d a [=].
      + intros v [=].
      + intros _. reflexivity. }
  destruct Hfields as (ed & msg & dets & Hf & Hd & Hv & Hn).
  assert (Hraise :
            exists e,
              _handle_response r = Raise e
              /\ message e
                 = (if httpx.status_code r =? 404
                    then "Resource not found: " +:+ msg else msg)
              /\ details e = default ∅ dets).
  { unfold _handle_response, httpx.is_success. rewrite Hf.
    destruct Hs as [Hs | [Hs | [Hs | Hs]]]; rewrite Hs; cbn;
      eexists; repeat split. }
  destruct Hraise as (e & He & Hm & Hdet).
  exists e, msg. split; [exact He|]. split; [exact Hm|].
  split; [|split; [exact Hv | exact Hn]].
  intros d a Hj Ha. destruct (Hd d a Hj Ha) as [-> <-].
  split; [reflexivity | exact Hdet].
Qed.

Lemma error_message_source_witness :
  (exists e, _handle_response (rt := typed_runtime) r404 = Raise e
             /\ message e = "Resource not found: project 7")
  /\ (exists e, _handle_response (rt := typed_runtime) r401_empty = Raise e
                /\ message e = "HTTP 401").
Proof.
  split.
  - destruct (error_message_source (rt := typed_runtime) r404)
      as (e & msg & He & Hm & Hd & _).
    { right. right. left. reflexivity. }
    exists e. split; [exact He|].
    destruct (Hd _ (ApiError.make "not_found" "project 7" None None) eq_refl
                eq_refl) as [-> _].
    exact Hm.
  - destruct (error_message_source (rt := typed_runtime) r401_empty)
      as (e & msg & He & Hm & _ & _ & Hn).
    { left. reflexivity. }
    exists e. split; [exact He|].
    rewrite (Hn (or_introl eq_refl)) in Hm. exact Hm.
Defined.

(** ** Consumers of the event queue *)

Lemma inflow_env (i : inbound) (rest : list tick) :
  inflow (Env i :: rest) = inflow [Env i] ++ inflow rest.
Proof. change (Env i :: rest) with ([Env i] ++ rest). apply inflow_app. Qed.

Lemma settle_queue (sched : list tick) :
  forall self : WebSocketClient,
    _event_queue (settle sched self) = _event_queue self ++ inflow sched.
Proof.
  induction sched as [|[i|] rest IH]; intros self.
  - cbn. rewrite app_nil_r. reflexivity.
  - cbn [settle]. rewrite IH, handler_queue, (inflow_env i rest), <- app_assoc.
    reflexivity.
  - cbn [settle inflow]. apply IH.
Qed.

Lemma consume_ext
    (gen1 gen2 : WebSocketClient -> step ProgressEvent.t * WebSocketClient) :
  (forall self, gen1 self = gen2 self) ->
  forall sched self, consume gen1 sched self = consume gen2 sched self.
Proof.
  intros Hext. induction sched as [|[i|] rest IH]; intros self.
  - reflexivity.
  - cbn [consume]. apply IH.
  - cbn [consume]. rewrite Hext.
    destruct (gen2 self) as [[ev| |] self']; rewrite ?IH; reflexivity.
Qed.

(** Along any schedule, a filtering consumer takes the events off the
    queue in the order of their arrival: what it took and what is still
    queued make up what was queued and what arrived; it is handed the
    taken events that pass the test, in the same order. *)
Lemma consume_filtered (keep : ProgressEvent.t -> bool) (sched : list tick) :
  forall self : WebSocketClient,
    exists taken,
      taken ++ _event_queue (final (consume (filtered_events keep) sched self))
        = _event_queue self ++ inflow sched
      /\ handed (consume (filtered_events keep) sched self)
         = List.filter keep taken.
Proof.
  unfold handed, final.
  induction sched as [|[i|] rest IH]; intros self.
  - exists []. cbn. rewrite app_nil_r. split; reflexivity.
  - destruct (IH (snd (_message_handler i self))) as (taken & Hq & Hh).
    exists taken. cbn [consume]. split; [|exact Hh].
    rewrite Hq, handler_queue, (inflow_env i rest), <- app_assoc. reflexivity.
  - cbn [consume inflow].
    destruct (_event_queue self) as [|ev q] eqn:Hself.
    + destruct (_running self) eqn:Hrun.
      * replace (filtered_events keep self) with (@Skip ProgressEvent.t, self)
          by (unfold filtered_events;
              rewrite (events_idle self Hself Hrun); reflexivity).
        destruct (IH self) as (taken & Hq & Hh). exists taken.
        rewrite Hself in Hq. split; assumption.
      * replace (filtered_events keep self) with (@Stop ProgressEvent.t, self)
          by (unfold filtered_events;
              rewrite (events_end self Hself Hrun); reflexivity).
        exists []. cbn. rewrite settle_queue, Hself. split; reflexivity.
    + destruct (IH (set_event_queue q self)) as (taken & Hq & Hh).
      exists (ev :: taken). cbn in Hq.
      replace (filtered_events keep self)
        with (if keep ev then (Yield ev, set_event_queue q self)
              else (Skip, set_event_queue q self))
        by (unfold filtered_events;
            rewrite (events_cons self ev q Hself); reflexivity).
      destruct (keep ev) eqn:Hkeep.
      * destruct (consume (filtered_events keep) rest (set_event_queue q self))
          as [[out fin] cl]. cbn in *. rewrite Hkeep.
        split; [f_equal; exact Hq | f_equal; exact Hh].
      * cbn. rewrite Hkeep. split; [f_equal; exact Hq | exact Hh].
Qed.

(** X10.  [events] delivers in arrival order, without loss and without
    duplicates: along any interleaving of the handler with one consumer,
    the events handed to the consumer followed by the events still queued
    are exactly the events queued at the start followed by those that
    arrived. *)
Theorem events_fifo_conservation (sched : list tick) (self : WebSocketClient) :
  handed (consume events sched self)
    ++ _event_queue (final (consume events sched self))
  = _event_queue self ++ inflow sched.
Proof.
  assert (Hext : forall s, events s = filtered_events (fun _ => true) s).
  { intros s. unfold filtered_events.
    destruct (events s) as [[ev| |] s']; reflexivity. }
  rewrite (consume_ext _ _ Hext).
  destruct (consume_filtered (fun _ => true) sched self) as (taken & Hq & Hh).
  rewrite Hh, <- Hq. f_equal.
  clear. induction taken as [|ev taken IH]; cbn; [reflexivity|].
  rewrite IH. reflexivity.
Qed.

(** X11.  [session_events session_id] hands over exactly the events of
    its session among those it takes off the queue, in arrival order; the
    events of other sessions that it takes are gone from the queue and
    handed to nobody. *)
Theorem session_events_filters (session_id : UUID) (sched : list tick)
    (self : WebSocketClient) :
  exists taken,
    taken
      ++ _event_queue (final (consume (session_events session_id) sched self))
      = _event_queue self ++ inflow sched
    /\ handed (consume (session_events session_id) sched self)
       = List.filter
           (fun ev => bool_decide (ProgressEvent.session_id ev = session_id))
           taken.
Proof.
  apply (consume_filtered
           (fun ev => bool_decide (ProgressEvent.session_id ev = session_id))).
Qed.


(** ** The handler task *)

(** X13.  The handler task never stops at a frame: binary frames and text
    frames that do not decode are passed over, and the events of all valid
    frames before the first close, failure or end of the iteration are
    queued behind the queue, in order.  The task never changes the
    subscription set and never sets the running flag; it ends with an
    exception only for a failure that is no closed connection, and then
    with an [AionWebSocketError], after clearing the flag. *)
Theorem handler_task_effect (inputs : list inbound) (self : WebSocketClient) :
  _event_queue (snd (handler_task inputs self))
    = _event_queue self ++ read_events inputs
  /\ _subscriptions (snd (handler_task inputs self)) = _subscriptions self
  /\ (_running (snd (handler_task inputs self)) = true -> _running self = true)
  /\ (forall e, fst (handler_task inputs self) = Some e ->
        cls e = AionWebSocketError
        /\ _running (snd (handler_task inputs self)) = false).
Proof.
  revert self. induction inputs as [|i rest IH]; intros self.
  - cbn. rewrite app_nil_r. repeat split; try tauto; discriminate.
  - destruct i as [m| |e0|].
    + cbn [handler_task].
      destruct (IH (snd (_message_handler (Message m) self)))
        as (Hq & Hs & Hr & He).
      rewrite Hq, Hs, handler_queue, handler_subscriptions.
      split; [|split; [reflexivity|split]].
      * rewrite <- app_assoc. f_equal. destruct m as [|[ev|]]; reflexivity.
      * intros H. apply Hr in H. rewrite handler_running in H.
        apply andb_true_iff in H. tauto.
      * exact He.
    + cbn. rewrite app_nil_r. unfold mark_closed.
      destruct (_websocket self); cbn; repeat split; discriminate.
    + cbn. rewrite app_nil_r. repeat split; try discriminate;
        match goal with
        | H : Some _ = Some _ |- _ => injection H as <-; reflexivity
        end.
    + cbn. rewrite app_nil_r. unfold mark_closed.
      destruct (_websocket self); cbn; repeat split; try tauto; discriminate.
Qed.

Lemma handler_task_effect_witness :
  cls (from (AionWebSocketError_init
               ("Message handler error: " +:+ "protocol error"))
            (foreign OtherException "protocol error"))
    = AionWebSocketError
  /\ _running
       (snd (handler_task
               [Message (Text (Some progress1)); Message Bytes;
                Failure (foreign OtherException "protocol error");
                Message (Text (Some completed1))]
               ws_subscribed)) = false.
Proof.
  exact (proj2 (proj2 (proj2
           (handler_task_effect
              [Message (Text (Some progress1)); Message Bytes;
               Failure (foreign OtherException "protocol error");
               Message (Text (Some completed1))]
              ws_subscribed))) _ eq_refl).
Defined.

(** ** Connecting, subscribing and leaving *)

Section Operations.
Variable handshake : string -> result websockets.WebSocketClientProtocol.

Lemma connect_cases (self : WebSocketClient) :
  (is_open self = true /\ connect handshake self = (Return (), self))
  \/ (is_open self = false
      /\ exists e, connect handshake self = (Raise e, self)
                   /\ (urlparse_error self = Some e
                       \/ urlparse_error self = None
                          /\ cls e = AionWebSocketError))
  \/ (is_open self = false
      /\ exists url ws,
           _build_ws_url self = Return url
           /\ handshake url = Return ws
           /\ connect handshake self
              = (Return (), set_running true (set_websocket (Some ws) self))).
Proof.
  unfold connect. destruct (is_open self) eqn:Ho; [left; split; reflexivity|].
  right. unfold _build_ws_url.
  destruct (urlparse_error self) as [e|] eqn:Hp.
  { left. split; [reflexivity|]. exists e. split; [reflexivity | now left]. }
  destruct (String.eqb (scheme self) "http");
    [|destruct (String.eqb (scheme self) "https")].
  - destruct (handshake _) as [ws|e] eqn:Hh.
    + right. split; [reflexivity|]. eauto.
    + left. split; [reflexivity|]. eexists.
      split; [reflexivity | right; split; reflexivity].
  - destruct (handshake _) as [ws|e] eqn:Hh.
    + right. split; [reflexivity|]. eauto.
    + left. split; [reflexivity|]. eexists.
      split; [reflexivity | right; split; reflexivity].
  - left. split; [reflexivity|]. eexists.
    split; [reflexivity | right; split; reflexivity].
Qed.

End Operations.

(** X14.  [connect] on a client whose socket is open does nothing: the
    live socket is never replaced.  Otherwise it either installs the socket
    of the handshake and sets the running flag, keeping the subscription
    set and the queue as they were, or raises and leaves the client
    exactly as it was.  What it raises is an [AionWebSocketError] (for a
    scheme other than http and https, or a failed handshake), with one
    exception: a [base_url] that [urlparse] rejects is parsed before the
    [try], so the [ValueError] of [urlparse] leaves [connect] as it is,
    unwrapped, and no handshake is attempted. *)
Theorem connect_outcomes
    (handshake : string -> result websockets.WebSocketClientProtocol)
    (self : WebSocketClient) :
  (is_open self = true -> connect handshake self = (Return (), self))
  /\ (forall e self', connect handshake self = (Raise e, self') ->
        self' = self
        /\ is_open self = false
        /\ (urlparse_error self = Some e
            \/ urlparse_error self = None /\ cls e = AionWebSocketError))
  /\ (forall e, is_open self = false -> urlparse_error self = Some e ->
        connect handshake self = (Raise e, self))
  /\ (forall self', is_open self = false ->
        connect handshake self = (Return (), self') ->
        urlparse_error self = None
        /\ _running self' = true
        /\ _subscriptions self' = _subscriptions self
        /\ _event_queue self' = _event_queue self
        /\ exists url ws, handshake url = Return ws
                          /\ _websocket self' = Some ws)
  /\ (urlparse_error self = None ->
      String.eqb (scheme self) "http" = false ->
      String.eqb (scheme self) "https" = false ->
      is_open self = false ->
      connect handshake self
        = (Raise (AionWebSocketError_init
                    ("Unsupported scheme: " +:+ scheme self)), self)).
Proof.
  assert (Hmal : forall e, is_open self = false ->
                   urlparse_error self = Some e ->
                   connect handshake self = (Raise e, self)).
  { intros e Ho Hp. unfold connect, _build_ws_url. rewrite Ho, Hp.
    reflexivity. }
  assert (Hsch : urlparse_error self = None ->
                 String.eqb (scheme self) "http" = false ->
                 String.eqb (scheme self) "https" = false ->
                 is_open self = false ->
                 connect handshake self
                 = (Raise (AionWebSocketError_init
                             ("Unsupported scheme: " +:+ scheme self)), self)).
  { intros Hp H1 H2 Ho. unfold connect, _build_ws_url.
    rewrite Ho, Hp, H1, H2. reflexivity. }
  split; [|split; [|split; [exact Hmal | split; [|exact Hsch]]]].
  - destruct (connect_cases handshake self)
      as [[Ho Hc] | [[Ho _] | [Ho _]]]; [intros _; exact Hc | congruence..].
  - intros e self' H.
    destruct (connect_cases handshake self)
      as [[Ho Hc] | [[Ho (e0 & Hc & He)] | [Ho (url & ws & Hu & Hh & Hc)]]];
      rewrite Hc in H; [discriminate H | | discriminate H].
    injection H as <- <-. split; [reflexivity|]. split; [exact Ho | exact He].
  - intros self' Ho' H.
    destruct (connect_cases handshake self)
      as [[Ho Hc] | [[Ho (e0 & Hc & He)] | [Ho (url & ws & Hu & Hh & Hc)]]];
      rewrite Hc in H; [congruence | discriminate H |].
    injection H as <-. cbn. split.
    + unfold _build_ws_url in Hu.
      destruct (urlparse_error self); [discriminate Hu | reflexivity].
    + repeat split. eauto.
Qed.

Lemma connect_outcomes_witness :
  connect accepting ws_subscribed = (Return (), ws_subscribed)
  /\ connect accepting ws_malformed
     = (Raise (foreign OtherException "Invalid IPv6 URL"), ws_malformed)
  /\ connect accepting ws_ftp
     = (Raise (AionWebSocketError_init "Unsupported scheme: ftp"), ws_ftp).
Proof.
  split; [|split].
  - apply (proj1 (connect_outcomes accepting ws_subscribed)). reflexivity.
  - apply (proj1 (proj2 (proj2 (connect_outcomes accepting ws_malformed))));
      reflexivity.
  - apply (proj2 (proj2 (proj2 (proj2 (connect_outcomes accepting ws_ftp)))));
      reflexivity.
Defined.

(** X15.  [subscribe] registers its session exactly when it returns: after
    a call that returned, the subscription set is the old one with the
    session added; after a call that raised (no connection could be made,
    or the frame could not be written), the set is the old one.  Other
    sessions are never touched, and neither is the event queue. *)
Theorem subscribe_registers_on_return
    (handshake : string -> result websockets.WebSocketClientProtocol)
    (session_id : UUID) (self : WebSocketClient) :
  _subscriptions (snd (subscribe handshake session_id self))
    = match fst (subscribe handshake session_id self) with
      | Return _ => {[session_id]} ∪ _subscriptions self
      | Raise _ => _subscriptions self
      end
  /\ _event_queue (snd (subscribe handshake session_id self))
     = _event_queue self.
Proof.
  unfold subscribe.
  assert (Hpre : exists res self1,
            match _websocket self with
            | Some _ => (Return (), self)
            | None => connect handshake self
            end = (res, self1)
            /\ _subscriptions self1 = _subscriptions self
            /\ _event_queue self1 = _event_queue self).
  { destruct (_websocket self) as [ws|] eqn:Hws; [eauto|].
    destruct (connect_cases handshake self)
      as [[_ Hc] | [[_ (e0 & Hc & _)] | [_ (url & ws & _ & _ & Hc)]]];
      rewrite Hc; eauto. }
  destruct Hpre as (res & self1 & -> & Hs & Hq).
  destruct res as [[]|e]; [|cbn; split; assumption].
  destruct (bool_decide (session_id ∉ _subscriptions self1)) eqn:Hin.
  - destruct (_websocket self1) as [ws|]; [|cbn; split; assumption].
    destruct (websockets.send ws _) as [ws'|e]; cbn; rewrite ?Hs;
      split; try reflexivity; assumption.
  - cbn. apply bool_decide_eq_false in Hin.
    split; [|exact Hq].
    rewrite <- Hs.
    destruct (decide (session_id ∈ _subscriptions self1)) as [Hmem|];
      [|contradiction].
    apply set_eq. intros x. rewrite elem_of_union, elem_of_singleton.
    split; [auto | intros [->|]; auto].
Qed.

(** X16.  [subscribe] never reconnects.  On a client that has a socket
    which is closed, subscribing a session that is not registered raises
    the [ConnectionClosed] of the websockets library (no SDK error) and
    leaves the client as it was, whatever a handshake would give; this is
    the state [disconnect] leaves behind, so after [disconnect] every
    [subscribe] fails in this way. *)
Theorem subscribe_never_reconnects
    (handshake : string -> result websockets.WebSocketClientProtocol)
    (session_id : UUID) (self : WebSocketClient)
    (ws : websockets.WebSocketClientProtocol) :
  (_websocket self = Some ws ->
   websockets.closed ws = true ->
   session_id ∉ _subscriptions self ->
   subscribe handshake session_id self
     = (Raise (foreign ConnectionClosed "connection is closed"), self)
   /\ isinstance (foreign ConnectionClosed "connection is closed") AionError
      = false)
  /\ (_websocket self = Some ws ->
      subscribe handshake session_id (disconnect self)
        = (Raise (foreign ConnectionClosed "connection is closed"),
           disconnect self)).
Proof.
  assert (Hclosed : forall c w,
            _websocket c = Some w -> websockets.closed w = true ->
            session_id ∉ _subscriptions c ->
            subscribe handshake session_id c
              = (Raise (foreign ConnectionClosed "connection is closed"), c)).
  { intros c w Hw Hc Hin. unfold subscribe. rewrite Hw.
    rewrite bool_decide_eq_true_2 by exact Hin.
    rewrite Hw. unfold websockets.send. rewrite Hc. reflexivity. }
  split.
  - intros Hws Hc Hin. split; [|reflexivity]. eapply Hclosed; eassumption.
  - intros Hws.
    destruct (websockets.closed ws) eqn:Hc.
    + apply (Hclosed _ ws).
      * unfold disconnect. cbn. rewrite Hws, Hc. cbn. exact Hws.
      * exact Hc.
      * unfold disconnect. cbn. set_solver.
    + apply (Hclosed _ (websockets.close ws)).
      * unfold disconnect. cbn. rewrite Hws, Hc. reflexivity.
      * reflexivity.
      * unfold disconnect. cbn. set_solver.
Qed.

Lemma subscribe_never_reconnects_witness :
  subscribe accepting 2%N (disconnect ws_subscribed)
    = (Raise (foreign ConnectionClosed "connection is closed"),
       disconnect ws_subscribed).
Proof.
  apply (proj2 (subscribe_never_reconnects accepting 2%N ws_subscribed
                  (websockets.make false [Control "subscribe" 1%N]))).
  reflexivity.
Defined.

Lemma is_open_disconnect (self : WebSocketClient) :
  is_open (disconnect self) = false.
Proof.
  unfold disconnect, is_open. cbn.
  destruct (_websocket self) as [ws|] eqn:Hws; cbn.
  - destruct (websockets.closed ws) eqn:Hc; cbn; rewrite ?Hws, ?Hc; reflexivity.
  - rewrite Hws. reflexivity.
Qed.

(** X17.  Leaving and coming back: after [disconnect], a [connect] goes
    through the handshake again and installs the new socket; the client is
    then running, holds no subscription, and still has its queued events.
    A [subscribe] on it writes its frame to the new socket: the sessions of
    the old connection have to be subscribed again. *)
Theorem reconnect_after_disconnect
    (handshake : string -> result websockets.WebSocketClientProtocol)
    (session_id : UUID) (self : WebSocketClient) (url : string)
    (ws : websockets.WebSocketClientProtocol) :
  _build_ws_url self = Return url ->
  handshake url = Return ws ->
  websockets.closed ws = false ->
  exists connected subscribed,
    connect handshake (disconnect self) = (Return (), connected)
    /\ _websocket connected = Some ws
    /\ _running connected = true
    /\ _subscriptions connected = ∅
    /\ _event_queue connected = _event_queue self
    /\ subscribe handshake session_id connected = (Return (), subscribed)
    /\ _subscriptions subscribed = {[session_id]}
    /\ _websocket subscribed
       = Some (websockets.make false
                 (websockets.sent ws ++ [Control "subscribe" session_id])).
Proof.
  intros Hu Hh Hc.
  assert (Hurl : _build_ws_url (disconnect self) = Return url).
  { rewrite <- Hu. unfold _build_ws_url, disconnect. cbn.
    destruct (_websocket self) as [w|]; [destruct (websockets.closed w)|];
      reflexivity. }
  exists (set_running true (set_websocket (Some ws) (disconnect self))).
  eexists. split.
  { unfold connect. rewrite is_open_disconnect, Hurl, Hh. reflexivity. }
  split; [reflexivity|]. split; [reflexivity|]. split; [reflexivity|].
  split.
  { unfold disconnect. cbn.
    destruct (_websocket self) as [w|]; [destruct (websockets.closed w)|];
      reflexivity. }
  split.
  { apply (subscribe_first handshake session_id _ ws); [reflexivity|exact Hc|].
    cbn. apply not_elem_of_empty. }
  split; [|reflexivity].
  cbn. apply set_eq. intros x.
  rewrite elem_of_union, elem_of_singleton, elem_of_empty. tauto.
Qed.

Lemma reconnect_after_disconnect_witness :
  exists connected subscribed,
    connect accepting (disconnect ws_two) = (Return (), connected)
    /\ _websocket connected = Some (websockets.make false [])
    /\ _running connected = true
    /\ _subscriptions connected = ∅
    /\ _event_queue connected = _event_queue ws_two
    /\ subscribe accepting 1%N connected = (Return (), subscribed)
    /\ _subscriptions subscribed = {[ 1%N ]}
    /\ _websocket subscribed
       = Some (websockets.make false ([] ++ [Control "subscribe" 1%N])).
Proof.
  apply (reconnect_after_disconnect accepting 1%N ws_two
           "wss://api.aion.dev/ws/progress?api_key=key"
           (websockets.make false []));
    reflexivity.
Defined.

(** X18.  [unsubscribe] on a client that has a socket removes its session
    exactly when it returns and touches no other session; it raises only
    when the session is registered and the socket is closed, the
    [ConnectionClosed] of the library, and then the client is as it was and
    the session stays registered.  For a session that is not registered it
    writes no frame and changes nothing.  It never changes the event queue
    or the running flag. *)
Theorem unsubscribe_effect (session_id : UUID) (self : WebSocketClient) :
  (is_Some (_websocket self) ->
   _subscriptions (snd (unsubscribe session_id self))
     = match fst (unsubscribe session_id self) with
       | Return _ => _subscriptions self ∖ {[session_id]}
       | Raise _ => _subscriptions self
       end)
  /\ (forall e, fst (unsubscribe session_id self) = Raise e ->
        cls e = ConnectionClosed
        /\ snd (unsubscribe session_id self) = self
        /\ session_id ∈ _subscriptions self
        /\ is_open self = false)
  /\ (session_id ∉ _subscriptions self ->
      unsubscribe session_id self = (Return (), self))
  /\ _event_queue (snd (unsubscribe session_id self)) = _event_queue self
  /\ _running (snd (unsubscribe session_id self)) = _running self.
Proof.
  unfold unsubscribe, is_open.
  destruct (_websocket self) as [ws|] eqn:Hws.
  - destruct (bool_decide (session_id ∈ _subscriptions self)) eqn:Hin.
    + apply bool_decide_eq_true in Hin. unfold websockets.send.
      destruct (websockets.closed ws) eqn:Hc; cbn.
      * split; [reflexivity|]. split.
        -- intros e [= <-]. repeat split. exact Hin.
        -- split; [intros Hn; contradiction|]. split; reflexivity.
      * split; [reflexivity|]. split; [intros e [=]|].
        split; [intros Hn; contradiction|]. split; reflexivity.
    + apply bool_decide_eq_false in Hin. cbn.
      split.
      * intros _. apply set_eq. intros x.
        rewrite elem_of_difference, elem_of_singleton.
        split; [intros Hx; split; [exact Hx | intros ->; contradiction] | tauto].
      * split; [intros e [=]|]. repeat split.
  - cbn. split; [intros [x [=]]|]. split; [intros e [=]|]. repeat split.
Qed.

Lemma unsubscribe_effect_witness :
  _subscriptions (snd (unsubscribe 1%N ws_two))
    = match fst (unsubscribe 1%N ws_two) with
      | Return _ => _subscriptions ws_two ∖ {[ 1%N ]}
      | Raise _ => _subscriptions ws_two
      end
  /\ unsubscribe 3%N ws_two = (Return (), ws_two).
Proof.
  destruct (unsubscribe_effect 1%N ws_two) as (H1 & _).
  destruct (unsubscribe_effect 3%N ws_two) as (_ & _ & H3 & _).
  split.
  - apply H1. eexists. reflexivity.
  - apply H3. cbn. intros H. apply elem_of_union in H as [H|H];
      apply elem_of_singleton in H; discriminate H.
Defined.

(** X19.  The [SessionListener] scope.  When [__aenter__] cannot subscribe,
    its exception is raised and the body does not run.  When the body ends
    with the socket open, leaving the scope hands on the outcome of the
    body and removes the session from the subscription set, also when the
    session was subscribed before the scope was entered; the socket stays
    open.  When the body ends with the socket closed (the connection was
    lost during the scope), [__aexit__] raises the library's
    [ConnectionClosed] in place of the outcome of the body, and the session
    stays registered. *)
Theorem session_listener_scope {A : Type}
    (handshake : string -> result websockets.WebSocketClientProtocol)
    (session_id : UUID)
    (body : WebSocketClient -> result A * WebSocketClient)
    (client : WebSocketClient) :
  (forall e entered,
     subscribe handshake session_id client = (Raise e, entered) ->
     session_listener handshake session_id body client = (Raise e, entered))
  /\ (forall entered outcome after,
        subscribe handshake session_id client = (Return (), entered) ->
        body entered = (outcome, after) ->
        session_id ∈ _subscriptions after ->
        is_open after = true ->
        exists left,
          session_listener handshake session_id body client = (outcome, left)
          /\ _subscriptions left = _subscriptions after ∖ {[session_id]}
          /\ is_open left = true)
  /\ (forall entered outcome after ws,
        subscribe handshake session_id client = (Return (), entered) ->
        body entered = (outcome, after) ->
        session_id ∈ _subscriptions after ->
        _websocket after = Some ws ->
        websockets.closed ws = true ->
        session_listener handshake session_id body client
          = (Raise (foreign ConnectionClosed "connection is closed"), after)).
Proof.
  unfold session_listener. split; [|split].
  - intros e entered ->. reflexivity.
  - intros entered outcome after -> -> Hin Hopen.
    unfold unsubscribe, is_open in *.
    destruct (_websocket after) as [ws|] eqn:Hws; [|discriminate Hopen].
    rewrite bool_decide_eq_true_2 by exact Hin.
    unfold websockets.send.
    destruct (websockets.closed ws); [discriminate Hopen|].
    eexists. split; [reflexivity|]. split; reflexivity.
  - intros entered outcome after ws -> -> Hin Hws Hc.
    unfold unsubscribe. rewrite Hws.
    rewrite bool_decide_eq_true_2 by exact Hin.
    unfold websockets.send. rewrite Hc. reflexivity.
Qed.

Lemma session_listener_scope_witness :
  (exists left,
     session_listener accepting 1%N body_idle ws_subscribed = (Return (), left)
     /\ _subscriptions left = _subscriptions ws_subscribed ∖ {[ 1%N ]}
     /\ is_open left = true)
  /\ session_listener accepting 1%N body_connection_lost ws_open
     = (Raise (foreign ConnectionClosed "connection is closed"),
        snd (_message_handler Closed ws_subscribed)).
Proof.
  destruct (session_listener_scope accepting 1%N body_idle ws_subscribed)
    as (_ & Hopen & _).
  destruct (session_listener_scope accepting 1%N body_connection_lost ws_open)
    as (_ & _ & Hlost).
  split.
  - apply (Hopen ws_subscribed (Return ()) ws_subscribed).
    + vm_compute. reflexivity.
    + reflexivity.
    + cbn. apply elem_of_singleton. reflexivity.
    + reflexivity.
  - apply (Hlost ws_subscribed (Return ()) _
             (websockets.make true [Control "subscribe" 1%N])).
    + vm_compute. reflexivity.
    + reflexivity.
    + cbn. apply elem_of_singleton. reflexivity.
    + reflexivity.
    + reflexivity.
Defined.

Lemma settle_polls (n : nat) (self : WebSocketClient) :
  settle (repeat Poll n) self = self.
Proof. induction n as [|n IH]; [reflexivity | exact IH]. Qed.

(** Once the flag is clear and nothing arrives, [events] hands over the
    queue and ends. *)
Lemma consume_events_drains (q : list ProgressEvent.t) :
  forall (n : nat) (self : WebSocketClient),
    _event_queue self = q ->
    _running self = false ->
    (length q < n)%nat ->
    consume events (repeat Poll n) self = (q, true, set_event_queue [] self).
Proof.
  induction q as [|ev q IH]; intros n self Hq Hr Hn;
    (destruct n as [|n]; [cbn in Hn; lia|]); cbn [repeat consume].
  - rewrite (events_end self Hq Hr), settle_polls.
    destruct self; cbn in *; subst; reflexivity.
  - rewrite (events_cons self ev q Hq).
    rewrite (IH n (set_event_queue q self)); [reflexivity | reflexivity | exact Hr |].
    cbn in Hn. lia.
Qed.

(** X20.  [disconnect] can be repeated without effect, and it does not
    discard the events already queued: a consumer of [events] is still
    handed all of them, in order, and only then does its loop end. *)
Theorem disconnect_keeps_queued_events (self : WebSocketClient) :
  disconnect (disconnect self) = disconnect self
  /\ _event_queue (disconnect self) = _event_queue self
  /\ forall n : nat,
       (length (_event_queue self) < n)%nat ->
       consume events (repeat Poll n) (disconnect self)
         = (_event_queue self, true, set_event_queue [] (disconnect self)).
Proof.
  assert (Hq : _event_queue (disconnect self) = _event_queue self).
  { unfold disconnect. cbn.
    destruct (_websocket self) as [w|]; [destruct (websockets.closed w)|];
      reflexivity. }
  split; [|split; [exact Hq|]].
  - unfold disconnect. cbn.
    destruct (_websocket self) as [w|] eqn:Hws; cbn.
    + destruct (websockets.closed w) eqn:Hc; cbn; rewrite ?Hws, ?Hc; reflexivity.
    + rewrite Hws. reflexivity.
  - intros n Hn. apply consume_events_drains; [exact Hq | | exact Hn].
    unfold disconnect. cbn.
    destruct (_websocket self) as [w|]; [destruct (websockets.closed w)|];
      reflexivity.
Qed.

Lemma disconnect_keeps_queued_events_witness :
  consume events (repeat Poll 3)
    (disconnect (set_event_queue [progress1; completed1] ws_subscribed))
  = ([progress1; completed1], true,
     set_event_queue []
       (disconnect (set_event_queue [progress1; completed1] ws_subscribed))).
Proof.
  apply (proj2 (proj2 (disconnect_keeps_queued_events
                         (set_event_queue [progress1; completed1]
                            ws_subscribed)))).
  cbn. lia.
Defined.

(** ** Server-Sent-Events framing *)

Lemma substring_all (s : string) : String.substring 0 (String.length s) s = s.
Proof. induction s as [|c s IH]; cbn; [reflexivity|]. rewrite IH. reflexivity. Qed.

Lemma payload_of_data_line (s : string) : payload ("data: " +:+ s) = s.
Proof.
  unfold payload.
  change ("data: " +:+ s)
    with (String "d" (String "a" (String "t" (String "a"
            (String ":" (String " " s)))))).
  cbn [String.length String.substring Nat.sub].
  rewrite Nat.sub_0_r. apply substring_all.
Qed.

Lemma prefix_of_data_line (s : string) :
  String.prefix "data: " ("data: " +:+ s) = true.
Proof. destruct s; reflexivity. Qed.

Section Framing.
Variable loads_event : string -> option ProgressEvent.t.

Lemma subscribe_sse_app (l1 l2 : list string) :
  subscribe_sse loads_event (l1 ++ l2)
    = subscribe_sse loads_event l1 ++ subscribe_sse loads_event l2.
Proof.
  induction l1 as [|line l1 IH]; [reflexivity|]. cbn.
  destruct (String.prefix "data: " line); [|exact IH].
  destruct (loads_event (payload line)); cbn; rewrite IH; reflexivity.
Qed.

Lemma listener_loop_fails (evs : list ProgressEvent.t) (e : exn) :
  Forall (fun ev => is_completion ev = false) evs ->
  listener_loop evs (Some e) = Raise e.
Proof.
  induction 1 as [|ev evs Hev _ IH]; [reflexivity|].
  cbn. rewrite Hev. exact IH.
Qed.

End Framing.

(** X21.  The framing of [subscribe_sse].  A line ["data: " + s] hands
    exactly [s] to the decoder, and gives one event when [s] decodes and
    none when it does not; a line that does not start with ["data: "] (the
    blank in it included) gives nothing; and the events of a stream are
    those of its lines in order, so that reading in pieces gives the same
    events as reading at once. *)
Theorem subscribe_sse_framing
    (loads_event : string -> option ProgressEvent.t) :
  (forall s, payload ("data: " +:+ s) = s)
  /\ (forall s,
        subscribe_sse loads_event ["data: " +:+ s]
          = match loads_event s with
            | Some event => [event]
            | None => []
            end)
  /\ (forall line, String.prefix "data: " line = false ->
        subscribe_sse loads_event [line] = [])
  /\ (forall l1 l2,
        subscribe_sse loads_event (l1 ++ l2)
          = subscribe_sse loads_event l1 ++ subscribe_sse loads_event l2)
  /\ (forall lines,
        (length (subscribe_sse loads_event lines) <= length lines)%nat).
Proof.
  split; [exact payload_of_data_line|]. split; [|split; [|split]].
  - intros s. cbn [subscribe_sse].
    rewrite prefix_of_data_line, payload_of_data_line.
    destruct (loads_event s); reflexivity.
  - intros line Hp. cbn. rewrite Hp. reflexivity.
  - apply subscribe_sse_app.
  - induction lines as [|line lines IH]; [reflexivity|]. cbn.
    destruct (String.prefix "data: " line); [|lia].
    destruct (loads_event (payload line)); cbn; lia.
Qed.

Lemma subscribe_sse_framing_witness :
  subscribe_sse completed_loads ["data:completed"] = []
  /\ subscribe_sse completed_loads ["data: " +:+ "completed"] = [completed1].
Proof.
  destruct (subscribe_sse_framing completed_loads) as (_ & Hdata & Hother & _).
  split.
  - apply Hother. reflexivity.
  - rewrite Hdata. reflexivity.
Defined.

(** X22.  [ProgressListener.wait_for_completion] returns the first
    completion event of the stream and reads no further: a break of the
    stream after that event is never raised.  An error status of the
    response is raised before any line is read, and a break of the stream
    before any completion event is raised as it is. *)
Theorem listener_first_completion
    (loads_event : string -> option ProgressEvent.t) (response : sse.stream) :
  (forall e, sse.status_error response = Some e ->
     listener_wait_for_completion loads_event response = Raise e)
  /\ (forall pre event post,
        sse.status_error response = None ->
        subscribe_sse loads_event (sse.lines response) = pre ++ event :: post ->
        Forall (fun ev => is_completion ev = false) pre ->
        is_completion event = true ->
        listener_wait_for_completion loads_event response
          = Return (Some event))
  /\ (forall e,
        sse.status_error response = None ->
        sse.failure response = Some e ->
        Forall (fun ev => is_completion ev = false)
               (subscribe_sse loads_event (sse.lines response)) ->
        listener_wait_for_completion loads_event response = Raise e).
Proof.
  unfold listener_wait_for_completion. split; [|split].
  - intros e ->. reflexivity.
  - intros pre event post -> -> Hpre He.
    apply listener_loop_first; assumption.
  - intros e -> -> Hall. apply listener_loop_fails, Hall.
Qed.

Lemma listener_first_completion_witness :
  listener_wait_for_completion completed_loads broken_stream
    = Return (Some completed1).
Proof.
  apply (proj1 (proj2 (listener_first_completion completed_loads broken_stream))
           [progress1] completed1 [progress1]).
  - reflexivity.
  - reflexivity.
  - repeat constructor.
  - reflexivity.
Defined.

(** ** The status carried by an API error *)

(** X23.  For every response outside 2xx whose body decodes as JSON and
    whose status is not 400, the error raised is an [AionAPIError] (of the
    class of its status) that carries the status of the response; it is a
    client error exactly for 4xx and a server error exactly for 5xx, never
    both, and neither for the other statuses; and it is retryable exactly
    for 5xx and 429. *)
Theorem api_error_carries_status `{rt : PyRuntime} (r : httpx.Response)
    (v : value) :
  httpx.is_success r = false ->
  httpx.status_code r <> 400 ->
  httpx.json r = Some v ->
  exists e,
    _handle_response r = Raise e
    /\ isinstance e AionAPIError = true
    /\ status_code e = Some (httpx.status_code r)
    /\ is_client_error e
       = ((400 <=? httpx.status_code r) && (httpx.status_code r <? 500))
    /\ is_server_error e
       = ((500 <=? httpx.status_code r) && (httpx.status_code r <? 600))
    /\ is_client_error e && is_server_error e = false
    /\ is_retryable e
       = Some ((500 <=? httpx.status_code r) && (httpx.status_code r <? 600)
               || (httpx.status_code r =? 429)).
Proof.
  intros Hok H400 Hj.
  assert (Hgen : forall e,
            status_code e = Some (httpx.status_code r) ->
            is_client_error e
              = ((400 <=? httpx.status_code r) && (httpx.status_code r <? 500))
            /\ is_server_error e
               = ((500 <=? httpx.status_code r) && (httpx.status_code r <? 600))
            /\ is_client_error e && is_server_error e = false).
  { intros e He. unfold is_client_error, is_server_error. rewrite He.
    split; [reflexivity|]. split; [reflexivity|].
    destruct (Z.leb_spec 400 (httpx.status_code r)),
             (Z.ltb_spec (httpx.status_code r) 500),
             (Z.leb_spec 500 (httpx.status_code r)),
             (Z.ltb_spec (httpx.status_code r) 600); cbn; try reflexivity; lia. }
  destruct (Z.eq_dec (httpx.status_code r) 401) as [H1|H1];
    [|destruct (Z.eq_dec (httpx.status_code r) 403) as [H3|H3];
      [|destruct (Z.eq_dec (httpx.status_code r) 404) as [H4|H4];
        [|destruct (Z.eq_dec (httpx.status_code r) 429) as [H9|H9]]]].
  - destruct (classify_401 r H1) as (e & He & Hc & Hs & Hr).
    rewrite <- H1 in Hs. destruct (Hgen e Hs) as (Hce & Hse & Hx).
    exists e. unfold isinstance. rewrite Hc.
    do 6 (split; [first [assumption | reflexivity]|]).
    rewrite Hr, H1. reflexivity.
  - destruct (classify_403 r H3) as (e & He & Hc & Hs & Hr).
    rewrite <- H3 in Hs. destruct (Hgen e Hs) as (Hce & Hse & Hx).
    exists e. unfold isinstance. rewrite Hc.
    do 6 (split; [first [assumption | reflexivity]|]).
    rewrite Hr, H3. reflexivity.
  - destruct (classify_404 r H4) as (e & He & Hc & Hs & Hr).
    rewrite <- H4 in Hs. destruct (Hgen e Hs) as (Hce & Hse & Hx).
    exists e. unfold isinstance. rewrite Hc.
    do 6 (split; [first [assumption | reflexivity]|]).
    rewrite Hr, H4. reflexivity.
  - destruct (classify_429 r H9) as (e & He & Hc & Hs & Hr).
    rewrite <- H9 in Hs. destruct (Hgen e Hs) as (Hce & Hse & Hx).
    exists e. unfold isinstance. rewrite Hc.
    do 6 (split; [first [assumption | reflexivity]|]).
    rewrite Hr, H9. reflexivity.
  - destruct (classify_other r v Hok H1 H3 H4 H400 H9 Hj)
      as (e & He & Hc & Hs & Hr).
    destruct (Hgen e Hs) as (Hce & Hse & Hx).
    exists e. unfold isinstance. rewrite Hc.
    do 6 (split; [first [assumption | reflexivity]|]).
    rewrite Hr.
    destruct (Z.eqb_spec (httpx.status_code r) 429); [contradiction|].
    rewrite orb_false_r. reflexivity.
Qed.

Lemma api_error_carries_status_witness :
  exists e,
    _handle_response (rt := typed_runtime) r404 = Raise e
    /\ isinstance e AionAPIError = true
    /\ status_code e = Some 404.
Proof.
  destruct (api_error_carries_status (rt := typed_runtime) r404 _
              eq_refl ltac:(discriminate) eq_refl) as (e & He & Hi & Hs & _).
  exists e. split; [exact He|]. split; [exact Hi | exact Hs].
Defined.

(** ** clean_all_emojis.py *)

Lemma remove_emojis_idempotent (t : text) :
  remove_emojis (remove_emojis t) = remove_emojis t.
Proof.
  unfold remove_emojis. induction t as [|c t IH]; [reflexivity|].
  cbn [List.filter]. destruct (is_emoji c) eqn:Hc; cbn [negb]; [exact IH|].
  cbn [List.filter]. rewrite Hc. cbn [negb]. now rewrite IH.
Qed.

Lemma remove_emojis_fixed (t : text) :
  remove_emojis t = t <-> List.Forall (fun c => is_emoji c = false) t.
Proof.
  unfold remove_emojis. induction t as [|c t IH].
  - split; [constructor | reflexivity].
  - cbn [List.filter]. destruct (is_emoji c) eqn:Hc; cbn [negb].
    + split.
      * intros H.
        assert (Hl : (List.length (List.filter (fun c => negb (is_emoji c)) t)
                      <= List.length t)%nat) by apply List.filter_length_le.
        rewrite H in Hl. cbn [List.length] in Hl. lia.
      * intros H. inversion H; subst. congruence.
    + split.
      * intros H. injection H as H. constructor; [exact Hc | now apply IH].
      * intros H. inversion H; subst. f_equal. now apply IH.
Qed.






(** X24. [remove_emojis] keeps exactly the characters outside the emoji
    ranges, in their order: no character of its result is an emoji, a text
    is unchanged if and only if it holds no emoji, cleaning twice is
    cleaning once, and it distributes over concatenation. *)
Theorem remove_emojis_spec (t u : text) :
  List.Forall (fun c => is_emoji c = false) (remove_emojis t)
  /\ (forall c, c ∈ remove_emojis t <-> c ∈ t /\ is_emoji c = false)
  /\ (remove_emojis t = t <-> List.Forall (fun c => is_emoji c = false) t)
  /\ remove_emojis (remove_emojis t) = remove_emojis t
  /\ remove_emojis (t ++ u) = remove_emojis t ++ remove_emojis u.
Proof.
  split; [|split; [|split; [|split]]].
  - apply remove_emojis_fixed, remove_emojis_idempotent.
  - intros c. unfold remove_emojis.
    rewrite !list_elem_of_In, List.filter_In, negb_true_iff. reflexivity.
  - apply remove_emojis_fixed.
  - apply remove_emojis_idempotent.
  - unfold remove_emojis. apply List.filter_app.
Qed.





(** The sample directory: only the report is rewritten; the rocket and
    the check mark are gone from it, and the text file keeps its rocket. *)
Example main_sample :
  let out := main ["notes.txt"; "REPORT.md"; "README.md"] sample_files in
  fst out = ["REPORT.md"]
  /\ files (snd out) !! "REPORT.md" = Some [0x48; 0x69]%N
  /\ files (snd out) !! "README.md" = Some [0x48; 0x69]%N
  /\ files (snd out) !! "notes.txt" = Some [0x1F680]%N.
Proof. vm_compute. repeat split; reflexivity. Qed.
